(** * PulseSpace: the client-side synchronisation layer, embedded in Rocq

    The React components of the repository keep per-screen caches
    ([useState] arrays) in step with a hosted backend that is reached
    through [supabase.from(...)] calls and [postgres_changes]
    subscriptions.  This development embeds the handlers that the
    specification talks about:

    - [Feed] ([handlePostLike], the posts subscription and its select),
    - [CreatePost] ([handleSubmit]),
    - [CommentSection] (the comments subscription, [handleSubmit]),
    - [ChatWindow] (the messages subscription),
    - [ChatList] ([createOrGetChat]),
    - [AuthProvider] ([onAuthStateChange], [createProfileIfNeeded]),
    - [Navigation] ([fetchUnreadCounts] and the two subscriptions).

    An [await] on a gateway call is a suspension point.  Where a claim
    depends on what happens between the call and its settlement (the
    like toggle) the handler is split at its awaits and the component
    becomes a transition system over clicks and settlements.  The other
    handlers are written in a small exception-and-state monad, with the
    settlement of every await given as an input. *)

From Stdlib Require Import ZArith Lia Bool Ascii String Sorted.
From stdpp Require Import base option list strings.

Open Scope string_scope.

(** ** JavaScript values used by the handlers *)

Module Js.

(** [String.prototype.includes]. *)
Fixpoint includes (needle hay : string) : bool :=
  String.prefix needle hay
  || match hay with
     | EmptyString => false
     | String _ rest => includes needle rest
     end.

(** [s.split(sep)[0]] for a one-character separator: the part of [s]
    before the first [sep], or all of [s] when [sep] does not occur. *)
Fixpoint split_head (sep : ascii) (s : string) : string :=
  match s with
  | EmptyString => EmptyString
  | String c rest =>
      if Ascii.eqb c sep then EmptyString else String c (split_head sep rest)
  end.

(** A string is a sequence of code units below 256 here.  The
    characters matched by [\s] among them: tab, line feed, vertical
    tab, form feed, carriage return, space and the no-break space
    U+00A0.  The white space of ECMAScript above U+00FF (U+2028,
    U+FEFF, ...) has no code in the model. *)
Definition is_space (c : ascii) : bool :=
  let n := nat_of_ascii c in
  ((9 <=? n)%nat && (n <=? 13)%nat) || (n =? 32)%nat || (n =? 160)%nat.

(** [s.replace(/\s+/g, "")]. *)
Fixpoint strip_spaces (s : string) : string :=
  match s with
  | EmptyString => EmptyString
  | String c rest =>
      if is_space c then strip_spaces rest else String c (strip_spaces rest)
  end.

(** [toLowerCase] on one code unit below 256: the letters A to Z, and
    the capitals U+00C0 to U+00DE except the sign U+00D7, move up by
    32. *)
Definition lower (c : ascii) : ascii :=
  let n := nat_of_ascii c in
  if ((65 <=? n)%nat && (n <=? 90)%nat)
     || ((192 <=? n)%nat && (n <=? 222)%nat && negb (n =? 215)%nat)
  then ascii_of_nat (n + 32) else c.

Fixpoint toLowerCase (s : string) : string :=
  match s with
  | EmptyString => EmptyString
  | String c rest => String (lower c) (toLowerCase rest)
  end.

(** [s.trim()]: white space is taken off both ends. *)
Fixpoint trimStart (s : string) : string :=
  match s with
  | String c rest => if is_space c then trimStart rest else s
  | EmptyString => EmptyString
  end.

Fixpoint rev_string (acc s : string) : string :=
  match s with
  | EmptyString => acc
  | String c rest => rev_string (String c acc) rest
  end.

Definition trim (s : string) : string :=
  rev_string "" (trimStart (rev_string "" (trimStart s))).

(** Truthiness of a string: [""] is falsy. *)
Definition truthy (s : string) : bool :=
  match s with EmptyString => false | _ => true end.

(** [`${n}`] for a non-negative integer [n]: its decimal digits. *)
Definition digit (n : nat) : ascii := ascii_of_nat (48 + n).

Fixpoint digits (fuel n : nat) (acc : string) : string :=
  match fuel with
  | 0 => acc
  | S fuel' =>
      let acc' := String (digit (n mod 10)) acc in
      if (n / 10 =? 0)%nat then acc' else digits fuel' (n / 10) acc'
  end.

Definition of_nat (n : nat) : string := digits (S n) n "".

(** Truthiness of a nullable object. *)
Definition is_Some_b {A} (o : option A) : bool :=
  match o with Some _ => true | None => false end.

(** [Array.prototype.findIndex]; [None] stands for [-1]. *)
Fixpoint findIndex {A} (p : A -> bool) (l : list A) : option nat :=
  match l with
  | [] => None
  | x :: rest => if p x then Some 0 else S <$> findIndex p rest
  end.

End Js.

(** ** The Remote Data Gateway as the handlers see it *)

Module Gateway.

(** The [error] object of a supabase response. *)
Record PgError := { code : string; message : string }.

(** [{ data, error }]: what an awaited query or mutation resolves to. *)
Record Response (A : Type) := { data : option A; error : option PgError }.
Arguments data {A} _.
Arguments error {A} _.

(** How an awaited promise settles. *)
Inductive Settled (A : Type) :=
| Fulfilled (r : Response A)
| Rejected (reason : string).
Arguments Fulfilled {A} r.
Arguments Rejected {A} reason.

Definition ok {A} (a : A) : Settled A :=
  Fulfilled {| data := Some a; error := None |}.

Definition failed {A} (e : PgError) : Settled A :=
  Fulfilled {| data := None; error := Some e |}.

Definition fulfilled {A} (r : Settled A) : bool :=
  match r with Fulfilled _ => true | Rejected _ => false end.

Definition succeeded {A} (r : Settled A) : bool :=
  match r with
  | Fulfilled {| Gateway.error := None |} => true
  | _ => false
  end.

(** The records of the settlements that carry one and no error. *)
Definition fetched {A} (rs : list (Settled A)) : list A :=
  omap (fun r =>
          match r with
          | Fulfilled {| data := Some a; error := None |} => Some a
          | _ => None
          end) rs.


(** The error kinds of the specification, as response errors. *)
Definition NetworkError : PgError :=
  {| code := ""; message := "TypeError: Failed to fetch" |}.

Definition ConflictError : PgError :=
  {| code := "23505";
     message := "duplicate key value violates unique constraint" |}.

(** [.single()] on an empty result. *)
Definition NoRows : PgError :=
  {| code := "PGRST116";
     message := "JSON object requested, multiple (or no) rows returned" |}.

(** The payload of [from("notifications").insert({...})]. *)
Record NotificationRow := {
  n_user_id : string;
  n_type : string;
  n_related_id : string;
  n_from_user_id : string;
  n_is_read : bool
}.

(** What a handler does to the outside world, in the order it does
    it: the mutations it sends to the gateway, its console output,
    and the navigations it starts. *)
Inductive Effect :=
| LikesDelete (post_id user_id : string)
| LikesInsert (post_id user_id : string)
| NotificationsInsert (row : NotificationRow)
| CommentsInsert (post_id user_id content : string)
| PostsInsert (user_id content : string) (image_url : option string)
| ProfilesInsert (id username : string) (avatar_url : option string)
| ChatsInsert (name : option string) (is_group : bool) (created_by : string)
| ChatMembersInsert (rows : list (string * string))
| StorageUpload (bucket path : string)
| ConsoleLog (msg : string)
| ConsoleWarn (msg : string)
| ConsoleError (msg : string)
| Navigate (href : string).

Definition is_mutation (e : Effect) : bool :=
  match e with
  | ConsoleLog _ | ConsoleWarn _ | ConsoleError _ | Navigate _ => false
  | _ => true
  end.

Definition is_notification_insert (e : Effect) : bool :=
  match e with NotificationsInsert _ => true | _ => false end.

Definition mutations (t : list Effect) : list Effect := List.filter is_mutation t.

Definition notification_inserts (t : list Effect) : list Effect :=
  List.filter is_notification_insert t.

End Gateway.

Import Gateway.

(** ** Effects of the other components *)

Module Ui.

(** What the components below do beyond the effects of [Gateway]:
    the other writes they send, and what they show or start in the
    browser. *)
Inductive Action :=
| Base (e : Gateway.Effect)
| MessagesInsert (chat_id user_id content : string)
| MessagesDelete (chat_id : string)
| ChatMembersDelete (chat_id : string) (user_id : option string)
| ChatsDelete (id : string)
| ChatsUpdate (id name : string)
| ProfilesUpdate (id avatar_url : string)
| AuthUpdateUser (password : string)
| Alert (msg : string)
| RouterRefresh
| SetTimeoutPush (href : string) (ms : nat)
| OnClose
| OnMembersAdded (ids : list string).

(** The writes among them: everything that reaches the backend. *)
Definition is_write (a : Action) : bool :=
  match a with
  | Base e => Gateway.is_mutation e
  | MessagesInsert _ _ _ | MessagesDelete _ | ChatMembersDelete _ _
  | ChatsDelete _ | ChatsUpdate _ _ | ProfilesUpdate _ _
  | AuthUpdateUser _ => true
  | _ => false
  end.

Definition writes (t : list Action) : list Action := List.filter is_write t.

End Ui.

(** ** Types of [@supabase/supabase-js] that the components read *)

Module Supabase.

Record UserMetadata := {
  full_name : option string;
  avatar_url : option string
}.

Record User := {
  id : string;
  email : option string;
  user_metadata : option UserMetadata;
  last_sign_in_at : option string
}.

Record Session := { access_token : string; user : User }.

(** The [_event] argument of an [onAuthStateChange] callback. *)
Inductive AuthChangeEvent :=
| INITIAL_SESSION
| SIGNED_IN
| SIGNED_OUT
| TOKEN_REFRESHED
| USER_UPDATED
| PASSWORD_RECOVERY.

End Supabase.

(** ** [Feed] (components/feed) *)

Module Feed.

Record Profiles := { username : string; avatar_url : option string }.

Record Post := {
  id : string;
  content : string;
  image_url : option string;
  created_at : string;
  user_id : string;
  profiles : Profiles;
  likes_count : Z;
  comments_count : Z;
  user_has_liked : bool
}.

(** A row of the [posts] select with its embedded resources, before
    the component transforms it: [likes_count] and [comments_count]
    arrive as arrays of [{count}], [user_has_liked] as the array of
    the likers' ids. *)
Record PostRow := {
  row_id : string;
  row_content : string;
  row_image_url : option string;
  row_created_at : string;
  row_user_id : string;
  row_profiles : Profiles;
  row_likes_count : list Z;
  row_comments_count : list Z;
  row_user_has_liked : list string
}.

(** [xs[0]?.count || 0]. *)
Definition first_count (xs : list Z) : Z :=
  match xs with
  | [] => 0
  | c :: _ => c
  end.

(** The object literal built in [fetchPosts] and [fetchNewPost]. *)
Definition transform (uid : string) (r : PostRow) : Post :=
  {| id := row_id r;
     content := row_content r;
     image_url := row_image_url r;
     created_at := row_created_at r;
     user_id := row_user_id r;
     profiles := row_profiles r;
     likes_count := first_count (row_likes_count r);
     comments_count := first_count (row_comments_count r);
     user_has_liked := existsb (String.eqb uid) (row_user_has_liked r) |}.

(** [{ ...post, likes_count: n, user_has_liked: b }]. *)
Definition with_like (post : Post) (n : Z) (b : bool) : Post :=
  {| id := id post;
     content := content post;
     image_url := image_url post;
     created_at := created_at post;
     user_id := user_id post;
     profiles := profiles post;
     likes_count := n;
     comments_count := comments_count post;
     user_has_liked := b |}.

(** The await at which a call of [handlePostLike] is suspended. *)
Inductive Await :=
| AwaitDelete          (* likes.delete() of the unlike branch *)
| AwaitInsert          (* likes.insert() of the like branch *)
| AwaitNotification.   (* notifications.insert() of the like branch *)

(** A suspended call of [handlePostLike]: the await it waits on and
    the locals it closed over ([postId], [postIndex], [post],
    [newPosts], and [user.id]). *)
Record Call := {
  stage : Await;
  postId : string;
  postIndex : nat;
  post : Post;
  newPosts : list Post;
  uid : string
}.

(** The component between two handlers: its [useState] cells, the
    calls of [handlePostLike] that are suspended, and the effects so
    far. *)
Record State := {
  posts : list Post;
  loading : bool;
  error : option string;
  inflight : list Call;
  trace : list Effect
}.

Definition setPosts (ps : list Post) (st : State) : State :=
  {| posts := ps; loading := loading st; error := error st;
     inflight := inflight st; trace := trace st |}.

Definition emit (e : Effect) (st : State) : State :=
  {| posts := posts st; loading := loading st; error := error st;
     inflight := inflight st; trace := trace st ++ [e] |}.

Definition suspend (c : Call) (st : State) : State :=
  {| posts := posts st; loading := loading st; error := error st;
     inflight := inflight st ++ [c]; trace := trace st |}.

Definition resume (k : nat) (st : State) : State :=
  {| posts := posts st; loading := loading st; error := error st;
     inflight := delete k (inflight st); trace := trace st |}.

(** [handlePostLike(postId)] from its first statement to its first
    await.  [posts] is the array of the render the handler belongs
    to; [newPosts = [...posts]] is a copy of it.  [posts[postIndex]]
    is defined, [postIndex] being an index that [findIndex] returned
    for the same array. *)
Definition handlePostLike_call (user : option Supabase.User)
    (postId : string) (st : State) : State :=
  match user with
  | None => st
  | Some u =>
      match Js.findIndex (fun p => String.eqb (id p) postId) (posts st) with
      | None => st
      | Some postIndex =>
          match posts st !! postIndex with
          | None => st
          | Some post =>
              let c stage :=
                {| stage := stage; postId := postId; postIndex := postIndex;
                   post := post; newPosts := posts st;
                   uid := Supabase.id u |} in
              if user_has_liked post then
                suspend (c AwaitDelete)
                  (emit (LikesDelete postId (Supabase.id u)) st)
              else
                suspend (c AwaitInsert)
                  (emit (LikesInsert postId (Supabase.id u)) st)
          end
      end
  end.

(** The rest of [handlePostLike] once the await of [c] has settled
    with [r].  A rejected await rejects the handler's promise: no
    later statement runs.  [newPosts[postIndex] = ...] writes inside
    the array, where it is the list update. *)
Definition handlePostLike_settle (c : Call) (r : Settled unit)
    (st : State) : State :=
  match r with
  | Rejected _ => st
  | Fulfilled resp =>
      match stage c with
      | AwaitDelete =>
          match Gateway.error resp with
          | Some e => emit (ConsoleError "Error unliking post:") st
          | None =>
              setPosts
                (<[postIndex c :=
                     with_like (post c) (likes_count (post c) - 1) false]>
                   (newPosts c))
                st
          end
      | AwaitInsert =>
          match Gateway.error resp with
          | Some e => emit (ConsoleError "Error liking post:") st
          | None =>
              let newPosts' :=
                <[postIndex c :=
                    with_like (post c) (likes_count (post c) + 1) true]>
                  (newPosts c) in
              if negb (String.eqb (user_id (post c)) (uid c)) then
                suspend
                  {| stage := AwaitNotification; postId := postId c;
                     postIndex := postIndex c; post := post c;
                     newPosts := newPosts'; uid := uid c |}
                  (emit
                     (NotificationsInsert
                        {| n_user_id := user_id (post c);
                           n_type := "like";
                           n_related_id := postId c;
                           n_from_user_id := uid c;
                           n_is_read := false |})
                     st)
              else setPosts newPosts' st
          end
      | AwaitNotification => setPosts (newPosts c) st
      end
  end.

(** The part of [fetchNewPost] that follows its await, for the
    settlement [r] of the select (see [select_new_post] below for what
    the select answers); [setPosts((prevPosts) => [newPost, ...prevPosts])]
    reads the array at the time it is applied. *)
Definition onPostInsert (user : Supabase.User) (r : Settled PostRow)
    (st : State) : State :=
  match r with
  | Rejected _ => st
  | Fulfilled resp =>
      match Gateway.error resp with
      | Some _ => st
      | None =>
          match Gateway.data resp with
          | None => st   (* [...data] of null throws inside the callback *)
          | Some row =>
              setPosts (transform (Supabase.id user) row :: posts st) st
          end
      end
  end.

(** The tables that the feed's selects read.  A [posts] row is kept
    with the [profiles] row that its [user_id] references: the column
    is a NOT NULL foreign key (init-supabase.ts, line 57), so the embed
    [profiles:user_id(username, avatar_url)] finds exactly that row. *)
Record Stored := {
  stored_id : string;
  stored_content : string;
  stored_image_url : option string;
  stored_created_at : string;
  stored_user_id : string;
  stored_profiles : Profiles
}.

Record Like := { like_post_id : string; like_user_id : string }.

(** Of a [comments] row the selects read only the post it belongs
    to. *)
Record Db := {
  posts_table : list Stored;
  likes_table : list Like;
  comments_table : list string
}.

(** The [user_id]s of the [likes] rows of a post, in table order. *)
Definition likers (postId : string) (d : Db) : list string :=
  map like_user_id
    (List.filter (fun l => String.eqb (like_post_id l) postId) (likes_table d)).

Definition comments_of (postId : string) (d : Db) : nat :=
  length (List.filter (String.eqb postId) (comments_table d)).

(** A stored post with its embedded resources: [likes(count)] and
    [comments(count)] come as one-element arrays, [likes(user_id)] as
    the array of its likers. *)
Definition embed (d : Db) (p : Stored) : PostRow :=
  {| row_id := stored_id p;
     row_content := stored_content p;
     row_image_url := stored_image_url p;
     row_created_at := stored_created_at p;
     row_user_id := stored_user_id p;
     row_profiles := stored_profiles p;
     row_likes_count := [Z.of_nat (length (likers (stored_id p) d))];
     row_comments_count := [Z.of_nat (comments_of (stored_id p) d)];
     row_user_has_liked := likers (stored_id p) d |}.

Definition is_liked (d : Db) (p : Stored) : bool :=
  match likers (stored_id p) d with
  | [] => false
  | _ :: _ => true
  end.

(** The rows of the select that [fetchPosts] and [fetchNewPost]
    share.  [user_has_liked:likes!inner(user_id)] makes the embed an
    inner join: a post without a [likes] row is not among the rows. *)
Definition select_posts (d : Db) : list PostRow :=
  map (embed d) (List.filter (is_liked d) (posts_table d)).

(** [.single()]: exactly one row, or the PGRST116 error. *)
Definition single {A} (rows : list A) : Settled A :=
  match rows with
  | [r] => ok r
  | _ => failed NoRows
  end.

(** The select of [fetchNewPost]: [... .eq("id", payload.new.id).single()]. *)
Definition select_new_post (newId : string) (d : Db) : Settled PostRow :=
  single (List.filter (fun r => String.eqb (row_id r) newId) (select_posts d)).

(** [fetchNewPost()] for the INSERT event of the post [newId], run
    against the tables [d]. *)
Definition fetchNewPost (user : Supabase.User) (newId : string) (d : Db)
    (st : State) : State :=
  onPostInsert user (select_new_post newId d) st.

(** What [from("posts").insert({...})] of the post form does to the
    tables: one more [posts] row, under the id and the time that the
    table gives it; no [likes] or [comments] row. *)
Definition insert_post (p : Stored) (d : Db) : Db :=
  {| posts_table := posts_table d ++ [p];
     likes_table := likes_table d;
     comments_table := comments_table d |}.

(** What happens to a mounted feed. *)
Inductive Event :=
| Click (postId : string)              (* [onLike(post.id)] of a card *)
| Settle (k : nat) (r : Settled unit)  (* the await of the [k]-th suspended call settles *)
| PostInserted (r : Settled PostRow).  (* an INSERT event on [posts] *)

Definition step (user : option Supabase.User) (ev : Event) (st : State)
    : State :=
  match ev with
  | Click postId => handlePostLike_call user postId st
  | Settle k r =>
      match inflight st !! k with
      | None => st
      | Some c => handlePostLike_settle c r (resume k st)
      end
  | PostInserted r =>
      match user with
      | None => st
      | Some u => onPostInsert u r st
      end
  end.

Definition run (user : option Supabase.User) (evs : list Event)
    (st : State) : State :=
  fold_left (fun s ev => step user ev s) evs st.

(** One call of [handlePostLike] that runs to its end before anything
    else happens: [r] settles the like/unlike mutation and [rn] the
    notification insert, if the call gets that far.  The call's
    suspension is the last of [inflight]. *)
Definition handlePostLike (user : option Supabase.User) (postId : string)
    (r rn : Settled unit) (st : State) : State :=
  let k := length (inflight st) in
  step user (Settle k rn) (step user (Settle k r) (step user (Click postId) st)).

(** Toggles one after the other, each settled before the next click. *)
Definition toggles (user : option Supabase.User) (postId : string)
    (rs : list (Settled unit * Settled unit)) (st : State) : State :=
  fold_left (fun s r => handlePostLike user postId r.1 r.2 s) rs st.

Definition lookup_post (postId : string) (ps : list Post) : option Post :=
  List.find (fun p => String.eqb (id p) postId) ps.

(** The number of [Settle] events of [evs] at which a like or unlike
    mutation came back without error. *)
Definition is_toggle_done (ev : Event) (st : State) : bool :=
  match ev with
  | Settle k (Fulfilled resp) =>
      match inflight st !! k with
      | Some c =>
          match stage c, Gateway.error resp with
          | AwaitNotification, _ => false
          | _, None => true
          | _, Some _ => false
          end
      | None => false
      end
  | _ => false
  end.

Fixpoint toggles_done (user : option Supabase.User) (evs : list Event)
    (st : State) : nat :=
  match evs with
  | [] => 0
  | ev :: rest =>
      (if is_toggle_done ev st then 1 else 0)
      + toggles_done user rest (step user ev st)
  end.

(** The cached post after one whole call of [handlePostLike] whose
    mutation settled as [r], when the notification insert (if there is
    one) does not reject. *)
Definition toggle_result (p : Post) (r : Settled unit) : Post :=
  match r with
  | Fulfilled {| Gateway.error := None |} =>
      if user_has_liked p
      then with_like p (likes_count p - 1) false
      else with_like p (likes_count p + 1) true
  | _ => p
  end.

Definition mounted (ps : list Post) : State :=
  {| posts := ps; loading := false; error := None;
     inflight := []; trace := [] |}.

End Feed.

(** ** [CreatePost] (components/create-post) *)

Module CreatePost.

Record File := { name : string; size : nat; type : string }.

(** [name.split(".").pop()]: the part after the last dot, or the
    whole name when it has none. *)
Fixpoint split_pop (acc s : string) : string :=
  match s with
  | EmptyString => acc
  | String c rest =>
      if Ascii.eqb c "."%char then split_pop rest rest
      else split_pop acc rest
  end.

Definition fileExt (f : File) : string := split_pop (name f) (name f).

(** [supabase.storage.from(bucket).getPublicUrl(path).data.publicUrl]
    for a client created with [supabaseUrl]: the address of the object
    as the storage library composes it, before the percent-escaping
    that the library applies to characters not allowed in a URL. *)
Definition getPublicUrl (supabaseUrl bucket path : string) : string :=
  supabaseUrl ++ "/storage/v1/object/public/" ++ bucket ++ "/" ++ path.

Inductive Await :=
| AwaitUpload    (* storage.from("post-images").upload() *)
| AwaitInsert.   (* from("posts").insert() *)

(** A suspended [handleSubmit]: its await and the values it closed
    over. *)
Record Call := {
  stage : Await;
  uid : string;
  text : string;       (* [content.trim()] *)
  filePath : string
}.

Record State := {
  content : string;
  image : option File;
  imagePreview : option string;
  isSubmitting : bool;
  error : option string;
  inflight : list Call;
  trace : list Effect
}.

Definition setError (e : option string) (st : State) : State :=
  {| content := content st; image := image st;
     imagePreview := imagePreview st; isSubmitting := isSubmitting st;
     error := e; inflight := inflight st; trace := trace st |}.

Definition setIsSubmitting (b : bool) (st : State) : State :=
  {| content := content st; image := image st;
     imagePreview := imagePreview st; isSubmitting := b;
     error := error st; inflight := inflight st; trace := trace st |}.

(** [setContent(""); setImage(null); setImagePreview(null)]. *)
Definition resetForm (st : State) : State :=
  {| content := ""; image := None; imagePreview := None;
     isSubmitting := isSubmitting st; error := error st;
     inflight := inflight st; trace := trace st |}.

Definition emit (e : Effect) (st : State) : State :=
  {| content := content st; image := image st;
     imagePreview := imagePreview st; isSubmitting := isSubmitting st;
     error := error st; inflight := inflight st; trace := trace st ++ [e] |}.

Definition suspend (c : Call) (st : State) : State :=
  {| content := content st; image := image st;
     imagePreview := imagePreview st; isSubmitting := isSubmitting st;
     error := error st; inflight := inflight st ++ [c]; trace := trace st |}.

Definition resume (k : nat) (st : State) : State :=
  {| content := content st; image := image st;
     imagePreview := imagePreview st; isSubmitting := isSubmitting st;
     error := error st; inflight := delete k (inflight st);
     trace := trace st |}.

(** The [catch] and [finally] blocks of [handleSubmit];
    [msg] is [error.message]. *)
Definition catch_finally (msg : string) (st : State) : State :=
  setIsSubmitting false
    (setError (Some (if Js.truthy msg then msg else "Failed to create post"))
       (emit (ConsoleError "Error creating post:") st)).

(** [handleSubmit] up to its first await; [uuid] is what [uuidv4()]
    returns if it is called. *)
Definition handleSubmit_call (user : option Supabase.User) (uuid : string)
    (st : State) : State :=
  match user with
  | None => st
  | Some u =>
      if negb (Js.truthy (Js.trim (content st))) && negb (Js.is_Some_b (image st))
      then setError (Some "Please add some content or an image") st
      else
        let st := setError None (setIsSubmitting true st) in
        match image st with
        | Some f =>
            let fileName := uuid ++ "." ++ fileExt f in
            let filePath := Supabase.id u ++ "/" ++ fileName in
            suspend
              {| stage := AwaitUpload; uid := Supabase.id u;
                 text := Js.trim (content st); filePath := filePath |}
              (emit (StorageUpload "post-images" filePath) st)
        | None =>
            suspend
              {| stage := AwaitInsert; uid := Supabase.id u;
                 text := Js.trim (content st); filePath := "" |}
              (emit (PostsInsert (Supabase.id u) (Js.trim (content st)) None) st)
        end
  end.

(** The rest of [handleSubmit] after the await of [c] settled. *)
Definition handleSubmit_settle (supabaseUrl : string) (c : Call)
    (r : Settled unit) (st : State) : State :=
  match r with
  | Rejected reason => catch_finally reason st
  | Fulfilled resp =>
      match Gateway.error resp with
      | Some e => catch_finally (message e) st
      | None =>
          match stage c with
          | AwaitUpload =>
              let imageUrl := getPublicUrl supabaseUrl "post-images" (filePath c) in
              suspend
                {| stage := AwaitInsert; uid := uid c; text := text c;
                   filePath := filePath c |}
                (emit (PostsInsert (uid c) (text c) (Some imageUrl)) st)
          | AwaitInsert => setIsSubmitting false (resetForm st)
          end
      end
  end.

(** [5 * 1024 * 1024]. *)
Definition max_image_size : nat := 5 * 1024 * 1024.

Definition setImage (f : option File) (st : State) : State :=
  {| content := content st; image := f; imagePreview := imagePreview st;
     isSubmitting := isSubmitting st; error := error st;
     inflight := inflight st; trace := trace st |}.

Definition setImagePreview (p : option string) (st : State) : State :=
  {| content := content st; image := image st; imagePreview := p;
     isSubmitting := isSubmitting st; error := error st;
     inflight := inflight st; trace := trace st |}.

Definition setContent (s : string) (st : State) : State :=
  {| content := s; image := image st; imagePreview := imagePreview st;
     isSubmitting := isSubmitting st; error := error st;
     inflight := inflight st; trace := trace st |}.

(** [handleImageChange] for [e.target.files?.[0] = file], up to the
    start of the [FileReader]. *)
Definition handleImageChange (file : option File) (st : State) : State :=
  match file with
  | None => st
  | Some f =>
      if (max_image_size <? size f)%nat
      then setError (Some "Image size should be less than 5MB") st
      else if negb (String.prefix "image/" (type f))
      then setError (Some "Only image files are allowed") st
      else setError None (setImage (Some f) st)
  end.

(** [reader.onloadend]. *)
Definition onloadend (result : string) (st : State) : State :=
  setImagePreview (Some result) st.

Definition removeImage (st : State) : State :=
  setImagePreview None (setImage None st).

(** What the user does to the form between two submissions. *)
Inductive Edit :=
| Type_ (s : string)             (* the textarea's [onChange] *)
| Pick (file : option File)      (* the file input's [onChange] *)
| Loaded (result : string)       (* the reader's [onloadend] *)
| Remove.                        (* the preview's remove button *)

Definition edit (e : Edit) (st : State) : State :=
  match e with
  | Type_ s => setContent s st
  | Pick file => handleImageChange file st
  | Loaded result => onloadend result st
  | Remove => removeImage st
  end.

Definition edits (es : list Edit) (st : State) : State :=
  fold_left (fun s e => edit e s) es st.

(** One submission carried through all its awaits: [upload] settles
    the storage upload, if there is one, and [insert] the post
    insert. *)
Definition handleSubmit (supabaseUrl : string) (user : option Supabase.User)
    (uuid : string) (upload insert : Settled unit) (st : State) : State :=
  let k := length (inflight st) in
  let settle r s :=
    match inflight s !! k with
    | Some c => handleSubmit_settle supabaseUrl c r (resume k s)
    | None => s
    end in
  let started := handleSubmit_call user uuid st in
  match image st with
  | Some _ => settle insert (settle upload started)
  | None => settle insert started
  end.

Definition blank : State :=
  {| content := ""; image := None; imagePreview := None;
     isSubmitting := false; error := None; inflight := []; trace := [] |}.

(** The files [handleImageChange] lets through. *)
Definition acceptable (f : File) : Prop :=
  (size f <= max_image_size)%nat /\ String.prefix "image/" (type f) = true.

Definition image_ok (st : State) : Prop :=
  match image st with
  | Some f => acceptable f
  | None => True
  end.

(** A submission that has something to send. *)
Definition has_draft (st : State) : bool :=
  Js.truthy (Js.trim (content st)) || Js.is_Some_b (image st).

End CreatePost.

(** ** The home page: [<CreatePost />] above [<Feed />] (app/page) *)

Module Home.

Record State := { createPost : CreatePost.State; feed : Feed.State }.

Inductive Event :=
| Submit (uuid : string)                     (* the form's [onSubmit] *)
| SubmitSettled (k : nat) (r : Settled unit) (* an await of [handleSubmit] settles *)
| InFeed (ev : Feed.Event).

Definition step (supabaseUrl : string) (user : option Supabase.User)
    (ev : Event) (st : State) : State :=
  match ev with
  | Submit uuid =>
      {| createPost := CreatePost.handleSubmit_call user uuid (createPost st);
         feed := feed st |}
  | SubmitSettled k r =>
      match CreatePost.inflight (createPost st) !! k with
      | None => st
      | Some c =>
          {| createPost :=
               CreatePost.handleSubmit_settle supabaseUrl c r
                 (CreatePost.resume k (createPost st));
             feed := feed st |}
      end
  | InFeed ev =>
      {| createPost := createPost st; feed := Feed.step user ev (feed st) |}
  end.

Definition run (supabaseUrl : string) (user : option Supabase.User)
    (evs : list Event) (st : State) : State :=
  fold_left (fun s ev => step supabaseUrl user ev s) evs st.

Definition feed_posts (st : State) : list Feed.Post := Feed.posts (feed st).

Definition with_id (postId : string) (ps : list Feed.Post) : list Feed.Post :=
  List.filter (fun p => String.eqb (Feed.id p) postId) ps.

End Home.

(** ** Handlers with [try]/[catch]: exceptions over a component state *)

Module Eff.

(** What a [throw] carries: a response error ([throw error]) or the
    reason of a rejected await. *)
Inductive Exn :=
| ThrownError (e : PgError)
| ThrownReason (reason : string).

Inductive Completion (A : Type) :=
| Returned (a : A)
| Threw (x : Exn).
Arguments Returned {A} a.
Arguments Threw {A} x.

Definition M (S A : Type) : Type := S -> Completion A * S.

Definition ret {S A} (a : A) : M S A := fun s => (Returned a, s).

Definition bind {S A B} (m : M S A) (k : A -> M S B) : M S B :=
  fun s =>
    match m s with
    | (Returned a, s') => k a s'
    | (Threw x, s') => (Threw x, s')
    end.

Definition throw {S A} (x : Exn) : M S A := fun s => (Threw x, s).

(** [try { m } catch (error) { h error }]. *)
Definition try_catch {S A} (m : M S A) (h : Exn -> M S A) : M S A :=
  fun s =>
    match m s with
    | (Returned a, s') => (Returned a, s')
    | (Threw x, s') => h x s'
    end.

(** [try { m } finally { f }]: [f] runs on both ways out. *)
Definition finally {S A} (m : M S A) (f : S -> S) : M S A :=
  fun s => let '(c, s') := m s in (c, f s').

Definition modify {S} (f : S -> S) : M S unit := fun s => (Returned tt, f s).

Definition get {S} : M S S := fun s => (Returned s, s).

(** [await p] for a promise that settles as [r]. *)
Definition await {S A} (r : Settled A) : M S (Response A) :=
  match r with
  | Fulfilled resp => ret resp
  | Rejected reason => throw (ThrownReason reason)
  end.

(** [if (error) throw error]. *)
Definition throw_if {S} (e : option PgError) : M S unit :=
  match e with
  | Some e => throw (ThrownError e)
  | None => ret tt
  end.

(** [error.message] of what a [catch] receives. *)
Definition exn_message (x : Exn) : string :=
  match x with
  | ThrownError e => message e
  | ThrownReason reason => reason
  end.

(** A computation of a child component run inside a parent's state. *)
Definition zoom {S T A} (get_ : T -> S) (set_ : S -> T -> T) (m : M S A)
    : M T A :=
  fun t => let '(c, s') := m (get_ t) in (c, set_ s' t).

Definition exec {S A} (m : M S A) (s : S) : S := (m s).2.

Definition completion {S A} (m : M S A) (s : S) : Completion A := (m s).1.

End Eff.

Notation "x <- m ;; k" := (Eff.bind m (fun x => k))
  (at level 100, m at next level, right associativity).
Notation "m ;;; k" := (Eff.bind m (fun _ => k))
  (at level 100, right associativity).

(** ** [CommentSection] (components/comment-section) *)

Module CommentSection.

Record Comment := {
  id : string;
  content : string;
  created_at : string;
  user_id : string;
  profiles : Feed.Profiles
}.

Record State := {
  comments : list Comment;
  newComment : string;
  loading : bool;
  submitting : bool;
  trace : list Effect
}.

Definition setComments (f : list Comment -> list Comment) (st : State) : State :=
  {| comments := f (comments st); newComment := newComment st;
     loading := loading st; submitting := submitting st; trace := trace st |}.

Definition setNewComment (s : string) (st : State) : State :=
  {| comments := comments st; newComment := s; loading := loading st;
     submitting := submitting st; trace := trace st |}.

Definition setSubmitting (b : bool) (st : State) : State :=
  {| comments := comments st; newComment := newComment st;
     loading := loading st; submitting := b; trace := trace st |}.

Definition emit (e : Effect) (st : State) : State :=
  {| comments := comments st; newComment := newComment st;
     loading := loading st; submitting := submitting st;
     trace := trace st ++ [e] |}.

(** The callback of [commentsSubscription], with the settlement of
    the select it awaits:
    [setComments((prevComments) => [...prevComments, data])]. *)
Definition onCommentInsert (r : Settled Comment) (st : State) : State :=
  match r with
  | Rejected _ => st
  | Fulfilled resp =>
      match Gateway.error resp, Gateway.data resp with
      | Some _, _ => st
      | None, Some c => setComments (fun prevComments => (prevComments ++ [c])%list) st
      | None, None => st
      end
  end.

(** [handleSubmit] for the props [postId], [postUserId]; [r] settles
    the comment insert and [rn] the notification insert. *)
Definition handleSubmit (user : option Supabase.User)
    (postId postUserId : string) (r rn : Settled unit)
    : Eff.M State unit :=
  st <- Eff.get ;;
  match user with
  | None => Eff.ret tt
  | Some u =>
      if negb (Js.truthy (Js.trim (newComment st))) then Eff.ret tt
      else
        Eff.modify (setSubmitting true) ;;;
        Eff.finally
          (Eff.try_catch
             (Eff.modify
                (emit (CommentsInsert postId (Supabase.id u)
                         (Js.trim (newComment st)))) ;;;
              resp <- Eff.await r ;;
              Eff.throw_if (Gateway.error resp) ;;;
              (if negb (String.eqb (Supabase.id u) postUserId) then
                 Eff.modify
                   (emit
                      (NotificationsInsert
                         {| n_user_id := postUserId;
                            n_type := "comment";
                            n_related_id := postId;
                            n_from_user_id := Supabase.id u;
                            n_is_read := false |})) ;;;
                 _ <- Eff.await rn ;;
                 Eff.ret tt
               else Eff.ret tt) ;;;
              Eff.modify (setNewComment ""))
             (fun _ =>
                Eff.modify (emit (ConsoleError "Error submitting comment:"))))
          (setSubmitting false)
  end.

(** The INSERT events of a mounted comment section, in delivery order. *)
Definition deliver (rs : list (Settled Comment)) (st : State) : State :=
  fold_left (fun s r => onCommentInsert r s) rs st.

Definition mounted (cs : list Comment) (draft : string) : State :=
  {| comments := cs; newComment := draft; loading := false;
     submitting := false; trace := [] |}.

End CommentSection.

(** ** [ChatWindow] (components/chat-window) *)

Module ChatWindow.

Record Message := {
  id : string;
  content : string;
  created_at : string;
  user_id : string;
  profiles : Feed.Profiles
}.

(** The callback of [messagesSubscription]:
    [setMessages((prevMessages) => [...prevMessages, data])]. *)
Definition onMessageInsert (r : Settled Message) (messages : list Message)
    : list Message :=
  match r with
  | Rejected _ => messages
  | Fulfilled resp =>
      match Gateway.error resp, Gateway.data resp with
      | Some _, _ => messages
      | None, Some m => (messages ++ [m])%list
      | None, None => messages
      end
  end.

(** The INSERT events of an open chat, in delivery order. *)
Definition deliver (rs : list (Settled Message)) (messages : list Message)
    : list Message :=
  fold_left (fun ms r => onMessageInsert r ms) rs messages.

(** The window with its draft. *)
Record State := {
  messages : list Message;
  newMessage : string;
  trace : list Ui.Action
}.

Definition setNewMessage (s : string) (st : State) : State :=
  {| messages := messages st; newMessage := s; trace := trace st |}.

Definition emit (a : Ui.Action) (st : State) : State :=
  {| messages := messages st; newMessage := newMessage st;
     trace := (trace st ++ [a])%list |}.

(** [handleSubmit] for the prop [chatId]; [r] settles the insert. *)
Definition handleSubmit (user : option Supabase.User) (chatId : option string)
    (r : Settled unit) : Eff.M State unit :=
  st <- Eff.get ;;
  match user, chatId with
  | Some u, Some chat =>
      if negb (Js.truthy chat) || negb (Js.truthy (Js.trim (newMessage st)))
      then Eff.ret tt
      else
        Eff.try_catch
          (Eff.modify
             (emit (Ui.MessagesInsert chat (Supabase.id u)
                      (Js.trim (newMessage st)))) ;;;
           resp <- Eff.await r ;;
           Eff.throw_if (Gateway.error resp) ;;;
           Eff.modify (setNewMessage ""))
          (fun _ => Eff.modify (emit (Ui.Base (ConsoleError "Error sending message:"))))
  | _, _ => Eff.ret tt
  end.

(** The subscription callback on the window's state. *)
Definition onInsert (r : Settled Message) (st : State) : State :=
  {| messages := onMessageInsert r (messages st);
     newMessage := newMessage st; trace := trace st |}.

End ChatWindow.

(** ** [Navigation] (components/navigation) *)

Module Navigation.

(** [payload.new] of an INSERT event on [messages]. *)
Record MessageRow := {
  id : string;
  chat_id : string;
  user_id : string;
  content : string;
  created_at : string
}.

Record State := { unreadNotifications : Z; unreadMessages : Z }.

(** The callback of [messageSubscription]; the channel is opened on
    the whole [messages] table, without a [filter]. *)
Definition onMessageInsert (user : Supabase.User)
    (payload_new : option MessageRow) (st : State) : State :=
  match payload_new with
  | Some m =>
      if negb (String.eqb (user_id m) (Supabase.id user)) then
        {| unreadNotifications := unreadNotifications st;
           unreadMessages := unreadMessages st + 1 |}
      else st
  | None => st
  end.

(** The callback of [notificationSubscription]. *)
Definition onNotificationInsert (st : State) : State :=
  {| unreadNotifications := unreadNotifications st + 1;
     unreadMessages := unreadMessages st |}.

Definition setUnreadNotifications (n : Z) (st : State) : State :=
  {| unreadNotifications := n; unreadMessages := unreadMessages st |}.

Definition setUnreadMessages (n : Z) (st : State) : State :=
  {| unreadNotifications := unreadNotifications st; unreadMessages := n |}.

(** An event of one of the two subscriptions of the mounted bar. *)
Inductive Push :=
| MessagePush (payload_new : option MessageRow)  (* INSERT on [messages] *)
| NotificationPush.                    (* INSERT on the viewer's [notifications] *)

Definition onPush (user : Supabase.User) (p : Push) (st : State) : State :=
  match p with
  | MessagePush payload_new => onMessageInsert user payload_new st
  | NotificationPush => onNotificationInsert st
  end.

(** The await at which [fetchUnreadCounts] is suspended, with the
    locals it holds: inside the loop, the chats that are still to be
    counted after the current one and [totalUnread] so far. *)
Inductive Fetch :=
| AwaitNotificationCount
| AwaitChats
| AwaitCount (rest : list string) (totalUnread : Z).

(** The mounted bar: its two counters and the call of
    [fetchUnreadCounts] that the effect started, while it has not
    returned. *)
Record Mounted := { cells : State; fetch : option Fetch }.

(** The effect's first run: both counters at their initial 0, and
    [fetchUnreadCounts()] run up to its first await. *)
Definition mounted : Mounted :=
  {| cells := {| unreadNotifications := 0; unreadMessages := 0 |};
     fetch := Some AwaitNotificationCount |}.

(** [for (const chat of chats) { await ... }] entered with
    [totalUnread], followed by [setUnreadMessages(totalUnread)]: the
    write is absolute, not a functional update. *)
Definition loop (chats : list string) (totalUnread : Z) (st : State)
    : Mounted :=
  match chats with
  | [] => {| cells := setUnreadMessages totalUnread st; fetch := None |}
  | _ :: rest =>
      {| cells := st; fetch := Some (AwaitCount rest totalUnread) |}
  end.

(** What a count query adds: [if (!error && count !== null)
    totalUnread += count].  A count query answers [{ count, error }];
    the [data] field of the response carries [count] here. *)
Definition counted (resp : Response Z) : Z :=
  match Gateway.error resp, Gateway.data resp with
  | None, Some n => n
  | _, _ => 0
  end.

(** What happens to a mounted bar: a subscription event, or one of
    the awaits of [fetchUnreadCounts] settles. *)
Inductive Event :=
| Pushed (p : Push)
| NotificationsCounted (r : Settled Z)
| ChatsSelected (r : Settled (list string))
| Counted (r : Settled Z).

(** A rejected await rejects the promise of [fetchUnreadCounts]: none
    of its later statements runs. *)
Definition step (user : Supabase.User) (ev : Event) (m : Mounted) : Mounted :=
  match ev, fetch m with
  | Pushed p, _ => {| cells := onPush user p (cells m); fetch := fetch m |}
  | NotificationsCounted r, Some AwaitNotificationCount =>
      match r with
      | Rejected _ => {| cells := cells m; fetch := None |}
      | Fulfilled resp =>
          {| cells :=
               match Gateway.error resp, Gateway.data resp with
               | None, Some n => setUnreadNotifications n (cells m)
               | _, _ => cells m
               end;
             fetch := Some AwaitChats |}
      end
  | ChatsSelected r, Some AwaitChats =>
      match r with
      | Rejected _ => {| cells := cells m; fetch := None |}
      | Fulfilled resp =>
          match Gateway.error resp, Gateway.data resp with
          | None, Some chats => loop chats 0 (cells m)
          | _, _ => {| cells := cells m; fetch := None |}
          end
      end
  | Counted r, Some (AwaitCount rest totalUnread) =>
      match r with
      | Rejected _ => {| cells := cells m; fetch := None |}
      | Fulfilled resp =>
          match Gateway.error resp, Gateway.data resp with
          | None, Some n => loop rest (totalUnread + n) (cells m)
          | _, _ => loop rest totalUnread (cells m)
          end
      end
  | _, _ => m
  end.

Definition run (user : Supabase.User) (evs : list Event) (m : Mounted)
    : Mounted :=
  fold_left (fun s ev => step user ev s) evs m.

(** Whether a subscription event adds to the unread messages: it is a
    message event, it has a row, and the row is not the viewer's. *)
Definition by_others (user : Supabase.User) (p : Push) : bool :=
  match p with
  | MessagePush (Some m) => negb (String.eqb (user_id m) (Supabase.id user))
  | _ => false
  end.

Definition is_notification (p : Push) : bool :=
  match p with
  | NotificationPush => true
  | MessagePush _ => false
  end.

(** What React puts on the page for
    [{item.badge && item.badge > 0 && (<span>...</span>)}]:
    nothing for [undefined] and [false], the number itself for [0]
    (the value of [0 && ...] is [0], and React renders numbers), and
    the badge otherwise. *)
Inductive Rendered :=
| Nothing
| Text (s : string)
| Badge (s : string).

Definition render_badge (badge : option Z) : Rendered :=
  match badge with
  | None => Nothing
  | Some n =>
      if (n =? 0)%Z then Text "0"
      else if (0 <? n)%Z
      then Badge (if (9 <? n)%Z then "9+" else Js.of_nat (Z.to_nat n))
      else Nothing
  end.

End Navigation.

(** ** [ChatList] (components/chat-list) and the tables it reads *)

Module ChatList.

Record ChatRow := {
  id : string;
  name : option string;
  is_group : bool;
  created_by : string
}.

Record MemberRow := { chat_id : string; user_id : string }.

(** The [chats] and [chat_members] tables; a select without
    [.order()] returns the matching rows in table order. *)
Record Db := { chats : list ChatRow; chat_members : list MemberRow }.

Record World := { db : Db; trace : list Effect }.

Definition emit (e : Effect) (w : World) : World :=
  {| db := db w; trace := trace w ++ [e] |}.

(** [.single()]: exactly one row, or the PGRST116 error. *)
Definition single {A} (rows : list A) : Settled A :=
  match rows with
  | [r] => ok r
  | _ => failed NoRows
  end.

(** [from("chat_members").select("chat_id").eq("user_id", uid)]. *)
Definition select_chat_ids_of (uid : string) (d : Db) : Settled (list MemberRow) :=
  ok (List.filter (fun m => String.eqb (user_id m) uid) (chat_members d)).

(** [... .eq("user_id", uid).in("chat_id", chatIds)]. *)
Definition select_chat_ids_in (uid : string) (chatIds : list string) (d : Db)
    : Settled (list MemberRow) :=
  ok (List.filter
        (fun m => String.eqb (user_id m) uid
                  && existsb (String.eqb (chat_id m)) chatIds)
        (chat_members d)).

(** [from("chats").select("*").eq("id", cid).eq("is_group", false).single()]. *)
Definition select_direct_chat (cid : string) (d : Db) : Settled ChatRow :=
  single (List.filter (fun c => String.eqb (id c) cid && negb (is_group c))
            (chats d)).

(** [from("chats").insert({...}).select().single()]; the table gives
    the new row the id [newId]. *)
Definition insert_chat (newId : string) (nm : option string) (grp : bool)
    (creator : string) : Eff.M World (Response ChatRow) :=
  let row := {| id := newId; name := nm; is_group := grp;
                created_by := creator |} in
  Eff.modify (fun w =>
    emit (ChatsInsert nm grp creator)
      {| db := {| chats := chats (db w) ++ [row];
                  chat_members := chat_members (db w) |};
         trace := trace w |}) ;;;
  Eff.await (ok row).

(** [from("chat_members").insert(rows)]. *)
Definition insert_members (rows : list MemberRow)
    : Eff.M World (Response unit) :=
  Eff.modify (fun w =>
    emit (ChatMembersInsert (map (fun m => (chat_id m, user_id m)) rows))
      {| db := {| chats := chats (db w);
                  chat_members := chat_members (db w) ++ rows |};
         trace := trace w |}) ;;;
  Eff.await (ok tt).

Definition messages_href (chatId : string) : string := "/messages?chat=" ++ chatId.

(** The part of [createOrGetChat] that creates the chat. *)
Definition create_direct_chat (uid initialUserId newId : string)
    : Eff.M World unit :=
  created <- insert_chat newId None false uid ;;
  Eff.throw_if (Gateway.error created) ;;;
  match Gateway.data created with
  | None => Eff.throw (Eff.ThrownReason "newChat is null")
  | Some newChat =>
      added <- insert_members
                 [ {| chat_id := id newChat; user_id := uid |};
                   {| chat_id := id newChat; user_id := initialUserId |} ] ;;
      Eff.throw_if (Gateway.error added) ;;;
      Eff.modify (emit (Navigate (messages_href (id newChat))))
  end.

(** The [try] block of [createOrGetChat]. *)
Definition createOrGetChat_try (uid initialUserId newId : string)
    : Eff.M World unit :=
  w <- Eff.get ;;
  existing <- Eff.await (select_chat_ids_of uid (db w)) ;;
  Eff.throw_if (Gateway.error existing) ;;;
  match Gateway.data existing with
  | Some (e :: es) =>
      let chatIds := map chat_id (e :: es) in
      matching <- Eff.await (select_chat_ids_in initialUserId chatIds (db w)) ;;
      Eff.throw_if (Gateway.error matching) ;;;
      match Gateway.data matching with
      | Some (m0 :: _) =>
          chat <- Eff.await (select_direct_chat (chat_id m0) (db w)) ;;
          match Gateway.error chat, Gateway.data chat with
          | None, Some chatData =>
              Eff.modify (emit (Navigate (messages_href (id chatData))))
          | _, _ => create_direct_chat uid initialUserId newId
          end
      | _ => create_direct_chat uid initialUserId newId
      end
  | _ => create_direct_chat uid initialUserId newId
  end.

Definition createOrGetChat (uid initialUserId newId : string)
    : Eff.M World unit :=
  Eff.try_catch (createOrGetChat_try uid initialUserId newId)
    (fun _ => Eff.modify (emit (ConsoleError "Error creating or getting chat:"))).

(** The guard of the effect that calls [createOrGetChat]. *)
Definition onMount (user : option Supabase.User)
    (initialUserId : option string) (newId : string) : Eff.M World unit :=
  match user, initialUserId with
  | Some u, Some other =>
      if Js.truthy other && negb (String.eqb other (Supabase.id u))
      then createOrGetChat (Supabase.id u) other newId
      else Eff.ret tt
  | _, _ => Eff.ret tt
  end.

Definition is_member (uid cid : string) (d : Db) : bool :=
  existsb (fun m => String.eqb (chat_id m) cid && String.eqb (user_id m) uid)
    (chat_members d).

(** The ids of the direct (non-group) chats that have both [a] and
    [b] as members. *)
Definition direct_chats_between (a b : string) (d : Db) : list string :=
  map id
    (List.filter
       (fun c => negb (is_group c) && is_member a (id c) d && is_member b (id c) d)
       (chats d)).

End ChatList.

(** ** [AuthProvider] (contexts/auth-context) *)

Module AuthProvider.

Import Supabase.

Record State := {
  user : option User;
  session : option Session;
  isLoading : bool;
  trace : list Effect
}.

Definition setSession (s : option Session) (st : State) : State :=
  {| user := user st; session := s; isLoading := isLoading st;
     trace := trace st |}.

Definition setUser (u : option User) (st : State) : State :=
  {| user := u; session := session st; isLoading := isLoading st;
     trace := trace st |}.

Definition setIsLoading (b : bool) (st : State) : State :=
  {| user := user st; session := session st; isLoading := b;
     trace := trace st |}.

Definition emit (e : Effect) (st : State) : State :=
  {| user := user st; session := session st; isLoading := isLoading st;
     trace := trace st ++ [e] |}.

(** Everything [createProfileIfNeeded] gets from outside: the
    settlements of its three awaits and the values of
    [Math.floor(Math.random() * 10000)] and
    [Math.floor(Math.random() * 1000)]. *)
Record Provisioning := {
  tableCheck : Settled unit;
  profileCheck : Settled string;
  draw_fallback : nat;
  draw_suffix : nat;
  profileInsert : Settled unit
}.

Definition dquote : string := String (ascii_of_nat 34) "".

Definition no_profiles_table : string :=
  "relation " ++ dquote ++ "public.profiles" ++ dquote ++ " does not exist".

(** [s || null] for an optional string. *)
Definition or_null (s : option string) : option string :=
  match s with
  | Some v => if Js.truthy v then Some v else None
  | None => None
  end.

(** The username before the suffix is added. *)
Definition username_base (u : User) (fallback : nat) : string :=
  match or_null (user_metadata u ≫= full_name) with
  | Some fullName => Js.toLowerCase (Js.strip_spaces fullName)
  | None =>
      match or_null (email u) with
      | Some mail => Js.split_head "@"%char mail
      | None => "user" ++ Js.of_nat fallback
      end
  end.

(** [`${username}${Math.floor(Math.random() * 1000)}`]. *)
Definition generate_username (u : User) (fallback suffix : nat) : string :=
  username_base u fallback ++ Js.of_nat suffix.

(** The [try] block of [createProfileIfNeeded]. *)
Definition createProfileIfNeeded_try (u : User) (p : Provisioning)
    : Eff.M State unit :=
  checked <- Eff.await (tableCheck p) ;;
  if match Gateway.error checked with
     | Some e => Js.includes no_profiles_table (message e)
     | None => false
     end
  then Eff.modify (emit (ConsoleWarn "Profiles table does not exist. Please run the SQL setup script."))
  else
    existing <- Eff.await (profileCheck p) ;;
    if Js.is_Some_b (Gateway.data existing) then Eff.ret tt
    else
      if match Gateway.error existing with
         | Some e => negb (String.eqb (code e) "PGRST116")
         | None => false
         end
      then Eff.modify (emit (ConsoleError "Error checking for existing profile:"))
      else
        let username := generate_username u (draw_fallback p) (draw_suffix p) in
        Eff.modify
          (emit (ProfilesInsert (id u) username
                   (or_null (user_metadata u ≫= avatar_url)))) ;;;
        inserted <- Eff.await (profileInsert p) ;;
        match Gateway.error inserted with
        | Some _ => Eff.modify (emit (ConsoleError "Error creating profile:"))
        | None => Eff.ret tt
        end.

Definition createProfileIfNeeded (u : User) (p : Provisioning)
    : Eff.M State unit :=
  Eff.try_catch (createProfileIfNeeded_try u p)
    (fun _ => Eff.modify (emit (ConsoleError "Error in createProfileIfNeeded:"))).

Definition is_event (a b : AuthChangeEvent) : bool :=
  match a, b with
  | INITIAL_SESSION, INITIAL_SESSION
  | SIGNED_IN, SIGNED_IN
  | SIGNED_OUT, SIGNED_OUT
  | TOKEN_REFRESHED, TOKEN_REFRESHED
  | USER_UPDATED, USER_UPDATED
  | PASSWORD_RECOVERY, PASSWORD_RECOVERY => true
  | _, _ => false
  end.

(** The callback given to [supabase.auth.onAuthStateChange]. *)
Definition onAuthStateChange (_event : AuthChangeEvent)
    (sess : option Session) (p : Provisioning) : Eff.M State unit :=
  Eff.modify (emit (ConsoleLog "Auth state changed:")) ;;;
  Eff.modify (setSession sess) ;;;
  Eff.modify (setUser (Supabase.user <$> sess)) ;;;
  match sess with
  | Some s =>
      if is_event _event SIGNED_IN || is_event _event USER_UPDATED then
        Eff.try_catch (createProfileIfNeeded (Supabase.user s) p)
          (fun _ =>
             Eff.modify
               (emit (ConsoleWarn "Could not create profile, but continuing auth flow:"))) ;;;
        (if is_event _event SIGNED_IN then
           Eff.modify (emit (ConsoleLog "Redirecting to home after sign in")) ;;;
           Eff.modify (emit (Navigate "/"))
         else Eff.ret tt)
      else Eff.ret tt
  | None => Eff.ret tt
  end ;;;
  (if is_event _event SIGNED_OUT then
     Eff.modify (emit (ConsoleLog "Redirecting to login after sign out")) ;;;
     Eff.modify (emit (Navigate "/login"))
   else Eff.ret tt) ;;;
  Eff.modify (setIsLoading false).

(** *** The actions the provider hands out through [useAuth] *)

(** [setData], the initial session load; [got] settles
    [supabase.auth.getSession()] with [data.session], which the
    handler takes out of [data] before it looks at [error]. *)
Definition setData (got : Settled (option Session)) (p : Provisioning)
    : Eff.M State unit :=
  Eff.finally
    (Eff.try_catch
       (resp <- Eff.await got ;;
        match Gateway.data resp with
        | None => Eff.throw (Eff.ThrownReason "TypeError: data is null")
        | Some sess =>
            match Gateway.error resp with
            | Some _ =>
                Eff.modify (emit (ConsoleError "Error getting session:")) ;;;
                Eff.modify (setIsLoading false)
            | None =>
                Eff.modify (setSession sess) ;;;
                Eff.modify (setUser (Supabase.user <$> sess)) ;;;
                match sess with
                | Some s =>
                    Eff.try_catch (createProfileIfNeeded (Supabase.user s) p)
                      (fun _ =>
                         Eff.modify
                           (emit (ConsoleWarn "Could not create profile, but continuing auth flow:")))
                | None => Eff.ret tt
                end
            end
        end)
       (fun _ => Eff.modify (emit (ConsoleError "Exception in setData:"))))
    (setIsLoading false).

(** [signUp(email, password, username)]; [created] settles
    [supabase.auth.signUp] with [data.user], [table] the probe of the
    profiles table and [inserted] the profile insert. *)
Definition signUp (username : string) (created : Settled (option User))
    (table inserted : Settled unit) : Eff.M State unit :=
  Eff.modify (setIsLoading true) ;;;
  Eff.finally
    (Eff.try_catch
       (resp <- Eff.await created ;;
        match Gateway.error resp with
        | Some e =>
            Eff.throw (Eff.ThrownReason ("Authentication error: " ++ message e))
        | None =>
            match Gateway.data resp with
            | None => Eff.throw (Eff.ThrownReason "TypeError: data is null")
            | Some None => Eff.throw (Eff.ThrownReason "Signup failed: No user returned")
            | Some (Some u) =>
                Eff.try_catch
                  (probe <- Eff.await table ;;
                   match Gateway.error probe with
                   | None =>
                       Eff.modify (emit (ProfilesInsert (id u) username None)) ;;;
                       ins <- Eff.await inserted ;;
                       match Gateway.error ins with
                       | Some _ =>
                           Eff.modify
                             (emit (ConsoleWarn "Could not create profile during signup:"))
                       | None => Eff.ret tt
                       end
                   | Some _ =>
                       Eff.modify
                         (emit (ConsoleWarn "Profiles table does not exist. Please run the SQL setup script."))
                   end)
                  (fun _ =>
                     Eff.modify (emit (ConsoleWarn "Error creating profile during signup:")))
            end
        end)
       (fun x => Eff.throw x))
    (setIsLoading false).

(** [signIn(email, password)]; [signed] settles
    [supabase.auth.signInWithPassword] with [data.session].  The
    result is the [error] of the object the function returns. *)
Definition signIn (signed : Settled (option Session))
    : Eff.M State (option PgError) :=
  Eff.modify (setIsLoading true) ;;;
  Eff.finally
    (Eff.try_catch
       (resp <- Eff.await signed ;;
        match Gateway.error resp with
        | Some e => Eff.ret (Some e)
        | None =>
            match Gateway.data resp with
            | None => Eff.throw (Eff.ThrownReason "TypeError: data is null")
            | Some (Some _) =>
                Eff.modify (emit (ConsoleLog "Login successful, redirecting to home")) ;;;
                Eff.modify (emit (Navigate "/")) ;;;
                Eff.ret None
            | Some None => Eff.ret None
            end
        end)
       (fun x =>
          Eff.modify (emit (ConsoleError "Exception in signIn:")) ;;;
          Eff.ret (Some {| code := ""; message := Eff.exn_message x |})))
    (setIsLoading false).

(** [signInWithProvider(provider)]; on success the function leaves
    [isLoading] set, the browser being on its way to the provider. *)
Definition signInWithProvider (started : Settled unit) : Eff.M State unit :=
  Eff.modify (setIsLoading true) ;;;
  Eff.try_catch
    (resp <- Eff.await started ;;
     match Gateway.error resp with
     | Some e =>
         if Js.includes "provider is not enabled" (message e)
         then Eff.throw (Eff.ThrownReason "Unsupported provider: provider is not enabled")
         else Eff.throw (Eff.ThrownError e)
     | None => Eff.ret tt
     end)
    (fun x => Eff.modify (setIsLoading false) ;;; Eff.throw x).

(** [signOut()]. *)
Definition signOut (done : Settled unit) : Eff.M State unit :=
  Eff.modify (setIsLoading true) ;;;
  Eff.finally
    (Eff.try_catch
       (resp <- Eff.await done ;;
        Eff.throw_if (Gateway.error resp) ;;;
        Eff.modify (emit (Navigate "/login")))
       (fun _ => Eff.modify (emit (ConsoleError "Error signing out:"))))
    (setIsLoading false).

(** [resetPassword(email)]. *)
Definition resetPassword (sent : Settled unit) : Eff.M State unit :=
  Eff.modify (setIsLoading true) ;;;
  Eff.finally
    (Eff.try_catch
       (resp <- Eff.await sent ;;
        Eff.throw_if (Gateway.error resp))
       (fun x => Eff.modify (setIsLoading false) ;;; Eff.throw x))
    (setIsLoading false).

(** The navigations of a trace. *)
Definition navigations (t : list Effect) : list string :=
  omap (fun e => match e with Navigate h => Some h | _ => None end) t.


(** A provisioning run in which every call succeeds and no profile
    exists yet. *)
Definition provisioning_ok (d : nat) : Provisioning :=
  {| tableCheck := ok tt;
     profileCheck := failed NoRows;
     draw_fallback := 0;
     draw_suffix := d;
     profileInsert := ok tt |}.

Definition initial : State :=
  {| user := None; session := None; isLoading := true; trace := [] |}.

End AuthProvider.

(** ** [middleware] (middleware.ts) *)

Module Middleware.

(** [req.nextUrl]: the path and the query string. *)
Record Url := { pathname : string; search : string }.

Inductive Response :=
| Next                     (* [return res] *)
| Redirect (to : Url).     (* [NextResponse.redirect(redirectUrl)] *)

Definition isProtectedRoute (u : Url) : bool :=
  negb (String.prefix "/login" (pathname u))
  && negb (String.prefix "/signup" (pathname u))
  && negb (String.prefix "/auth/" (pathname u))
  && negb (String.prefix "/_next/" (pathname u))
  && negb (Js.includes "." (pathname u)).

Definition isAuthRoute (u : Url) : bool :=
  String.prefix "/login" (pathname u) || String.prefix "/signup" (pathname u).

(** [redirectUrl = req.nextUrl.clone(); redirectUrl.pathname = p]. *)
Definition with_pathname (p : string) (u : Url) : Url :=
  {| pathname := p; search := search u |}.

(** [middleware(req)] once [getSession()] has given [session]. *)
Definition middleware (u : Url) (session : option Supabase.Session)
    : Response :=
  if isProtectedRoute u && negb (Js.is_Some_b session)
  then Redirect (with_pathname "/login" u)
  else if isAuthRoute u && Js.is_Some_b session
  then Redirect (with_pathname "/" u)
  else Next.

End Middleware.

(** ** [ResetPassword] (app/auth/reset-password/page) *)

Module ResetPassword.

Record State := {
  password : string;
  confirmPassword : string;
  error : option string;
  message : option string;
  isLoading : bool;
  trace : list Ui.Action
}.

Definition setError (e : option string) (st : State) : State :=
  {| password := password st; confirmPassword := confirmPassword st;
     error := e; message := message st; isLoading := isLoading st;
     trace := trace st |}.

Definition setMessage (m : option string) (st : State) : State :=
  {| password := password st; confirmPassword := confirmPassword st;
     error := error st; message := m; isLoading := isLoading st;
     trace := trace st |}.

Definition setIsLoading (b : bool) (st : State) : State :=
  {| password := password st; confirmPassword := confirmPassword st;
     error := error st; message := message st; isLoading := b;
     trace := trace st |}.

Definition emit (a : Ui.Action) (st : State) : State :=
  {| password := password st; confirmPassword := confirmPassword st;
     error := error st; message := message st; isLoading := isLoading st;
     trace := trace st ++ [a] |}.

(** [handleSubmit]; [updated] settles [supabase.auth.updateUser]. *)
Definition handleSubmit (updated : Settled unit) : Eff.M State unit :=
  Eff.modify (setError None) ;;;
  Eff.modify (setMessage None) ;;;
  Eff.modify (setIsLoading true) ;;;
  st <- Eff.get ;;
  if (String.length (password st) <? 6)%nat then
    Eff.modify (setError (Some "Password must be at least 6 characters long")) ;;;
    Eff.modify (setIsLoading false)
  else if negb (String.eqb (password st) (confirmPassword st)) then
    Eff.modify (setError (Some "Passwords do not match")) ;;;
    Eff.modify (setIsLoading false)
  else
    Eff.finally
      (Eff.try_catch
         (Eff.modify (emit (Ui.AuthUpdateUser (password st))) ;;;
          resp <- Eff.await updated ;;
          Eff.throw_if (Gateway.error resp) ;;;
          Eff.modify
            (setMessage (Some "Password updated successfully. Redirecting to login...")) ;;;
          Eff.modify (emit (Ui.SetTimeoutPush "/login" 2000)))
         (fun x =>
            Eff.modify (emit (Ui.Base (ConsoleError "Error resetting password:"))) ;;;
            Eff.modify
              (setError
                 (Some (if Js.truthy (Eff.exn_message x) then Eff.exn_message x
                        else "An error occurred while resetting your password")))))
      (setIsLoading false).

Definition form (pw confirm : string) : State :=
  {| password := pw; confirmPassword := confirm; error := None;
     message := None; isLoading := false; trace := [] |}.

End ResetPassword.

(** ** [Signup] (app/signup/page) *)

Module Signup.

Record State := {
  email : string;
  password : string;
  username : string;
  error : option string;
  isLoading : bool;
  socialLoading : option string;
  trace : list Effect
}.

Definition setError (e : option string) (st : State) : State :=
  {| email := email st; password := password st; username := username st;
     error := e; isLoading := isLoading st; socialLoading := socialLoading st;
     trace := trace st |}.

Definition setIsLoading (b : bool) (st : State) : State :=
  {| email := email st; password := password st; username := username st;
     error := error st; isLoading := b; socialLoading := socialLoading st;
     trace := trace st |}.

Definition emit (e : Effect) (st : State) : State :=
  {| email := email st; password := password st; username := username st;
     error := error st; isLoading := isLoading st;
     socialLoading := socialLoading st; trace := trace st ++ [e] |}.

(** The page inside its [AuthProvider]. *)
Record App := { page : State; auth : AuthProvider.State }.

Definition on_page (f : State -> State) : Eff.M App unit :=
  Eff.modify (fun a => {| page := f (page a); auth := auth a |}).

Definition in_auth {A} (m : Eff.M AuthProvider.State A) : Eff.M App A :=
  Eff.zoom auth (fun s a => {| page := page a; auth := s |}) m.

Definition success_href : string :=
  "/login?message=Account created successfully. Please check your email for verification.".

(** [handleSubmit], with the settlements that [signUp] awaits. *)
Definition handleSubmit (created : Settled (option Supabase.User))
    (table inserted : Settled unit) : Eff.M App unit :=
  on_page (setError None) ;;;
  on_page (setIsLoading true) ;;;
  a <- Eff.get ;;
  if (String.length (password (page a)) <? 6)%nat then
    on_page (setError (Some "Password must be at least 6 characters long")) ;;;
    on_page (setIsLoading false)
  else if (String.length (username (page a)) <? 3)%nat then
    on_page (setError (Some "Username must be at least 3 characters long")) ;;;
    on_page (setIsLoading false)
  else
    Eff.finally
      (Eff.try_catch
         (in_auth (AuthProvider.signUp (username (page a)) created table inserted) ;;;
          on_page (emit (Navigate success_href)))
         (fun x =>
            on_page (emit (ConsoleError "Error signing up:")) ;;;
            on_page
              (setError
                 (Some (if Js.truthy (Eff.exn_message x) then Eff.exn_message x
                        else "An error occurred during signup. Please try again.")))))
      (fun a => {| page := setIsLoading false (page a); auth := auth a |}).

Definition form (mail pw name : string) : State :=
  {| email := mail; password := pw; username := name; error := None;
     isLoading := false; socialLoading := None; trace := [] |}.

End Signup.

(** ** [AddChatMembers] (components/add-chat-members) *)

Module AddChatMembers.

Record User := {
  id : string;
  username : string;
  avatar_url : option string;
  selected : bool
}.

Record State := {
  users : list User;
  filteredUsers : list User;
  searchQuery : string;
  loading : bool;
  adding : bool;
  trace : list Ui.Action
}.

Definition setUsers (us : list User) (st : State) : State :=
  {| users := us; filteredUsers := filteredUsers st;
     searchQuery := searchQuery st; loading := loading st;
     adding := adding st; trace := trace st |}.

Definition setFilteredUsers (us : list User) (st : State) : State :=
  {| users := users st; filteredUsers := us;
     searchQuery := searchQuery st; loading := loading st;
     adding := adding st; trace := trace st |}.

Definition setSearchQuery (q : string) (st : State) : State :=
  {| users := users st; filteredUsers := filteredUsers st;
     searchQuery := q; loading := loading st;
     adding := adding st; trace := trace st |}.

Definition setAdding (b : bool) (st : State) : State :=
  {| users := users st; filteredUsers := filteredUsers st;
     searchQuery := searchQuery st; loading := loading st;
     adding := b; trace := trace st |}.

Definition emit (a : Ui.Action) (st : State) : State :=
  {| users := users st; filteredUsers := filteredUsers st;
     searchQuery := searchQuery st; loading := loading st;
     adding := adding st; trace := (trace st ++ [a])%list |}.

(** [u.id === userId ? { ...u, selected: !u.selected } : u]. *)
Definition flip (userId : string) (u : User) : User :=
  if String.eqb (id u) userId
  then {| id := id u; username := username u; avatar_url := avatar_url u;
          selected := negb (selected u) |}
  else u.

Definition toggleUserSelection (userId : string) (st : State) : State :=
  setFilteredUsers (map (flip userId) (filteredUsers st))
    (setUsers (map (flip userId) (users st)) st).

Definition getSelectedUsers (st : State) : list User :=
  List.filter selected (users st).

(** What the effect on [[searchQuery, users]] computes for
    [filteredUsers]. *)
Definition visible (q : string) (us : list User) : list User :=
  if String.eqb (Js.trim q) ""
  then us
  else List.filter
         (fun u => Js.includes (Js.toLowerCase q) (Js.toLowerCase (username u)))
         us.

Definition refilter (st : State) : State :=
  setFilteredUsers (visible (searchQuery st) (users st)) st.

(** [handleAddMembers] for the prop [chatId]; [r] settles the insert. *)
Definition handleAddMembers (user : option Supabase.User) (chatId : string)
    (r : Settled unit) : Eff.M State unit :=
  st <- Eff.get ;;
  match user with
  | None => Eff.ret tt
  | Some _ =>
      let selectedUsers := getSelectedUsers st in
      match selectedUsers with
      | [] => Eff.ret tt
      | _ :: _ =>
          Eff.modify (setAdding true) ;;;
          Eff.finally
            (Eff.try_catch
               (Eff.modify
                  (emit (Ui.Base
                           (ChatMembersInsert
                              (map (fun u => (chatId, id u)) selectedUsers)))) ;;;
                resp <- Eff.await r ;;
                Eff.throw_if (Gateway.error resp) ;;;
                Eff.modify (emit (Ui.OnMembersAdded (map id selectedUsers))))
               (fun _ =>
                  Eff.modify (emit (Ui.Base (ConsoleError "Error adding members:"))) ;;;
                  Eff.modify (emit (Ui.Alert "Failed to add members"))))
            (setAdding false)
      end
  end.

End AddChatMembers.

(** ** [ChatInfo] (components/chat-info) *)

Module ChatInfo.

Record ChatMember := {
  id : string;
  username : string;
  avatar_url : option string;
  is_creator : bool
}.

Record State := {
  members : list ChatMember;
  chatName : string;
  loading : bool;
  showAddMembers : bool;
  creatorId : option string;
  trace : list Ui.Action
}.

Definition setMembers (ms : list ChatMember) (st : State) : State :=
  {| members := ms; chatName := chatName st; loading := loading st;
     showAddMembers := showAddMembers st; creatorId := creatorId st;
     trace := trace st |}.

Definition setShowAddMembers (b : bool) (st : State) : State :=
  {| members := members st; chatName := chatName st; loading := loading st;
     showAddMembers := b; creatorId := creatorId st; trace := trace st |}.

Definition emit (a : Ui.Action) (st : State) : State :=
  {| members := members st; chatName := chatName st; loading := loading st;
     showAddMembers := showAddMembers st; creatorId := creatorId st;
     trace := (trace st ++ [a])%list |}.

(** [user.id !== creatorId]. *)
Definition is_creator_id (uid : string) (creator : option string) : bool :=
  match creator with
  | Some c => String.eqb uid c
  | None => false
  end.

Definition handleLeaveChat (user : option Supabase.User) (chatId : string)
    (r : Settled unit) : Eff.M State unit :=
  match user with
  | None => Eff.ret tt
  | Some u =>
      if negb (Js.truthy chatId) then Eff.ret tt
      else
        Eff.try_catch
          (Eff.modify (emit (Ui.ChatMembersDelete chatId (Some (Supabase.id u)))) ;;;
           resp <- Eff.await r ;;
           Eff.throw_if (Gateway.error resp) ;;;
           Eff.modify (emit (Ui.Base (Navigate "/messages"))) ;;;
           Eff.modify (emit Ui.OnClose))
          (fun _ => Eff.modify (emit (Ui.Base (ConsoleError "Error leaving chat:"))))
  end.

(** [handleDeleteChat]; [r1], [r2], [r3] settle the deletes of the
    messages, of the members and of the chat. *)
Definition handleDeleteChat (user : option Supabase.User) (chatId : string)
    (r1 r2 r3 : Settled unit) : Eff.M State unit :=
  st <- Eff.get ;;
  match user with
  | None => Eff.ret tt
  | Some u =>
      if negb (Js.truthy chatId)
         || negb (is_creator_id (Supabase.id u) (creatorId st))
      then Eff.ret tt
      else
        Eff.try_catch
          (Eff.modify (emit (Ui.MessagesDelete chatId)) ;;;
           resp1 <- Eff.await r1 ;;
           Eff.throw_if (Gateway.error resp1) ;;;
           Eff.modify (emit (Ui.ChatMembersDelete chatId None)) ;;;
           resp2 <- Eff.await r2 ;;
           Eff.throw_if (Gateway.error resp2) ;;;
           Eff.modify (emit (Ui.ChatsDelete chatId)) ;;;
           resp3 <- Eff.await r3 ;;
           Eff.throw_if (Gateway.error resp3) ;;;
           Eff.modify (emit (Ui.Base (Navigate "/messages"))) ;;;
           Eff.modify (emit Ui.OnClose))
          (fun _ => Eff.modify (emit (Ui.Base (ConsoleError "Error deleting chat:"))))
  end.

Definition handleUpdateChatName (user : option Supabase.User)
    (chatId : string) (isGroup : bool) (r : Settled unit)
    : Eff.M State unit :=
  st <- Eff.get ;;
  match user with
  | None => Eff.ret tt
  | Some _ =>
      if negb (Js.truthy chatId) || negb isGroup
         || negb (Js.truthy (Js.trim (chatName st)))
      then Eff.ret tt
      else
        Eff.try_catch
          (Eff.modify (emit (Ui.ChatsUpdate chatId (Js.trim (chatName st)))) ;;;
           resp <- Eff.await r ;;
           Eff.throw_if (Gateway.error resp) ;;;
           Eff.modify (emit Ui.RouterRefresh))
          (fun _ => Eff.modify (emit (Ui.Base (ConsoleError "Error updating chat name:"))))
  end.

(** [handleRemoveMember(memberId)]; [members] in
    [setMembers(members.filter(...))] is the array of the render the
    handler belongs to. *)
Definition handleRemoveMember (user : option Supabase.User) (chatId : string)
    (memberId : string) (r : Settled unit) : Eff.M State unit :=
  st <- Eff.get ;;
  match user with
  | None => Eff.ret tt
  | Some u =>
      if negb (Js.truthy chatId)
         || negb (is_creator_id (Supabase.id u) (creatorId st))
         || is_creator_id memberId (creatorId st)
      then Eff.ret tt
      else
        Eff.try_catch
          (Eff.modify (emit (Ui.ChatMembersDelete chatId (Some memberId))) ;;;
           resp <- Eff.await r ;;
           Eff.throw_if (Gateway.error resp) ;;;
           Eff.modify
             (setMembers
                (List.filter (fun m => negb (String.eqb (id m) memberId))
                   (members st))))
          (fun _ => Eff.modify (emit (Ui.Base (ConsoleError "Error removing member:"))))
  end.

(** An added user as an element of [members]: the object has no
    [is_creator] field, which reads as [undefined] and counts as
    false wherever the field is used. *)
Definition of_added (u : AddChatMembers.User) : ChatMember :=
  {| id := AddChatMembers.id u; username := AddChatMembers.username u;
     avatar_url := AddChatMembers.avatar_url u; is_creator := false |}.

(** The [onMembersAdded] prop given to the dialog:
    [setMembers([...members, ...newMembers]); setShowAddMembers(false)]. *)
Definition onMembersAdded (newMembers : list AddChatMembers.User) (st : State)
    : State :=
  setShowAddMembers false
    (setMembers (members st ++ map of_added newMembers)%list st).

(** The [existingMembers] prop given to the dialog. *)
Definition existingMembers (st : State) : list string := map id (members st).

End ChatInfo.

(** ** [ProfileHeader] (components/profile-header) *)

Module ProfileHeader.

Record State := {
  isUploading : bool;
  isFollowing : bool;
  followersCount : Z;
  followingCount : Z;
  postsCount : Z;
  trace : list Ui.Action
}.

Definition setIsUploading (b : bool) (st : State) : State :=
  {| isUploading := b; isFollowing := isFollowing st;
     followersCount := followersCount st; followingCount := followingCount st;
     postsCount := postsCount st; trace := trace st |}.

Definition emit (a : Ui.Action) (st : State) : State :=
  {| isUploading := isUploading st; isFollowing := isFollowing st;
     followersCount := followersCount st; followingCount := followingCount st;
     postsCount := postsCount st; trace := (trace st ++ [a])%list |}.

(** [handleFollowToggle]: the branches only set local state. *)
Definition handleFollowToggle (user : option Supabase.User)
    (isCurrentUser : bool) (st : State) : State :=
  match user with
  | None => st
  | Some _ =>
      if isCurrentUser then st
      else
        {| isUploading := isUploading st;
           isFollowing := negb (isFollowing st);
           followersCount :=
             (if isFollowing st then followersCount st - 1
              else followersCount st + 1)%Z;
           followingCount := followingCount st;
           postsCount := postsCount st; trace := trace st |}
  end.

(** [2 * 1024 * 1024]. *)
Definition max_avatar_size : nat := 2 * 1024 * 1024.

(** [handleAvatarChange]; [upload] settles the storage upload and
    [update] the profile update. *)
Definition handleAvatarChange (supabaseUrl : string)
    (user : option Supabase.User) (file : option CreatePost.File)
    (uuid : string) (upload update : Settled unit) : Eff.M State unit :=
  match file, user with
  | Some f, Some u =>
      if (max_avatar_size <? CreatePost.size f)%nat
      then Eff.modify (emit (Ui.Alert "Image size should be less than 2MB"))
      else if negb (String.prefix "image/" (CreatePost.type f))
      then Eff.modify (emit (Ui.Alert "Only image files are allowed"))
      else
        Eff.modify (setIsUploading true) ;;;
        Eff.finally
          (Eff.try_catch
             (let fileName := uuid ++ "." ++ CreatePost.fileExt f in
              let filePath := Supabase.id u ++ "/" ++ fileName in
              Eff.modify (emit (Ui.Base (StorageUpload "avatars" filePath))) ;;;
              up <- Eff.await upload ;;
              Eff.throw_if (Gateway.error up) ;;;
              let avatarUrl := CreatePost.getPublicUrl supabaseUrl "avatars" filePath in
              Eff.modify (emit (Ui.ProfilesUpdate (Supabase.id u) avatarUrl)) ;;;
              upd <- Eff.await update ;;
              Eff.throw_if (Gateway.error upd) ;;;
              Eff.modify (emit Ui.RouterRefresh))
             (fun _ =>
                Eff.modify (emit (Ui.Base (ConsoleError "Error uploading avatar:"))) ;;;
                Eff.modify (emit (Ui.Alert "Failed to upload avatar"))))
          (setIsUploading false)
  | _, _ => Eff.ret tt
  end.

Definition clicks (user : option Supabase.User) (isCurrentUser : bool)
    (n : nat) (st : State) : State :=
  Nat.iter n (handleFollowToggle user isCurrentUser) st.

End ProfileHeader.

(** ** [PostCard] (components/post-card) *)

Module PostCard.

(** The [text] of what [handleShare] shares:
    [content.substring(0, 50) + (content.length > 50 ? "..." : "")]. *)
Definition share_text (content : string) : string :=
  String.substring 0 50 content
  ++ (if (50 <? String.length content)%nat then "..." else "").

(** [`${window.location.origin}/post/${post.id}`]. *)
Definition shareUrl (origin postId : string) : string :=
  origin ++ "/post/" ++ postId.

End PostCard.

(** ** [NotificationsList] (components/notifications-list) *)

Module NotificationsList.

Record Notification := {
  id : string;
  type : string;
  related_id : string;
  from_user_id : string;
  is_read : bool;
  created_at : string;
  from_user : Feed.Profiles
}.

(** A stored row as the list's select returns it: the table adds
    [id] and [created_at], the select joins [from_user]. *)
Definition of_row (rowId createdAt : string) (sender : Feed.Profiles)
    (row : NotificationRow) : Notification :=
  {| id := rowId; type := n_type row; related_id := n_related_id row;
     from_user_id := n_from_user_id row; is_read := n_is_read row;
     created_at := createdAt; from_user := sender |}.

Definition getNotificationLink (n : Notification) : string :=
  if String.eqb (type n) "like" || String.eqb (type n) "comment"
  then "/post/" ++ related_id n
  else if String.eqb (type n) "follow"
  then "/profile/" ++ from_user_id n
  else if String.eqb (type n) "message"
  then "/messages?chat=" ++ related_id n
  else "#".

End NotificationsList.

(** ** Concrete accounts, posts and tables used in the examples *)

Module Sample.

Definition alice : Supabase.User :=
  {| Supabase.id := "alice-id";
     Supabase.email := Some "alice@example.com";
     Supabase.user_metadata :=
       Some {| Supabase.full_name := Some "Alice Liddell";
               Supabase.avatar_url := None |};
     Supabase.last_sign_in_at := Some "2024-05-01T09:00:00Z" |}.

Definition bob_profile : Feed.Profiles :=
  {| Feed.username := "bob"; Feed.avatar_url := None |}.

Definition alice_profile : Feed.Profiles :=
  {| Feed.username := "alice"; Feed.avatar_url := None |}.

(** A post by bob that alice has not liked. *)
Definition P1 : Feed.Post :=
  {| Feed.id := "P1"; Feed.content := "hello"; Feed.image_url := None;
     Feed.created_at := "2024-05-01T10:00:00Z"; Feed.user_id := "bob-id";
     Feed.profiles := bob_profile; Feed.likes_count := 0;
     Feed.comments_count := 0; Feed.user_has_liked := false |}.

(** A post by alice herself. *)
Definition P2 : Feed.Post :=
  {| Feed.id := "P2"; Feed.content := "mine"; Feed.image_url := None;
     Feed.created_at := "2024-05-01T11:00:00Z"; Feed.user_id := "alice-id";
     Feed.profiles := alice_profile; Feed.likes_count := 0;
     Feed.comments_count := 0; Feed.user_has_liked := false |}.

(** A post by bob that alice has liked. *)
Definition P3 : Feed.Post :=
  {| Feed.id := "P3"; Feed.content := "liked"; Feed.image_url := None;
     Feed.created_at := "2024-05-01T09:30:00Z"; Feed.user_id := "bob-id";
     Feed.profiles := bob_profile; Feed.likes_count := 1;
     Feed.comments_count := 0; Feed.user_has_liked := true |}.

(** An account that signed up by email and has no metadata. *)
Definition dave : Supabase.User :=
  {| Supabase.id := "dave-id";
     Supabase.email := Some "dave.k@example.com";
     Supabase.user_metadata := None;
     Supabase.last_sign_in_at := None |}.

(** The tables: a group chat of alice, bob and carol, created first,
    and the direct chat of alice and bob. *)
Definition chats_db : ChatList.Db :=
  {| ChatList.chats :=
       [ {| ChatList.id := "G"; ChatList.name := Some "team";
            ChatList.is_group := true; ChatList.created_by := "carol-id" |};
         {| ChatList.id := "D"; ChatList.name := None;
            ChatList.is_group := false; ChatList.created_by := "alice-id" |} ];
     ChatList.chat_members :=
       [ {| ChatList.chat_id := "G"; ChatList.user_id := "carol-id" |};
         {| ChatList.chat_id := "G"; ChatList.user_id := "alice-id" |};
         {| ChatList.chat_id := "G"; ChatList.user_id := "bob-id" |};
         {| ChatList.chat_id := "D"; ChatList.user_id := "alice-id" |};
         {| ChatList.chat_id := "D"; ChatList.user_id := "bob-id" |} ] |}.

(** The same chats when the direct chat is the older one. *)
Definition chats_db_direct_first : ChatList.Db :=
  {| ChatList.chats := rev (ChatList.chats chats_db);
     ChatList.chat_members :=
       [ {| ChatList.chat_id := "D"; ChatList.user_id := "alice-id" |};
         {| ChatList.chat_id := "D"; ChatList.user_id := "bob-id" |};
         {| ChatList.chat_id := "G"; ChatList.user_id := "carol-id" |};
         {| ChatList.chat_id := "G"; ChatList.user_id := "alice-id" |};
         {| ChatList.chat_id := "G"; ChatList.user_id := "bob-id" |} ] |}.

(** A message by bob in a chat ("X") that alice is not a member of. *)
Definition foreign_message : Navigation.MessageRow :=
  {| Navigation.id := "m1"; Navigation.chat_id := "X";
     Navigation.user_id := "bob-id"; Navigation.content := "psst";
     Navigation.created_at := "2024-05-01T12:00:00Z" |}.



Definition m1 : ChatWindow.Message :=
  {| ChatWindow.id := "m1"; ChatWindow.content := "hi";
     ChatWindow.created_at := "2024-05-01T12:00:00Z";
     ChatWindow.user_id := "alice-id";
     ChatWindow.profiles := alice_profile |}.

Definition m2 : ChatWindow.Message :=
  {| ChatWindow.id := "m2"; ChatWindow.content := "hey";
     ChatWindow.created_at := "2024-05-01T12:01:00Z";
     ChatWindow.user_id := "bob-id";
     ChatWindow.profiles := bob_profile |}.

(** The home page with "hello" typed into the form and an empty feed. *)
Definition home : Home.State :=
  {| Home.createPost :=
       {| CreatePost.content := "hello"; CreatePost.image := None;
          CreatePost.imagePreview := None; CreatePost.isSubmitting := false;
          CreatePost.error := None; CreatePost.inflight := [];
          CreatePost.trace := [] |};
     Home.feed := Feed.mounted [] |}.

(** The tables before that post is submitted: one post of bob, liked
    by carol and commented on once. *)
Definition backend : Feed.Db :=
  {| Feed.posts_table :=
       [ {| Feed.stored_id := "P7"; Feed.stored_content := "news";
            Feed.stored_image_url := None;
            Feed.stored_created_at := "2024-05-01T12:30:00Z";
            Feed.stored_user_id := "bob-id";
            Feed.stored_profiles := bob_profile |} ];
     Feed.likes_table :=
       [ {| Feed.like_post_id := "P7"; Feed.like_user_id := "carol-id" |} ];
     Feed.comments_table := ["P7"] |}.

Definition supabaseUrl : string := "https://project.supabase.co".

(** A row that the posts subscription fetches for a new post of bob. *)
Definition news_row : Feed.PostRow :=
  {| Feed.row_id := "P7"; Feed.row_content := "news";
     Feed.row_image_url := None;
     Feed.row_created_at := "2024-05-01T14:00:00Z";
     Feed.row_user_id := "bob-id"; Feed.row_profiles := bob_profile;
     Feed.row_likes_count := [2%Z]; Feed.row_comments_count := [];
     Feed.row_user_has_liked := ["carol-id"] |}.

(** The add-members dialog of chat [G] with two candidates, the first
    of them ticked, and "ER" typed into the search box. *)
Definition erin : AddChatMembers.User :=
  {| AddChatMembers.id := "erin-id"; AddChatMembers.username := "Erin";
     AddChatMembers.avatar_url := None; AddChatMembers.selected := true |}.

Definition frank : AddChatMembers.User :=
  {| AddChatMembers.id := "frank-id"; AddChatMembers.username := "frank";
     AddChatMembers.avatar_url := None; AddChatMembers.selected := false |}.

Definition dialog : AddChatMembers.State :=
  {| AddChatMembers.users := [erin; frank];
     AddChatMembers.filteredUsers := [erin];
     AddChatMembers.searchQuery := "ER";
     AddChatMembers.loading := false; AddChatMembers.adding := false;
     AddChatMembers.trace := [] |}.

(** The information panel of chat [G], opened by its creator carol. *)
Definition carol : Supabase.User :=
  {| Supabase.id := "carol-id"; Supabase.email := Some "carol@example.com";
     Supabase.user_metadata := None; Supabase.last_sign_in_at := None |}.

Definition member (uid name : string) (creator : bool) : ChatInfo.ChatMember :=
  {| ChatInfo.id := uid; ChatInfo.username := name;
     ChatInfo.avatar_url := None; ChatInfo.is_creator := creator |}.

Definition panel : ChatInfo.State :=
  {| ChatInfo.members :=
       [member "carol-id" "carol" true; member "alice-id" "alice" false;
        member "bob-id" "bob" false];
     ChatInfo.chatName := "team"; ChatInfo.loading := false;
     ChatInfo.showAddMembers := true; ChatInfo.creatorId := Some "carol-id";
     ChatInfo.trace := [] |}.

End Sample.

(** * Properties *)

(** ** The JavaScript helpers on examples *)

Example trim_example : Js.trim "  a b  " = "a b" /\ Js.trim "   " = "".
Proof. split; reflexivity. Qed.

Example of_nat_example :
  Js.of_nat 0 = "0" /\ Js.of_nat 42 = "42" /\ Js.of_nat 1000 = "1000".
Proof. repeat split; reflexivity. Qed.

Example fileExt_example :
  CreatePost.fileExt
    {| CreatePost.name := "holiday.2024.png"; CreatePost.size := 1024;
       CreatePost.type := "image/png" |} = "png".
Proof. reflexivity. Qed.

Example includes_example :
  Js.includes AuthProvider.no_profiles_table
    ("ERROR: " ++ AuthProvider.no_profiles_table) = true
  /\ Js.includes AuthProvider.no_profiles_table "permission denied" = false.
Proof. split; reflexivity. Qed.

Example username_example :
  AuthProvider.generate_username Sample.alice 0 7 = "aliceliddell7"
  /\ AuthProvider.generate_username Sample.dave 0 512 = "dave.k512".
Proof. split; reflexivity. Qed.

(** A sign-in during which the profile check throws: the failure is
    logged and the browser is sent home as usual. *)
Example sign_in_with_throwing_check :
  AuthProvider.trace
    (Eff.exec
       (AuthProvider.onAuthStateChange Supabase.SIGNED_IN
          (Some {| Supabase.access_token := "jwt"; Supabase.user := Sample.dave |})
          {| AuthProvider.tableCheck := ok tt;
             AuthProvider.profileCheck := Rejected "fetch failed";
             AuthProvider.draw_fallback := 0;
             AuthProvider.draw_suffix := 1;
             AuthProvider.profileInsert := ok tt |})
       AuthProvider.initial)
  = [ ConsoleLog "Auth state changed:";
      ConsoleError "Error in createProfileIfNeeded:";
      ConsoleLog "Redirecting to home after sign in";
      Navigate "/" ].
Proof. reflexivity. Qed.

(** ** Arrays *)

Section Arrays.

Context {A : Type} (f : A -> bool).

Lemma findIndex_Some (l : list A) (i : nat) :
  Js.findIndex f l = Some i ->
  exists x, l !! i = Some x /\ f x = true /\ List.find f l = Some x.
Proof.
  revert i. induction l as [|x l IH]; simpl; intros i H; [discriminate |].
  destruct (f x) eqn:Hx.
  - injection H as <-. exists x. auto.
  - destruct (Js.findIndex f l) as [j|]; [| discriminate].
    injection H as <-. destruct (IH j eq_refl) as (y & Hy & Hf & Hfind).
    exists y. auto.
Qed.

Lemma find_findIndex (l : list A) (x : A) :
  List.find f l = Some x ->
  exists i, Js.findIndex f l = Some i /\ l !! i = Some x.
Proof.
  induction l as [|y l IH]; simpl; [discriminate |].
  destruct (f y) eqn:Hy.
  - intros [= <-]. exists 0. auto.
  - intros H. destruct (IH H) as (i & -> & Hi). exists (S i). auto.
Qed.

(** Overwriting the first match by another match keeps it the first. *)
Lemma find_insert (l : list A) (i : nat) (y : A) :
  Js.findIndex f l = Some i -> f y = true ->
  List.find f (<[i := y]> l) = Some y
  /\ Js.findIndex f (<[i := y]> l) = Some i.
Proof.
  revert i. induction l as [|x l IH]; simpl; intros i H Hy; [discriminate |].
  destruct (f x) eqn:Hx.
  - injection H as <-. simpl. now rewrite Hy.
  - destruct (Js.findIndex f l) as [j|] eqn:Hj; [| discriminate].
    injection H as <-. simpl. rewrite Hx.
    destruct (IH j eq_refl Hy) as [-> ->]. auto.
Qed.

End Arrays.

Lemma delete_last {A} (l : list A) (x : A) :
  delete (length l) ((l ++ [x])%list) = l.
Proof.
  induction l as [|y l IH]; simpl; [reflexivity |]. now rewrite IH.
Qed.

Lemma lookup_last {A} (l : list A) (x : A) :
  ((l ++ [x])%list) !! length l = Some x.
Proof.
  induction l as [|y l IH]; simpl; [reflexivity | exact IH].
Qed.

Lemma lookup_length_None {A} (l : list A) : l !! length l = None.
Proof.
  induction l as [|y l IH]; simpl; [reflexivity | exact IH].
Qed.

(** ** The feed's like handler *)

Section FeedLike.

Import Feed.

Variable u : Supabase.User.
Variable pid : string.

(** A click on a post that is in the array sends one mutation, chosen
    by the cached flag, and suspends. *)
Lemma click_known (st : State) (p : Post) :
  lookup_post pid (posts st) = Some p ->
  exists i,
    Js.findIndex (fun q => String.eqb (id q) pid) (posts st) = Some i
    /\ posts st !! i = Some p
    /\ handlePostLike_call (Some u) pid st
       = suspend {| stage := if user_has_liked p then AwaitDelete else AwaitInsert;
                    postId := pid; postIndex := i; post := p;
                    newPosts := posts st; uid := Supabase.id u |}
           (emit (if user_has_liked p
                  then LikesDelete pid (Supabase.id u)
                  else LikesInsert pid (Supabase.id u)) st).
Proof.
  intros Hp. apply find_findIndex in Hp as (i & Hi & Hl).
  exists i. split; [exact Hi | split; [exact Hl |]].
  unfold handlePostLike_call. rewrite Hi, Hl.
  now destruct (user_has_liked p).
Qed.

(** A click on an id that is not in the array does nothing. *)
Lemma click_unknown (user : option Supabase.User) (st : State) :
  lookup_post pid (posts st) = None ->
  handlePostLike_call user pid st = st.
Proof.
  intros Hp. unfold handlePostLike_call. destruct user as [v|]; [| reflexivity].
  destruct (Js.findIndex _ (posts st)) as [i|] eqn:Hi; [| reflexivity].
  apply findIndex_Some in Hi as (x & _ & _ & Hx).
  unfold lookup_post in Hp. congruence.
Qed.

Lemma settle_suspended (k : nat) (st : State) (c : Call) (r : Settled unit) :
  k = length (inflight st) ->
  step (Some u) (Settle k r) (suspend c st) = handlePostLike_settle c r st.
Proof.
  intros ->. unfold step, suspend; simpl. rewrite lookup_last. f_equal.
  unfold resume; simpl. rewrite delete_last. now destruct st.
Qed.

Lemma settle_nothing (user : option Supabase.User) (k : nat) (st : State)
    (r : Settled unit) :
  k = length (inflight st) -> step user (Settle k r) st = st.
Proof. intros ->. unfold step. now rewrite lookup_length_None. Qed.

End FeedLike.

Lemma lookup_post_absent (postId : string) (ps : list Feed.Post) :
  Forall (fun p => Feed.id p <> postId) ps -> Feed.lookup_post postId ps = None.
Proof.
  induction 1 as [|p ps Hp _ IH]; simpl; [reflexivity |].
  destruct (String.eqb_spec (Feed.id p) postId); [contradiction | exact IH].
Qed.

Lemma lookup_post_id (postId : string) (ps : list Feed.Post) (p : Feed.Post) :
  Feed.lookup_post postId ps = Some p -> Feed.id p = postId.
Proof.
  intros H. apply List.find_some in H as [_ H]. now apply String.eqb_eq.
Qed.

#[local] Arguments Feed.step : simpl never.

Lemma handlePostLike_known (u : Supabase.User) (postId : string)
    (r rn : Settled unit) (st : Feed.State) (p : Feed.Post) :
  Feed.lookup_post postId (Feed.posts st) = Some p ->
  fulfilled rn = true ->
  let st' := Feed.handlePostLike (Some u) postId r rn st in
  Feed.lookup_post postId (Feed.posts st') = Some (Feed.toggle_result p r)
  /\ Feed.inflight st' = Feed.inflight st.
Proof.
  intros Hp Hrn. pose proof (lookup_post_id _ _ _ Hp) as Hid.
  destruct (click_known u postId st p Hp) as (i & Hi & Hl & Hcall).
  assert (Hins : forall q, Feed.id q = postId ->
            Feed.lookup_post postId (<[i := q]> (Feed.posts st)) = Some q).
  { intros q Hq. apply (find_insert _ _ _ _ Hi). now apply String.eqb_eq. }
  intros st'. subst st'. unfold Feed.handlePostLike. cbv zeta.
  change (Feed.step (Some u) (Feed.Click postId) st)
    with (Feed.handlePostLike_call (Some u) postId st).
  rewrite Hcall, settle_suspended by reflexivity.
  destruct r as [[d [e|]]|reason]; simpl.
  - destruct (Feed.user_has_liked p); simpl;
      rewrite settle_nothing by reflexivity; simpl; auto.
  - destruct (Feed.user_has_liked p) eqn:Hliked; simpl.
    + rewrite settle_nothing by reflexivity; simpl.
      split; [| reflexivity]. now apply Hins.
    + destruct (String.eqb (Feed.user_id p) (Supabase.id u)); simpl.
      * rewrite settle_nothing by reflexivity; simpl.
        split; [| reflexivity]. now apply Hins.
      * rewrite settle_suspended by reflexivity.
        destruct rn as [respn|]; [| discriminate]. simpl.
        split; [| reflexivity]. now apply Hins.
  - destruct (Feed.user_has_liked p); simpl;
      rewrite settle_nothing by reflexivity; simpl; auto.
Qed.

Lemma toggle_result_flag (p : Feed.Post) (r : Settled unit) :
  Feed.user_has_liked (Feed.toggle_result p r)
  = xorb (Feed.user_has_liked p) (succeeded r)
  /\ (Feed.likes_count (Feed.toggle_result p r)
      - Z.b2z (Feed.user_has_liked (Feed.toggle_result p r))
      = Feed.likes_count p - Z.b2z (Feed.user_has_liked p))%Z.
Proof.
  destruct r as [[d [e|]]|reason]; simpl;
    destruct (Feed.user_has_liked p); simpl; split; auto; lia.
Qed.

Lemma odd_step (b s : bool) (n : nat) :
  xorb (xorb b s) (Nat.odd n) = xorb b (Nat.odd ((if s then 1 else 0) + n)).
Proof.
  destruct s; simpl Nat.add.
  - rewrite Nat.odd_succ, <- Nat.negb_odd. now destruct b, (Nat.odd n).
  - now destruct b, (Nat.odd n).
Qed.

(** C1 (as amended): toggles issued one after the other, each settled
    before the next click.  The cached flag is the initial flag flipped
    once per toggle whose mutation came back without error, and the
    cached count moves with the flag: by exactly one up for each such
    like and one down for each such unlike, so that count minus flag is
    what it was at the start. *)
Theorem sequential_toggles_parity (u : Supabase.User) (postId : string)
    (rs : list (Settled unit * Settled unit)) (st : Feed.State)
    (p0 : Feed.Post) :
  Feed.lookup_post postId (Feed.posts st) = Some p0 ->
  Forall (fun r => fulfilled r.2 = true) rs ->
  exists p,
    Feed.lookup_post postId (Feed.posts (Feed.toggles (Some u) postId rs st))
      = Some p
    /\ Feed.user_has_liked p
       = xorb (Feed.user_has_liked p0)
           (Nat.odd (length (List.filter (fun r => succeeded r.1) rs)))
    /\ (Feed.likes_count p - Z.b2z (Feed.user_has_liked p)
        = Feed.likes_count p0 - Z.b2z (Feed.user_has_liked p0))%Z.
Proof.
  intros Hp Hrs. revert st p0 Hp.
  induction Hrs as [|[r rn] rs Hrn _ IH]; intros st p0 Hp.
  - exists p0. simpl. rewrite xorb_false_r. auto.
  - simpl in Hrn. unfold Feed.toggles. simpl fold_left.
    destruct (handlePostLike_known u postId r rn st p0 Hp Hrn) as [Hp' _].
    destruct (IH _ _ Hp') as (p & Hfin & Hflag & Hcount).
    destruct (toggle_result_flag p0 r) as [Hf1 Hc1].
    exists p. split; [exact Hfin | split].
    + rewrite Hflag, Hf1. simpl List.filter.
      destruct (succeeded r); simpl length.
      * apply (odd_step _ true).
      * apply (odd_step _ false).
    + lia.
Qed.

(** The amended C1 on a run of three toggles, the third of which fails. *)
Lemma sequential_toggles_parity_witness :
  let rs := [(ok tt, ok tt); (ok tt, ok tt); (failed NetworkError, ok tt)] in
  let st := Feed.mounted [Sample.P1] in
  Feed.lookup_post "P1" (Feed.posts st) = Some Sample.P1
  /\ Forall (fun r : Settled unit * Settled unit => fulfilled r.2 = true) rs
  /\ exists p,
       Feed.lookup_post "P1"
         (Feed.posts (Feed.toggles (Some Sample.alice) "P1" rs st)) = Some p
       /\ Feed.user_has_liked p = xorb false (Nat.odd 2)
       /\ (Feed.likes_count p - Z.b2z (Feed.user_has_liked p) = 0 - 0)%Z.
Proof.
  cbv zeta.
  assert (H1 : Feed.lookup_post "P1" (Feed.posts (Feed.mounted [Sample.P1]))
               = Some Sample.P1) by reflexivity.
  assert (H2 : Forall (fun r : Settled unit * Settled unit => fulfilled r.2 = true)
                 [(ok tt, ok tt); (ok tt, ok tt); (failed NetworkError, ok tt)])
    by (repeat constructor).
  split; [exact H1 | split; [exact H2 |]].
  exact (sequential_toggles_parity Sample.alice "P1" _ _ Sample.P1 H1 H2).
Defined.

(** C1 (as stated) fails on a double tap on a post the viewer has
    liked: both clicks read the same render, both send [likes.delete]
    before either settles (the second is neither queued nor rejected),
    and both come back without error, a delete that matches no row
    being no error.  Two toggles have completed, and the flag is off
    where the parity of two toggles leaves it on. *)
Lemma double_tap_breaks_parity :
  let user := Some Sample.alice in
  let st0 := Feed.mounted [Sample.P3] in
  let evs := [Feed.Click "P3"; Feed.Click "P3";
              Feed.Settle 0 (ok tt); Feed.Settle 0 (ok tt)] in
  let tapped := Feed.run user (take 2 evs) st0 in
  let fin := Feed.run user evs st0 in
  (length (Feed.inflight tapped) = 2
   /\ mutations (Feed.trace tapped)
      = [LikesDelete "P3" "alice-id"; LikesDelete "P3" "alice-id"])
  /\ Feed.inflight fin = []
  /\ Feed.toggles_done user evs st0 = 2
  /\ Feed.user_has_liked <$> Feed.lookup_post "P3" (Feed.posts fin)
     <> Some (xorb (Feed.user_has_liked Sample.P3) (Nat.odd 2)).
Proof. vm_compute. repeat split; discriminate. Qed.

(** C9: a like on a post id that is not in the feed array returns at
    [if (postIndex === -1) return]: the component is exactly as before
    (same posts, nothing suspended, nothing sent to the gateway),
    whether the handler is looked at up to its first await or as a
    whole call. *)
Theorem like_unknown_post_is_noop (user : option Supabase.User)
    (postId : string) (r rn : Settled unit) (st : Feed.State) :
  Forall (fun p => Feed.id p <> postId) (Feed.posts st) ->
  Feed.handlePostLike_call user postId st = st
  /\ Feed.handlePostLike user postId r rn st = st
  /\ mutations (Feed.trace (Feed.handlePostLike user postId r rn st))
     = mutations (Feed.trace st)
  /\ Feed.posts (Feed.handlePostLike user postId r rn st) = Feed.posts st.
Proof.
  intros Habsent. apply lookup_post_absent in Habsent.
  pose proof (click_unknown postId user st Habsent) as Hcall.
  assert (Hwhole : Feed.handlePostLike user postId r rn st = st).
  { unfold Feed.handlePostLike. cbv zeta.
    change (Feed.step user (Feed.Click postId) st)
      with (Feed.handlePostLike_call user postId st).
    rewrite Hcall.
    now rewrite (settle_nothing user _ st r eq_refl),
      (settle_nothing user _ st rn eq_refl). }
  rewrite Hwhole. auto.
Qed.

Lemma like_unknown_post_is_noop_witness :
  let st := Feed.mounted [Sample.P1; Sample.P2] in
  Forall (fun p => Feed.id p <> "P9") (Feed.posts st)
  /\ Feed.handlePostLike_call (Some Sample.alice) "P9" st = st
  /\ Feed.handlePostLike (Some Sample.alice) "P9" (ok tt) (ok tt) st = st
  /\ mutations
       (Feed.trace (Feed.handlePostLike (Some Sample.alice) "P9" (ok tt) (ok tt) st))
     = mutations (Feed.trace st)
  /\ Feed.posts (Feed.handlePostLike (Some Sample.alice) "P9" (ok tt) (ok tt) st)
     = Feed.posts st.
Proof.
  cbv zeta.
  assert (H : Forall (fun p => Feed.id p <> "P9")
                (Feed.posts (Feed.mounted [Sample.P1; Sample.P2])))
    by (repeat constructor; discriminate).
  split; [exact H |].
  exact (like_unknown_post_is_noop (Some Sample.alice) "P9" (ok tt) (ok tt) _ H).
Defined.

(** C3 (as amended): when the mutation of a like or unlike comes back
    with an error, the cached posts are what they were before the click
    (the handler writes to the cache only after a successful mutation,
    so nothing was applied and nothing is reverted), no call stays
    suspended, the component's [error] state is untouched, and the only
    trace of the failure is a [console.error]. *)
Theorem like_failure_only_logged (user : option Supabase.User)
    (postId : string) (d : option unit) (e : PgError) (rn : Settled unit)
    (st : Feed.State) :
  let r := Fulfilled {| data := d; error := Some e |} in
  let st' := Feed.handlePostLike user postId r rn st in
  Feed.posts (Feed.handlePostLike_call user postId st) = Feed.posts st
  /\ Feed.posts st' = Feed.posts st
  /\ Feed.error st' = Feed.error st
  /\ Feed.inflight st' = Feed.inflight st
  /\ (Feed.trace st' = Feed.trace st
      \/ exists m msg,
           is_mutation m = true
           /\ Feed.trace st' = (Feed.trace st ++ [m; ConsoleError msg])%list).
Proof.
  intros r st'. subst r st'.
  destruct (Feed.lookup_post postId (Feed.posts st)) as [p|] eqn:Hp;
    [destruct user as [u|] |].
  - destruct (click_known u postId st p Hp) as (i & _ & _ & Hcall).
    unfold Feed.handlePostLike. cbv zeta.
    change (Feed.step (Some u) (Feed.Click postId) st)
      with (Feed.handlePostLike_call (Some u) postId st).
    rewrite Hcall, settle_suspended by reflexivity.
    destruct (Feed.user_has_liked p); simpl;
      rewrite settle_nothing by reflexivity; simpl;
      (repeat split; try reflexivity); right; eexists _, _;
      rewrite <- app_assoc; simpl; (split; [| reflexivity]); reflexivity.
  - unfold Feed.handlePostLike. cbv zeta.
    change (Feed.step None (Feed.Click postId) st) with st.
    rewrite (settle_nothing None _ st _ eq_refl),
      (settle_nothing None _ st rn eq_refl). simpl. auto 6.
  - pose proof (click_unknown postId user st Hp) as Hcall.
    unfold Feed.handlePostLike. cbv zeta.
    change (Feed.step user (Feed.Click postId) st)
      with (Feed.handlePostLike_call user postId st).
    rewrite Hcall, (settle_nothing user _ st _ eq_refl),
      (settle_nothing user _ st rn eq_refl). auto 6.
Qed.

(** C3 (as stated) fails on the specification's own scenario: alice
    likes [P1], the insert fails with a network error.  The cache is
    as before, but no error is put before the user: the [error] state
    of the feed stays empty and the failure only reaches the console. *)
Lemma like_failure_not_surfaced :
  let st0 := Feed.mounted [Sample.P1] in
  let fin := Feed.handlePostLike (Some Sample.alice) "P1"
               (failed NetworkError) (ok tt) st0 in
  Feed.trace fin = [LikesInsert "P1" "alice-id"; ConsoleError "Error liking post:"]
  /\ ~ (Feed.posts fin = Feed.posts st0 /\ is_Some (Feed.error fin)).
Proof.
  vm_compute. split; [reflexivity |].
  intros [_ [x Hx]]. discriminate.
Qed.

(** ** Notifications on likes and comments *)

Lemma notification_inserts_snoc (t : list Effect) (e : Effect) :
  notification_inserts (t ++ [e])
  = (notification_inserts t ++ if is_notification_insert e then [e] else [])%list.
Proof.
  unfold notification_inserts. rewrite List.filter_app. simpl.
  now destruct (is_notification_insert e).
Qed.

Lemma like_notification (u : Supabase.User) (postId : string)
    (resp : Response unit) (rn : Settled unit) (st : Feed.State)
    (p : Feed.Post) :
  Feed.lookup_post postId (Feed.posts st) = Some p ->
  Feed.user_has_liked p = false ->
  Gateway.error resp = None ->
  notification_inserts
    (Feed.trace (Feed.handlePostLike (Some u) postId (Fulfilled resp) rn st))
  = (notification_inserts (Feed.trace st)
     ++ if decide (Feed.user_id p = Supabase.id u) then []
        else [NotificationsInsert
                {| n_user_id := Feed.user_id p; n_type := "like";
                   n_related_id := postId; n_from_user_id := Supabase.id u;
                   n_is_read := false |}])%list.
Proof.
  intros Hp Hliked Hresp.
  destruct (click_known u postId st p Hp) as (i & _ & _ & Hcall).
  unfold Feed.handlePostLike. cbv zeta.
  change (Feed.step (Some u) (Feed.Click postId) st)
    with (Feed.handlePostLike_call (Some u) postId st).
  rewrite Hcall, Hliked, settle_suspended by reflexivity.
  destruct resp as [d err]. simpl in Hresp. subst err. simpl.
  destruct (String.eqb_spec (Feed.user_id p) (Supabase.id u)) as [Heq|Hne]; simpl.
  - rewrite settle_nothing by reflexivity. simpl.
    rewrite notification_inserts_snoc. simpl.
    destruct (decide (Feed.user_id p = Supabase.id u)); [reflexivity | contradiction].
  - rewrite settle_suspended by reflexivity.
    destruct (decide (Feed.user_id p = Supabase.id u)); [contradiction |].
    destruct rn; simpl; rewrite !notification_inserts_snoc; simpl;
      now rewrite <- app_assoc.
Qed.

Lemma comment_notification (u : Supabase.User) (postId postUserId : string)
    (resp : Response unit) (rn : Settled unit) (st : CommentSection.State) :
  Js.truthy (Js.trim (CommentSection.newComment st)) = true ->
  Gateway.error resp = None ->
  notification_inserts
    (CommentSection.trace
       (Eff.exec
          (CommentSection.handleSubmit (Some u) postId postUserId
             (Fulfilled resp) rn) st))
  = (notification_inserts (CommentSection.trace st)
     ++ if decide (postUserId = Supabase.id u) then []
        else [NotificationsInsert
                {| n_user_id := postUserId; n_type := "comment";
                   n_related_id := postId; n_from_user_id := Supabase.id u;
                   n_is_read := false |}])%list.
Proof.
  intros Hdraft Hresp. destruct resp as [d err]. simpl in Hresp. subst err.
  unfold Eff.exec, CommentSection.handleSubmit, Eff.bind, Eff.get, Eff.finally,
    Eff.try_catch, Eff.modify, Eff.await, Eff.throw_if, Eff.ret, Eff.throw.
  simpl. rewrite Hdraft. simpl.
  destruct (String.eqb_spec (Supabase.id u) postUserId) as [Heq|Hne]; simpl.
  - rewrite notification_inserts_snoc. simpl.
    destruct (decide (postUserId = Supabase.id u)); [reflexivity | congruence].
  - destruct (decide (postUserId = Supabase.id u)); [congruence |].
    destruct rn; simpl; rewrite !notification_inserts_snoc; simpl;
      now rewrite ?app_nil_r.
Qed.

(** C7: a like that is created (the cached flag was off and
    [likes.insert] came back without error) and a comment that is
    created (a non-blank draft whose [comments.insert] came back
    without error) each send exactly one [notifications.insert],
    addressed to the post's author, when the author is not the acting
    account, and none when it is. *)
Theorem notification_iff_actor_is_not_author (u : Supabase.User)
    (postId : string) (st : Feed.State) (p : Feed.Post)
    (resp : Response unit) (rn : Settled unit)
    (postUserId : string) (cst : CommentSection.State)
    (cresp : Response unit) (crn : Settled unit) :
  Feed.lookup_post postId (Feed.posts st) = Some p ->
  Feed.user_has_liked p = false ->
  Gateway.error resp = None ->
  Js.truthy (Js.trim (CommentSection.newComment cst)) = true ->
  Gateway.error cresp = None ->
  notification_inserts
    (Feed.trace (Feed.handlePostLike (Some u) postId (Fulfilled resp) rn st))
  = (notification_inserts (Feed.trace st)
     ++ if decide (Feed.user_id p = Supabase.id u) then []
        else [NotificationsInsert
                {| n_user_id := Feed.user_id p; n_type := "like";
                   n_related_id := postId; n_from_user_id := Supabase.id u;
                   n_is_read := false |}])%list
  /\ notification_inserts
       (CommentSection.trace
          (Eff.exec
             (CommentSection.handleSubmit (Some u) postId postUserId
                (Fulfilled cresp) crn) cst))
     = (notification_inserts (CommentSection.trace cst)
        ++ if decide (postUserId = Supabase.id u) then []
           else [NotificationsInsert
                   {| n_user_id := postUserId; n_type := "comment";
                      n_related_id := postId; n_from_user_id := Supabase.id u;
                      n_is_read := false |}])%list.
Proof.
  intros Hp Hliked Hresp Hdraft Hcresp. split.
  - now apply like_notification.
  - now apply comment_notification.
Qed.

(** C7 at alice liking and commenting on bob's post [P1]. *)
Lemma notification_iff_actor_is_not_author_witness :
  let st := Feed.mounted [Sample.P1] in
  let cst := CommentSection.mounted [] " nice " in
  let success := {| data := Some tt; error := None |} in
  let note kind :=
    NotificationsInsert
      {| n_user_id := "bob-id"; n_type := kind; n_related_id := "P1";
         n_from_user_id := "alice-id"; n_is_read := false |} in
  (Feed.lookup_post "P1" (Feed.posts st) = Some Sample.P1
   /\ Feed.user_has_liked Sample.P1 = false
   /\ Js.truthy (Js.trim (CommentSection.newComment cst)) = true)
  /\ notification_inserts
       (Feed.trace
          (Feed.handlePostLike (Some Sample.alice) "P1" (Fulfilled success)
             (ok tt) st))
     = [note "like"]
  /\ notification_inserts
       (CommentSection.trace
          (Eff.exec
             (CommentSection.handleSubmit (Some Sample.alice) "P1" "bob-id"
                (Fulfilled success) (ok tt)) cst))
     = [note "comment"].
Proof.
  cbv zeta. split; [repeat split |].
  exact (notification_iff_actor_is_not_author Sample.alice "P1"
           (Feed.mounted [Sample.P1]) Sample.P1
           {| data := Some tt; error := None |} (ok tt)
           "bob-id" (CommentSection.mounted [] " nice ")
           {| data := Some tt; error := None |} (ok tt)
           eq_refl eq_refl eq_refl eq_refl eq_refl).
Defined.

(** ** The unread-messages badge *)

(** C10: the callback of the navigation bar's [messages] channel adds
    one to [unreadMessages] for every inserted row whose [user_id] is
    not the viewer's, and the row's [chat_id] plays no part: the same
    row in any other chat, whatever the [chat_members] table says
    about the viewer, gives the same result. *)
Theorem unread_badge_ignores_membership (user : Supabase.User)
    (m : Navigation.MessageRow) (st : Navigation.State) :
  Navigation.user_id m <> Supabase.id user ->
  let st' := Navigation.onMessageInsert user (Some m) st in
  Navigation.unreadMessages st' = (Navigation.unreadMessages st + 1)%Z
  /\ Navigation.unreadNotifications st' = Navigation.unreadNotifications st
  /\ forall (chat : string) (d : ChatList.Db),
       ChatList.is_member (Supabase.id user) chat d = false ->
       Navigation.onMessageInsert user
         (Some {| Navigation.id := Navigation.id m;
                  Navigation.chat_id := chat;
                  Navigation.user_id := Navigation.user_id m;
                  Navigation.content := Navigation.content m;
                  Navigation.created_at := Navigation.created_at m |}) st
       = st'.
Proof.
  intros Hne st'. subst st'. unfold Navigation.onMessageInsert. simpl.
  destruct (String.eqb_spec (Navigation.user_id m) (Supabase.id user));
    [contradiction |].
  simpl. auto.
Qed.

(** C10 at a message of a chat that alice does not belong to. *)
Lemma unread_badge_ignores_membership_witness :
  let st := {| Navigation.unreadNotifications := 0;
               Navigation.unreadMessages := 3 |} in
  (Navigation.user_id Sample.foreign_message <> Supabase.id Sample.alice
   /\ ChatList.is_member "alice-id"
        (Navigation.chat_id Sample.foreign_message) Sample.chats_db = false)
  /\ Navigation.unreadMessages
       (Navigation.onMessageInsert Sample.alice (Some Sample.foreign_message) st)
     = 4%Z.
Proof.
  cbv zeta.
  assert (H : Navigation.user_id Sample.foreign_message <> Supabase.id Sample.alice)
    by discriminate.
  split; [split; [exact H | reflexivity] |].
  exact (proj1 (unread_badge_ignores_membership Sample.alice
                  Sample.foreign_message _ H)).
Defined.

(** ** Starting a chat *)

(** C5 at the failing input: alice and bob share the group chat [G]
    and the direct chat [D], and the [chat_members] rows of [G] come
    first.  [matchingChats[0]] is then [G]; the select of a chat with
    that id and [is_group = false] finds no row, and the handler goes
    on to insert a second direct chat, [N], and navigates to it. *)
Theorem createOrGetChat_after_shared_group :
  let w0 := {| ChatList.db := Sample.chats_db; ChatList.trace := [] |} in
  let w := Eff.exec (ChatList.onMount (Some Sample.alice) (Some "bob-id") "N") w0 in
  ChatList.direct_chats_between "alice-id" "bob-id" Sample.chats_db = ["D"]
  /\ ChatList.trace w
     = [ ChatsInsert None false "alice-id";
         ChatMembersInsert [("N", "alice-id"); ("N", "bob-id")];
         Navigate "/messages?chat=N" ]
  /\ ChatList.direct_chats_between "alice-id" "bob-id" (ChatList.db w)
     = ["D"; "N"].
Proof. vm_compute. auto. Qed.

(** With the same chats in the other order the existing direct chat is
    found and nothing is written. *)
Example createOrGetChat_direct_first :
  let w0 := {| ChatList.db := Sample.chats_db_direct_first; ChatList.trace := [] |} in
  let w := Eff.exec (ChatList.onMount (Some Sample.alice) (Some "bob-id") "N") w0 in
  ChatList.trace w = [Navigate "/messages?chat=D"]
  /\ ChatList.db w = Sample.chats_db_direct_first.
Proof. vm_compute. auto. Qed.

(** ** Profile provisioning *)

(** The username is the base followed by the digits of the second
    draw; the base does not look at the first draw when the account
    has a full name or an email. *)
Lemma username_base_no_fallback (u : Supabase.User) (f f' : nat) :
  AuthProvider.or_null (Supabase.user_metadata u ≫= Supabase.full_name) <> None
  \/ AuthProvider.or_null (Supabase.email u) <> None ->
  AuthProvider.username_base u f = AuthProvider.username_base u f'.
Proof.
  unfold AuthProvider.username_base. intros [H|H].
  - destruct (AuthProvider.or_null (Supabase.user_metadata u ≫= Supabase.full_name));
      [reflexivity | contradiction].
  - destruct (AuthProvider.or_null (Supabase.user_metadata u ≫= Supabase.full_name));
      [reflexivity |].
    destruct (AuthProvider.or_null (Supabase.email u)); [reflexivity | contradiction].
Qed.

(** C8 (as amended): for an account with a full name or an email, the
    username is a function of that metadata and of the value drawn by
    [Math.floor(Math.random() * 1000)]: two accounts with the same full
    name and email get the same base, and the same username when the
    draws are equal; the username is the base followed by the decimal
    digits of the draw. *)
Theorem username_determined_up_to_draw (u u' : Supabase.User)
    (f f' suffix : nat) :
  Supabase.user_metadata u ≫= Supabase.full_name
    = Supabase.user_metadata u' ≫= Supabase.full_name ->
  Supabase.email u = Supabase.email u' ->
  AuthProvider.or_null (Supabase.user_metadata u ≫= Supabase.full_name) <> None
    \/ AuthProvider.or_null (Supabase.email u) <> None ->
  AuthProvider.username_base u f = AuthProvider.username_base u' f'
  /\ AuthProvider.generate_username u f suffix
     = AuthProvider.generate_username u' f' suffix
  /\ AuthProvider.generate_username u f suffix
     = AuthProvider.username_base u f ++ Js.of_nat suffix.
Proof.
  intros Hname Hmail Hsome.
  assert (Hbase : AuthProvider.username_base u f = AuthProvider.username_base u' f').
  { rewrite (username_base_no_fallback u f f' Hsome).
    unfold AuthProvider.username_base. now rewrite Hname, Hmail. }
  unfold AuthProvider.generate_username. rewrite Hbase. auto.
Qed.

Lemma username_determined_up_to_draw_witness :
  (AuthProvider.or_null
     (Supabase.user_metadata Sample.alice ≫= Supabase.full_name) <> None
   \/ AuthProvider.or_null (Supabase.email Sample.alice) <> None)
  /\ AuthProvider.generate_username Sample.alice 0 42
     = AuthProvider.generate_username Sample.alice 17 42
  /\ AuthProvider.generate_username Sample.alice 0 42 = "aliceliddell42".
Proof.
  assert (H : AuthProvider.or_null
                (Supabase.user_metadata Sample.alice ≫= Supabase.full_name) <> None
              \/ AuthProvider.or_null (Supabase.email Sample.alice) <> None)
    by (left; discriminate).
  split; [exact H |].
  exact (proj2 (username_determined_up_to_draw Sample.alice Sample.alice
                  0 17 42 eq_refl eq_refl H)).
Defined.

(** C8 (as stated) fails: two provisioning runs for the same account,
    with the same answers from the gateway, insert different usernames
    when [Math.random()] draws differently. *)
Lemma username_depends_on_draw :
  let inserted d :=
    AuthProvider.trace
      (Eff.exec
         (AuthProvider.createProfileIfNeeded Sample.alice
            (AuthProvider.provisioning_ok d))
         AuthProvider.initial) in
  inserted 7 = [ProfilesInsert "alice-id" "aliceliddell7" None]
  /\ inserted 8 = [ProfilesInsert "alice-id" "aliceliddell8" None]
  /\ AuthProvider.generate_username Sample.alice 0 7
     <> AuthProvider.generate_username Sample.alice 0 8.
Proof. vm_compute. repeat split; discriminate. Qed.

Lemma navigations_snoc (t : list Effect) (e : Effect) :
  AuthProvider.navigations (t ++ [e])
  = (AuthProvider.navigations t
     ++ match e with Navigate h => [h] | _ => [] end)%list.
Proof.
  unfold AuthProvider.navigations. rewrite omap_app. simpl.
  now destruct e.
Qed.

Ltac run_handler :=
  unfold Eff.exec, Eff.completion, Eff.bind, Eff.get, Eff.finally,
    Eff.try_catch, Eff.modify, Eff.await, Eff.throw_if, Eff.ret, Eff.throw;
  simpl.

Ltac split_cases :=
  repeat match goal with
    | |- context [match ?x with _ => _ end] =>
        match type of x with
        | bool => destruct x eqn:?
        | option _ => destruct x eqn:?
        | Settled _ => destruct x eqn:?
        | Response _ => destruct x eqn:?
        end; simpl
    end.

(** [createProfileIfNeeded] returns on every path: it never throws
    into its caller, and it leaves the session state alone. *)
Lemma createProfileIfNeeded_returns (u : Supabase.User)
    (p : AuthProvider.Provisioning) (st : AuthProvider.State) :
  exists st',
    AuthProvider.createProfileIfNeeded u p st = (Eff.Returned tt, st')
    /\ AuthProvider.user st' = AuthProvider.user st
    /\ AuthProvider.session st' = AuthProvider.session st
    /\ AuthProvider.isLoading st' = AuthProvider.isLoading st
    /\ AuthProvider.navigations (AuthProvider.trace st')
       = AuthProvider.navigations (AuthProvider.trace st).
Proof.
  destruct p as [tc pc f s pi].
  unfold AuthProvider.createProfileIfNeeded, AuthProvider.createProfileIfNeeded_try.
  run_handler.
  destruct tc as [[dt et]|]; simpl; split_cases;
    eexists; (split; [reflexivity |]); simpl;
    rewrite ?navigations_snoc; simpl; rewrite ?app_nil_r; auto.
Qed.

#[local] Arguments AuthProvider.createProfileIfNeeded : simpl never.

Ltac provision_step :=
  match goal with
  | |- context [AuthProvider.createProfileIfNeeded ?u ?p ?s] =>
      let st1 := fresh "st1" in
      let E := fresh "E" in
      let Hu := fresh "Hu" in
      let Hs := fresh "Hs" in
      let Hl := fresh "Hl" in
      let Hn := fresh "Hn" in
      destruct (createProfileIfNeeded_returns u p s)
        as (st1 & E & Hu & Hs & Hl & Hn);
      rewrite E; simpl in Hu, Hs, Hl, Hn;
      rewrite ?navigations_snoc in Hn; simpl in Hn;
      rewrite ?app_nil_r in Hn; simpl
  end.


(** ** Creating a post *)

(** The select of [fetchNewPost] on the sample tables: bob's post has
    a liker, and comes back with its counts and its likers. *)
Example select_new_post_example :
  Feed.select_new_post "P7" Sample.backend
  = ok {| Feed.row_id := "P7"; Feed.row_content := "news";
          Feed.row_image_url := None;
          Feed.row_created_at := "2024-05-01T12:30:00Z";
          Feed.row_user_id := "bob-id";
          Feed.row_profiles := Sample.bob_profile;
          Feed.row_likes_count := [1%Z]; Feed.row_comments_count := [1%Z];
          Feed.row_user_has_liked := ["carol-id"] |}.
Proof. reflexivity. Qed.

(** A post that has no [likes] row is not among the rows of the
    inner join, so [.single()] answers PGRST116 for it. *)
Lemma select_new_post_unliked (newId : string) (d : Feed.Db) :
  Feed.likers newId d = [] ->
  Feed.select_new_post newId d = failed NoRows.
Proof.
  intros Hnone. unfold Feed.select_new_post, Feed.select_posts.
  assert (E : List.filter (fun r => String.eqb (Feed.row_id r) newId)
                (map (Feed.embed d)
                   (List.filter (Feed.is_liked d) (Feed.posts_table d))) = []).
  { induction (Feed.posts_table d) as [|p ps IH]; simpl; [reflexivity |].
    destruct (Feed.is_liked d p) eqn:L; [| exact IH].
    simpl. destruct (String.eqb (Feed.stored_id p) newId) eqn:E; [| exact IH].
    apply String.eqb_eq in E. unfold Feed.is_liked in L.
    rewrite E, Hnone in L. discriminate. }
  now rewrite E.
Qed.

(** The row that a successful select hands to the callback always
    carries at least one liker. *)
Lemma select_new_post_has_liker (newId : string) (d : Feed.Db)
    (row : Feed.PostRow) :
  Feed.select_new_post newId d = ok row ->
  Feed.row_user_has_liked row <> [] /\ Feed.row_id row = newId.
Proof.
  unfold Feed.select_new_post, Feed.single. intros H.
  destruct (List.filter _ _) as [|r [|r' rest]] eqn:E; try discriminate.
  assert (r = row) by (unfold ok in H; congruence). subst r.
  assert (Hin : In row (List.filter (fun r => String.eqb (Feed.row_id r) newId)
                          (Feed.select_posts d)))
    by (rewrite E; now left).
  apply filter_In in Hin. destruct Hin as [Hin Hid].
  apply String.eqb_eq in Hid. split; [| exact Hid].
  unfold Feed.select_posts in Hin. apply in_map_iff in Hin.
  destruct Hin as [p [Hp Hin]]. apply filter_In in Hin.
  destruct Hin as [_ L]. subst row. simpl.
  unfold Feed.is_liked in L. destruct (Feed.likers _ d); [discriminate | easy].
Qed.

(** C4: the post a user has just submitted does not reach the feed.
    Submitting a text-only post sends one [posts.insert] and leaves
    the feed as it is while the insert is pending and after it has come
    back: there is no provisional record.  The feed is to learn of the
    post from the INSERT event of its subscription, but the select of
    [fetchNewPost] joins [likes] with [!inner] and asks for [.single()]:
    the new post is stored, nobody has liked it yet, so the select
    answers PGRST116, the callback returns at [if (error) return], and
    the feed still holds no post with the new id. *)
Theorem submitted_post_never_reaches_feed (url : string) (u : Supabase.User)
    (uuid newId createdAt : string) (author : Feed.Profiles)
    (st : Home.State) (d : Feed.Db) :
  CreatePost.image (Home.createPost st) = None ->
  Js.truthy (Js.trim (CreatePost.content (Home.createPost st))) = true ->
  Feed.likers newId d = [] ->
  Home.with_id newId (Home.feed_posts st) = [] ->
  let k := length (CreatePost.inflight (Home.createPost st)) in
  let text := Js.trim (CreatePost.content (Home.createPost st)) in
  let d' :=
    Feed.insert_post
      {| Feed.stored_id := newId; Feed.stored_content := text;
         Feed.stored_image_url := None; Feed.stored_created_at := createdAt;
         Feed.stored_user_id := Supabase.id u;
         Feed.stored_profiles := author |} d in
  let st1 := Home.step url (Some u) (Home.Submit uuid) st in
  let st2 := Home.step url (Some u) (Home.SubmitSettled k (ok tt)) st1 in
  let st3 :=
    Home.step url (Some u)
      (Home.InFeed (Feed.PostInserted (Feed.select_new_post newId d'))) st2 in
  CreatePost.trace (Home.createPost st1)
    = (CreatePost.trace (Home.createPost st)
       ++ [PostsInsert (Supabase.id u) text None])%list
  /\ Home.feed st1 = Home.feed st
  /\ Home.feed st2 = Home.feed st
  /\ In newId (map Feed.stored_id (Feed.posts_table d'))
  /\ Feed.select_new_post newId d' = failed NoRows
  /\ Home.feed st3 = Home.feed st
  /\ Home.with_id newId (Home.feed_posts st3) = [].
Proof.
  intros Himg Hdraft Hnone Hfresh k text d' st1 st2 st3.
  assert (E1 : Home.createPost st1
               = CreatePost.suspend
                   {| CreatePost.stage := CreatePost.AwaitInsert;
                      CreatePost.uid := Supabase.id u;
                      CreatePost.text := text;
                      CreatePost.filePath := "" |}
                   (CreatePost.emit
                      (PostsInsert (Supabase.id u) text None)
                      (CreatePost.setError None
                         (CreatePost.setIsSubmitting true (Home.createPost st))))).
  { subst st1 text. simpl. unfold CreatePost.handleSubmit_call.
    rewrite Hdraft. simpl. rewrite Himg. reflexivity. }
  assert (F2 : Home.feed st2 = Home.feed st).
  { subst st2. unfold Home.step. rewrite E1. simpl. subst k.
    now rewrite lookup_last. }
  assert (S : Feed.select_new_post newId d' = failed NoRows)
    by (apply select_new_post_unliked; exact Hnone).
  assert (F3 : Home.feed st3 = Home.feed st).
  { subst st3. simpl. rewrite S. simpl. exact F2. }
  repeat split; try assumption.
  - now rewrite E1.
  - subst d'. simpl. rewrite map_app, in_app_iff. right. now left.
  - unfold Home.feed_posts in *. now rewrite F3.
Qed.

(** C4 on the specification's scenario: alice submits "hello" on a
    home page with an empty feed, the gateway stores the post as [P1],
    and after the INSERT event the feed is still empty. *)
Lemma submitted_post_never_reaches_feed_witness :
  let run := Home.run Sample.supabaseUrl (Some Sample.alice) in
  let stored :=
    Feed.insert_post
      {| Feed.stored_id := "P1"; Feed.stored_content := "hello";
         Feed.stored_image_url := None;
         Feed.stored_created_at := "2024-05-01T13:00:00Z";
         Feed.stored_user_id := "alice-id";
         Feed.stored_profiles := Sample.alice_profile |} Sample.backend in
  (CreatePost.image (Home.createPost Sample.home) = None
   /\ Js.truthy (Js.trim (CreatePost.content (Home.createPost Sample.home))) = true
   /\ Feed.likers "P1" Sample.backend = []
   /\ Home.with_id "P1" (Home.feed_posts Sample.home) = [])
  /\ Feed.select_new_post "P1" stored = failed NoRows
  /\ Home.feed_posts
       (run [Home.Submit "uuid"; Home.SubmitSettled 0 (ok tt);
             Home.InFeed (Feed.PostInserted (Feed.select_new_post "P1" stored))]
          Sample.home)
     = [].
Proof.
  cbv zeta. split; [repeat split |].
  pose proof (submitted_post_never_reaches_feed Sample.supabaseUrl Sample.alice
                "uuid" "P1" "2024-05-01T13:00:00Z" Sample.alice_profile
                Sample.home Sample.backend eq_refl eq_refl eq_refl eq_refl) as H.
  cbv zeta in H.
  destruct H as (_ & _ & _ & _ & S & F3 & _).
  split; [exact S |].
  unfold Home.feed_posts. simpl Home.run. unfold Home.run. simpl fold_left.
  exact (f_equal Feed.posts F3).
Defined.

(** ** The comment and message caches *)

Lemma fetched_cons {A} (r : Settled A) (rs : list (Settled A)) :
  fetched (r :: rs) = (fetched [r] ++ fetched rs)%list.
Proof.
  unfold fetched. simpl.
  destruct r as [[[a|] [e|]]|]; reflexivity.
Qed.








(** * Further properties of the components *)

Ltac run_all :=
  unfold Eff.exec, Eff.completion, Eff.bind, Eff.get, Eff.finally, Eff.zoom,
    Eff.try_catch, Eff.modify, Eff.await, Eff.throw_if, Eff.ret, Eff.throw;
  simpl.

Ltac break_hyps :=
  repeat match goal with
    | H : _ /\ _ |- _ => destruct H
    | H : exists _, _ |- _ => destruct H
    | H : is_Some _ |- _ => destruct H
    | H : Some _ = Some _ |- _ => injection H as H; try subst
    | H : Fulfilled _ = Fulfilled _ |- _ => injection H as H; try subst
    end.

Ltac finish :=
  solve [ repeat split; intros; break_hyps;
          try discriminate; try contradiction; try congruence; try lia;
          try (unfold is_Some; eauto; fail) ].

(** ** The middleware *)

(** X1: the middleware never sends a request in circles: wherever it
    redirects to, the same request for that address (same session or
    none) is let through. *)
Theorem middleware_no_redirect_loop (u to : Middleware.Url)
    (session : option Supabase.Session) :
  Middleware.middleware u session = Middleware.Redirect to ->
  Middleware.middleware to session = Middleware.Next.
Proof.
  unfold Middleware.middleware.
  destruct (Middleware.isProtectedRoute u && negb (Js.is_Some_b session)) eqn:Hp.
  - intros [= <-]. apply andb_true_iff in Hp as [_ Hs].
    destruct session; [discriminate |]. reflexivity.
  - destruct (Middleware.isAuthRoute u && Js.is_Some_b session) eqn:Ha;
      [| discriminate].
    intros [= <-]. apply andb_true_iff in Ha as [_ Hs].
    destruct session; [| discriminate]. reflexivity.
Qed.

Lemma middleware_no_redirect_loop_witness :
  let u := {| Middleware.pathname := "/messages"; Middleware.search := "?chat=D" |} in
  let to := {| Middleware.pathname := "/login"; Middleware.search := "?chat=D" |} in
  Middleware.middleware u None = Middleware.Redirect to
  /\ Middleware.middleware to None = Middleware.Next.
Proof.
  cbv zeta.
  assert (H : Middleware.middleware
                {| Middleware.pathname := "/messages"; Middleware.search := "?chat=D" |}
                None
              = Middleware.Redirect
                  {| Middleware.pathname := "/login"; Middleware.search := "?chat=D" |})
    by reflexivity.
  split; [exact H |].
  exact (middleware_no_redirect_loop _ _ None H).
Defined.

(** X2: without a session the middleware lets a request through
    exactly when its path starts with [/login], [/signup], [/auth/] or
    [/_next/] or contains a dot; so a path such as [/profile/jane.doe]
    is not guarded.  Every other request is sent to [/login] with its
    query string kept. *)
Theorem middleware_without_session (u : Middleware.Url) :
  (Middleware.middleware u None = Middleware.Next
   <-> String.prefix "/login" (Middleware.pathname u) = true
       \/ String.prefix "/signup" (Middleware.pathname u) = true
       \/ String.prefix "/auth/" (Middleware.pathname u) = true
       \/ String.prefix "/_next/" (Middleware.pathname u) = true
       \/ Js.includes "." (Middleware.pathname u) = true)
  /\ (Middleware.middleware u None <> Middleware.Next ->
      Middleware.middleware u None
      = Middleware.Redirect
          {| Middleware.pathname := "/login";
             Middleware.search := Middleware.search u |}).
Proof.
  unfold Middleware.middleware, Middleware.isProtectedRoute,
    Middleware.isAuthRoute, Middleware.with_pathname.
  destruct (String.prefix "/login" (Middleware.pathname u)),
    (String.prefix "/signup" (Middleware.pathname u)),
    (String.prefix "/auth/" (Middleware.pathname u)),
    (String.prefix "/_next/" (Middleware.pathname u)),
    (Js.includes "." (Middleware.pathname u)); simpl;
    (split; [split; [auto 6 | try reflexivity] | try reflexivity; try contradiction]);
    intuition discriminate.
Qed.

Example middleware_dot_path :
  Middleware.middleware
    {| Middleware.pathname := "/profile/jane.doe"; Middleware.search := "" |} None
  = Middleware.Next.
Proof. reflexivity. Qed.

(** ** The password and sign-up forms *)

(** X3: submitting the reset-password form always ends with the
    spinner off and with exactly one of the error and the success
    message on the page; the new password is sent only when it has at
    least six characters and equals its confirmation, and the success
    message (with the delayed move to the login page) appears exactly
    when, in addition, the update came back without error. *)
Theorem reset_password_outcome (updated : Settled unit)
    (st : ResetPassword.State) :
  let st' := Eff.exec (ResetPassword.handleSubmit updated) st in
  let valid :=
    (6 <= String.length (ResetPassword.password st))%nat
    /\ ResetPassword.password st = ResetPassword.confirmPassword st in
  Eff.completion (ResetPassword.handleSubmit updated) st = Eff.Returned tt
  /\ ResetPassword.isLoading st' = false
  /\ (is_Some (ResetPassword.error st') <-> ResetPassword.message st' = None)
  /\ (Ui.writes (ResetPassword.trace st') <> Ui.writes (ResetPassword.trace st)
      -> valid)
  /\ (is_Some (ResetPassword.message st')
      <-> valid /\ succeeded updated = true).
Proof.
  cbv zeta. unfold ResetPassword.handleSubmit. run_all.
  destruct (Nat.ltb_spec (String.length (ResetPassword.password st)) 6) as [Hlt|Hge];
    simpl; [finish |].
  destruct (String.eqb_spec (ResetPassword.password st)
              (ResetPassword.confirmPassword st)) as [Heq|Hne]; simpl; [| finish].
  destruct updated as [[d [e|]]|reason]; simpl; finish.
Qed.

(** X4: submitting the sign-up form always ends with the form's
    spinner off and leaves the provider's user and session as they
    were (signing up does not sign in).  The browser is sent to the
    login page with the "account created" message exactly when the
    password has at least six characters, the username at least three,
    and the sign-up call returned a user without error: what the probe
    of the profiles table and the profile insert do (error or throw)
    makes no difference.  In every other case an error text is shown
    and the page stays. *)
Theorem signup_outcome (created : Settled (option Supabase.User))
    (table inserted : Settled unit) (app : Signup.App) :
  let app' := Eff.exec (Signup.handleSubmit created table inserted) app in
  let pg := Signup.page app in
  let accepted :=
    (6 <= String.length (Signup.password pg))%nat
    /\ (3 <= String.length (Signup.username pg))%nat
    /\ exists u, created = Fulfilled {| data := Some (Some u); error := None |} in
  Eff.completion (Signup.handleSubmit created table inserted) app
    = Eff.Returned tt
  /\ Signup.isLoading (Signup.page app') = false
  /\ AuthProvider.user (Signup.auth app') = AuthProvider.user (Signup.auth app)
  /\ AuthProvider.session (Signup.auth app')
     = AuthProvider.session (Signup.auth app)
  /\ (accepted ->
      Signup.trace (Signup.page app')
        = (Signup.trace pg ++ [Navigate Signup.success_href])%list
      /\ Signup.error (Signup.page app') = None)
  /\ (~ accepted ->
      is_Some (Signup.error (Signup.page app'))
      /\ (Signup.trace (Signup.page app') = Signup.trace pg
          \/ Signup.trace (Signup.page app')
             = (Signup.trace pg ++ [ConsoleError "Error signing up:"])%list)).
Proof.
  cbv zeta. unfold Signup.handleSubmit, Signup.on_page, Signup.in_auth,
    AuthProvider.signUp. run_all.
  destruct (Nat.ltb_spec (String.length (Signup.password (Signup.page app))) 6)
    as [Hlt|Hge]; simpl; [finish |].
  destruct (Nat.ltb_spec (String.length (Signup.username (Signup.page app))) 3)
    as [Hlt3|Hge3]; simpl; [finish |].
  destruct created as [[[[u|]|] [e|]]|reason]; simpl; try finish.
  all: destruct table as [[dt [et|]]|rt]; simpl; try finish.
  all: destruct inserted as [[di [ei|]]|ri]; simpl; try finish.
  all: repeat split; auto; try finish.
  all: exfalso; match goal with H : ~ _ |- _ => apply H; eauto end.
Qed.

(** ** The provider's actions *)

(** X5: [setData], [signUp], [signIn], [signOut] and [resetPassword]
    leave [isLoading] off however their calls settle and whether they
    return or throw.  [signInWithProvider] is the exception: it clears
    the flag when the call fails and leaves it on when the call
    succeeds. *)
Theorem auth_actions_clear_loading (st : AuthProvider.State)
    (got : Settled (option Supabase.Session)) (p : AuthProvider.Provisioning)
    (name : string) (created : Settled (option Supabase.User))
    (table inserted : Settled unit) (signed : Settled (option Supabase.Session))
    (done sent started : Settled unit) :
  AuthProvider.isLoading (Eff.exec (AuthProvider.setData got p) st) = false
  /\ AuthProvider.isLoading
       (Eff.exec (AuthProvider.signUp name created table inserted) st) = false
  /\ AuthProvider.isLoading (Eff.exec (AuthProvider.signIn signed) st) = false
  /\ AuthProvider.isLoading (Eff.exec (AuthProvider.signOut done) st) = false
  /\ AuthProvider.isLoading (Eff.exec (AuthProvider.resetPassword sent) st) = false
  /\ AuthProvider.isLoading (Eff.exec (AuthProvider.signInWithProvider started) st)
     = succeeded started.
Proof.
  repeat split.
  - unfold AuthProvider.setData, Eff.exec, Eff.finally.
    destruct (Eff.try_catch _ _ st). reflexivity.
  - unfold AuthProvider.signUp, Eff.exec, Eff.finally, Eff.bind, Eff.modify.
    destruct (Eff.try_catch _ _ _). reflexivity.
  - unfold AuthProvider.signIn, Eff.exec, Eff.finally, Eff.bind, Eff.modify.
    destruct (Eff.try_catch _ _ _). reflexivity.
  - unfold AuthProvider.signOut, Eff.exec, Eff.finally, Eff.bind, Eff.modify.
    destruct (Eff.try_catch _ _ _). reflexivity.
  - unfold AuthProvider.resetPassword, Eff.exec, Eff.finally, Eff.bind, Eff.modify.
    destruct (Eff.try_catch _ _ _). reflexivity.
  - unfold AuthProvider.signInWithProvider. run_all.
    destruct started as [[d [e|]]|reason]; simpl; try reflexivity.
    destruct (Js.includes _ _); reflexivity.
Qed.

(** X6: [signOut] never throws and does not touch [user] and
    [session] itself; it sends the browser to [/login] exactly when the
    sign-out call came back without error, and logs otherwise.  The
    session state is cleared by the SIGNED_OUT event that follows:
    after that event [user] and [session] are empty, whatever they
    were. *)
Theorem signOut_then_event (done : Settled unit) (p : AuthProvider.Provisioning)
    (st : AuthProvider.State) :
  let st1 := Eff.exec (AuthProvider.signOut done) st in
  let st2 :=
    Eff.exec (AuthProvider.onAuthStateChange Supabase.SIGNED_OUT None p) st1 in
  Eff.completion (AuthProvider.signOut done) st = Eff.Returned tt
  /\ AuthProvider.user st1 = AuthProvider.user st
  /\ AuthProvider.session st1 = AuthProvider.session st
  /\ AuthProvider.trace st1
     = (AuthProvider.trace st
        ++ [if succeeded done then Navigate "/login"
            else ConsoleError "Error signing out:"])%list
  /\ AuthProvider.user st2 = None
  /\ AuthProvider.session st2 = None
  /\ AuthProvider.isLoading st2 = false.
Proof.
  cbv zeta. unfold AuthProvider.signOut, AuthProvider.onAuthStateChange. run_all.
  destruct done as [[d [e|]]|reason]; simpl; repeat split; reflexivity.
Qed.

(** X7: [signUp] throws exactly when the sign-up call fails (an
    error, no user, or a rejection); the probe of the profiles table
    and the profile insert cannot make it throw.  It sends the profile
    insert, for the new user's id and the chosen username, exactly
    when the sign-up gave a user and the probe came back without
    error. *)
Theorem signUp_throws_only_on_auth_failure (name : string)
    (created : Settled (option Supabase.User)) (table inserted : Settled unit)
    (st : AuthProvider.State) :
  let st' := Eff.exec (AuthProvider.signUp name created table inserted) st in
  (Eff.completion (AuthProvider.signUp name created table inserted) st
     = Eff.Returned tt
   <-> exists u, created = Fulfilled {| data := Some (Some u); error := None |})
  /\ mutations (AuthProvider.trace st')
     = (mutations (AuthProvider.trace st)
        ++ match created with
           | Fulfilled {| data := Some (Some u); error := None |} =>
               if succeeded table
               then [ProfilesInsert (Supabase.id u) name None]
               else []
           | _ => []
           end)%list.
Proof.
  cbv zeta. unfold AuthProvider.signUp. run_all.
  assert (Hsnoc : forall t e, mutations (t ++ [e])
                  = (mutations t ++ if is_mutation e then [e] else [])%list).
  { intros t e. unfold mutations. rewrite List.filter_app. simpl.
    now destruct (is_mutation e). }
  destruct created as [[[[u|]|] [e|]]|reason]; simpl;
    try (split; [split; [discriminate | intros [? ?]; discriminate]
                | now rewrite app_nil_r]).
  destruct table as [[dt [et|]]|rt]; simpl;
    [| destruct inserted as [[di [ei|]]|ri]; simpl |];
    (split; [split; eauto |]);
    rewrite ?Hsnoc; simpl; rewrite ?app_nil_r; reflexivity.
Qed.

(** X8: [signIn] never throws: a failed or rejected call is handed
    back as an error value.  It starts the move to the home page
    exactly when the call came back without error and with a session,
    and returns no error exactly when the call came back without
    error. *)
Theorem signIn_never_throws (signed : Settled (option Supabase.Session))
    (st : AuthProvider.State) :
  let st' := Eff.exec (AuthProvider.signIn signed) st in
  exists result,
    Eff.completion (AuthProvider.signIn signed) st = Eff.Returned result
    /\ (result = None
        <-> exists d, signed = Fulfilled {| data := Some d; error := None |})
    /\ AuthProvider.navigations (AuthProvider.trace st')
       = (AuthProvider.navigations (AuthProvider.trace st)
          ++ match signed with
             | Fulfilled {| data := Some (Some _); error := None |} => ["/"]
             | _ => []
             end)%list
    /\ AuthProvider.user st' = AuthProvider.user st
    /\ AuthProvider.session st' = AuthProvider.session st.
Proof.
  cbv zeta. unfold AuthProvider.signIn. run_all.
  destruct signed as [[[[s|]|] [e|]]|reason]; simpl; eexists;
    (split; [reflexivity |]);
    rewrite ?navigations_snoc; simpl; rewrite ?app_nil_r;
    repeat split; try reflexivity; try discriminate; eauto;
    try (intros [? ?]; discriminate).
Qed.

(** ** Likes that overlap with other changes of the feed *)

Lemma run_app (user : option Supabase.User) (evs1 evs2 : list Feed.Event)
    (st : Feed.State) :
  Feed.run user (evs1 ++ evs2) st = Feed.run user evs2 (Feed.run user evs1 st).
Proof. unfold Feed.run. apply fold_left_app. Qed.

(** INSERT events only touch [posts]. *)
Lemma run_inserted (u : Supabase.User) (rows : list (Settled Feed.PostRow))
    (st : Feed.State) :
  let st' := Feed.run (Some u) (map Feed.PostInserted rows) st in
  Feed.inflight st' = Feed.inflight st
  /\ Feed.trace st' = Feed.trace st
  /\ Feed.error st' = Feed.error st
  /\ Feed.posts st'
     = (rev (map (Feed.transform (Supabase.id u)) (fetched rows)) ++ Feed.posts st)%list.
Proof.
  revert st. induction rows as [|r rows IH]; intros st; [now simpl |].
  cbv zeta.
  change (Feed.run (Some u) (map Feed.PostInserted (r :: rows)) st)
    with (Feed.run (Some u) (map Feed.PostInserted rows)
            (Feed.step (Some u) (Feed.PostInserted r) st)).
  destruct (IH (Feed.step (Some u) (Feed.PostInserted r) st))
    as (Hi & Ht & He & Hp).
  rewrite Hi, Ht, He, Hp, (fetched_cons r rows).
  unfold Feed.step, Feed.onPostInsert.
  destruct r as [[[row|] [e|]]|reason]; simpl; auto.
  rewrite <- app_assoc. auto.
Qed.

Lemma settle_last_of (u : Supabase.User) (k : nat) (st : Feed.State)
    (l : list Feed.Call) (c : Feed.Call) (r : Settled unit) :
  Feed.inflight st = (l ++ [c])%list -> k = length l ->
  Feed.step (Some u) (Feed.Settle k r) st
  = Feed.handlePostLike_settle c r
      {| Feed.posts := Feed.posts st; Feed.loading := Feed.loading st;
         Feed.error := Feed.error st; Feed.inflight := l;
         Feed.trace := Feed.trace st |}.
Proof.
  intros Hin ->. unfold Feed.step. rewrite Hin, lookup_last. f_equal.
  unfold Feed.resume. rewrite Hin, delete_last. reflexivity.
Qed.

(** X9: posts that the subscription puts into the feed while a like
    or unlike is on its way are lost when it comes back.  For a click
    on a cached post whose call needs no notification (an unlike, or a
    like of one's own post), any number of INSERT events before the
    mutation returns without error leave the feed as the array of the
    click with the one post toggled: as long as before, and with none
    of the posts that arrived. *)
Theorem like_settlement_drops_new_posts (u : Supabase.User) (postId : string)
    (st : Feed.State) (p : Feed.Post) (rows : list (Settled Feed.PostRow))
    (resp : Response unit) :
  Feed.lookup_post postId (Feed.posts st) = Some p ->
  Feed.user_has_liked p = true \/ Feed.user_id p = Supabase.id u ->
  Gateway.error resp = None ->
  let k := length (Feed.inflight st) in
  let st' :=
    Feed.run (Some u)
      (Feed.Click postId :: map Feed.PostInserted rows
       ++ [Feed.Settle k (Fulfilled resp)]) st in
  exists i,
    Feed.posts st !! i = Some p
    /\ Feed.posts st'
       = <[i := Feed.toggle_result p (Fulfilled resp)]> (Feed.posts st)
    /\ length (Feed.posts st') = length (Feed.posts st).
Proof.
  intros Hp Hquiet Hresp k st'. subst k st'.
  destruct (click_known u postId st p Hp) as (i & _ & Hl & Hcall).
  exists i. split; [exact Hl |].
  assert (Hposts : Feed.posts
            (Feed.run (Some u)
               (Feed.Click postId :: map Feed.PostInserted rows
                ++ [Feed.Settle (length (Feed.inflight st)) (Fulfilled resp)]) st)
          = <[i := Feed.toggle_result p (Fulfilled resp)]> (Feed.posts st)).
  { change (Feed.run (Some u) (Feed.Click postId :: ?evs) st)
      with (Feed.run (Some u) evs (Feed.handlePostLike_call (Some u) postId st)).
    rewrite run_app, Hcall.
    match goal with
    | |- context [Feed.run (Some u) (map Feed.PostInserted rows) ?s] =>
        destruct (run_inserted u rows s) as (Hi & Ht & He & Hps);
        set (mid := Feed.run (Some u) (map Feed.PostInserted rows) s) in *
    end.
    simpl in Hi. unfold Feed.run. simpl fold_left.
    rewrite (settle_last_of u _ mid _ _ _ Hi eq_refl).
    destruct resp as [d err]. simpl in Hresp. subst err.
    unfold Feed.toggle_result.
    destruct (Feed.user_has_liked p) eqn:Hliked; simpl.
    - reflexivity.
    - destruct Hquiet as [Hq|Hq]; [discriminate |].
      rewrite Hq, String.eqb_refl. reflexivity. }
  rewrite Hposts. split; [reflexivity | apply length_insert].
Qed.

(** X9 at alice unliking [P3] while a new post of bob arrives. *)
Lemma like_settlement_drops_new_posts_witness :
  let st := Feed.mounted [Sample.P3; Sample.P2] in
  let resp := {| data := Some tt; error := None |} in
  (Feed.lookup_post "P3" (Feed.posts st) = Some Sample.P3
   /\ Feed.user_has_liked Sample.P3 = true)
  /\ exists i,
       Feed.posts st !! i = Some Sample.P3
       /\ Feed.posts
            (Feed.run (Some Sample.alice)
               [Feed.Click "P3"; Feed.PostInserted (ok Sample.news_row);
                Feed.Settle 0 (Fulfilled resp)] st)
          = <[i := Feed.toggle_result Sample.P3 (Fulfilled resp)]> (Feed.posts st)
       /\ length
            (Feed.posts
               (Feed.run (Some Sample.alice)
                  [Feed.Click "P3"; Feed.PostInserted (ok Sample.news_row);
                   Feed.Settle 0 (Fulfilled resp)] st))
          = 2.
Proof.
  cbv zeta. split; [split; reflexivity |].
  exact (like_settlement_drops_new_posts Sample.alice "P3"
           (Feed.mounted [Sample.P3; Sample.P2]) Sample.P3
           [ok Sample.news_row] {| data := Some tt; error := None |}
           eq_refl (or_introl eq_refl) eq_refl).
Defined.

Lemma find_insert_other {A} (f : A -> bool) (l : list A) (j : nat) (x y : A) :
  l !! j = Some x -> f x = false -> f y = false ->
  List.find f (<[j := y]> l) = List.find f l.
Proof.
  revert j. induction l as [|a l IH]; intros j Hj Hx Hy; [discriminate |].
  destruct j as [|j]; simpl in *.
  - injection Hj as ->. now rewrite Hx, Hy.
  - destruct (f a); [reflexivity |]. now apply (IH j).
Qed.

Lemma lookup_before_last {A} (l : list A) (a b : A) :
  ((l ++ [a]) ++ [b])%list !! length l = Some a
  /\ delete (length l) ((l ++ [a]) ++ [b])%list = (l ++ [b])%list.
Proof.
  induction l as [|x l [IH1 IH2]]; simpl; [auto |].
  split; [exact IH1 | now rewrite IH2].
Qed.

(** A call that needs no notification writes its snapshot when its
    mutation comes back without error. *)
Lemma settle_quiet (c : Feed.Call) (resp : Response unit) (s : Feed.State) :
  Feed.stage c
    = (if Feed.user_has_liked (Feed.post c) then Feed.AwaitDelete
       else Feed.AwaitInsert) ->
  Feed.user_has_liked (Feed.post c) = true
    \/ Feed.user_id (Feed.post c) = Feed.uid c ->
  Gateway.error resp = None ->
  Feed.handlePostLike_settle c (Fulfilled resp) s
  = Feed.setPosts
      (<[Feed.postIndex c := Feed.toggle_result (Feed.post c) (Fulfilled resp)]>
         (Feed.newPosts c)) s.
Proof.
  intros Hstage Hquiet Hresp. destruct resp as [d err]. simpl in Hresp. subst err.
  unfold Feed.handlePostLike_settle, Feed.toggle_result. rewrite Hstage. simpl.
  destruct (Feed.user_has_liked (Feed.post c)); [reflexivity |].
  destruct Hquiet as [Hq|Hq]; [discriminate |].
  now rewrite Hq, String.eqb_refl.
Qed.

(** X10: two likes on different posts that overlap undo each other in
    the cache.  When two cached posts are clicked before either
    mutation has returned (calls that need no notification), and both
    mutations return without error, both writes have reached the
    backend, and the feed shows the second post toggled and the first
    one as it was before its click. *)
Theorem overlapping_likes_last_writer_wins (u : Supabase.User)
    (idp idq : string) (st : Feed.State) (pp pq : Feed.Post)
    (respp respq : Response unit) :
  Feed.lookup_post idp (Feed.posts st) = Some pp ->
  Feed.lookup_post idq (Feed.posts st) = Some pq ->
  idp <> idq ->
  Feed.user_has_liked pp = true \/ Feed.user_id pp = Supabase.id u ->
  Feed.user_has_liked pq = true \/ Feed.user_id pq = Supabase.id u ->
  Gateway.error respp = None ->
  Gateway.error respq = None ->
  let k := length (Feed.inflight st) in
  let st' :=
    Feed.run (Some u)
      [Feed.Click idp; Feed.Click idq;
       Feed.Settle k (Fulfilled respp); Feed.Settle k (Fulfilled respq)] st in
  length (mutations (Feed.trace st')) = 2 + length (mutations (Feed.trace st))
  /\ Feed.inflight st' = Feed.inflight st
  /\ Feed.lookup_post idp (Feed.posts st') = Some pp
  /\ Feed.lookup_post idq (Feed.posts st')
     = Some (Feed.toggle_result pq (Fulfilled respq)).
Proof.
  intros Hp Hq Hne Hqp Hqq Hrp Hrq k st'. subst k.
  assert (Hfin : exists j m1 mq,
            is_mutation m1 = true /\ is_mutation mq = true
            /\ Feed.posts st !! j = Some pq
            /\ Js.findIndex (fun x => String.eqb (Feed.id x) idq) (Feed.posts st)
               = Some j
            /\ st' = {| Feed.posts :=
                          <[j := Feed.toggle_result pq (Fulfilled respq)]>
                            (Feed.posts st);
                        Feed.loading := Feed.loading st;
                        Feed.error := Feed.error st;
                        Feed.inflight := Feed.inflight st;
                        Feed.trace := ((Feed.trace st ++ [m1]) ++ [mq])%list |}).
  { subst st'.
    destruct (click_known u idp st pp Hp) as (i & Hi & Hli & Hcallp).
    destruct (click_known u idq (Feed.handlePostLike_call (Some u) idp st) pq)
      as (j & Hj & Hlj & Hcallq); [rewrite Hcallp; exact Hq |].
    assert (Hposts1 : Feed.posts (Feed.handlePostLike_call (Some u) idp st)
                      = Feed.posts st) by now rewrite Hcallp.
    rewrite Hposts1 in Hj, Hlj, Hcallq.
    exists j,
      (if Feed.user_has_liked pp then LikesDelete idp (Supabase.id u)
       else LikesInsert idp (Supabase.id u)),
      (if Feed.user_has_liked pq then LikesDelete idq (Supabase.id u)
       else LikesInsert idq (Supabase.id u)).
    split; [now destruct (Feed.user_has_liked pp) |].
    split; [now destruct (Feed.user_has_liked pq) |].
    split; [exact Hlj | split; [exact Hj |]].
    unfold Feed.run. simpl fold_left.
    change (Feed.step (Some u) (Feed.Click idp) st)
      with (Feed.handlePostLike_call (Some u) idp st).
    change (Feed.step (Some u) (Feed.Click idq) ?s)
      with (Feed.handlePostLike_call (Some u) idq s).
    rewrite Hcallq, Hcallp.
    match goal with
    | |- context [Feed.suspend ?c (Feed.emit ?m (Feed.suspend ?c0 ?s0))] =>
        destruct (lookup_before_last (Feed.inflight st) c0 c) as [Hlk Hdel];
        set (cq := c) in *; set (cp := c0) in *
    end.
    unfold Feed.step at 2. simpl Feed.inflight. rewrite Hlk.
    unfold Feed.resume. simpl Feed.inflight. rewrite Hdel.
    rewrite settle_quiet by (subst cp; simpl; auto).
    match goal with
    | |- Feed.step (Some u) (Feed.Settle _ ?r) ?s = _ =>
        rewrite (settle_last_of u _ s (Feed.inflight st) cq r eq_refl eq_refl)
    end.
    rewrite settle_quiet by (subst cq; simpl; auto).
    subst cq cp. reflexivity. }
  destruct Hfin as (j & m1 & mq & Hm1 & Hmq & Hlj & Hj & Hfin).
  rewrite Hfin. clear Hfin st'.
  simpl.
  pose proof (lookup_post_id _ _ _ Hp) as Hidp.
  pose proof (lookup_post_id _ _ _ Hq) as Hidq.
  repeat split.
  - unfold mutations. rewrite !List.filter_app, !length_app. simpl.
    rewrite Hm1, Hmq. simpl. lia.
  - unfold Feed.lookup_post.
    rewrite (find_insert_other _ _ j pq); [exact Hp | exact Hlj | |].
    + apply String.eqb_neq. congruence.
    + apply String.eqb_neq.
      destruct respq as [d [e|]]; simpl; [congruence |].
      destruct (Feed.user_has_liked pq); simpl; congruence.
  - apply (find_insert _ _ _ _ Hj). apply String.eqb_eq.
    destruct respq as [d [e|]]; simpl; [exact Hidq |].
    now destruct (Feed.user_has_liked pq).
Qed.

(** X10 at alice unliking [P3] and liking her own [P2] in one go. *)
Lemma overlapping_likes_last_writer_wins_witness :
  let st := Feed.mounted [Sample.P3; Sample.P2] in
  let success := {| data := Some tt; error := None |} in
  let st' :=
    Feed.run (Some Sample.alice)
      [Feed.Click "P3"; Feed.Click "P2";
       Feed.Settle 0 (Fulfilled success); Feed.Settle 0 (Fulfilled success)] st in
  (Feed.lookup_post "P3" (Feed.posts st) = Some Sample.P3
   /\ Feed.lookup_post "P2" (Feed.posts st) = Some Sample.P2
   /\ "P3" <> "P2")
  /\ length (mutations (Feed.trace st')) = 2
  /\ Feed.inflight st' = []
  /\ Feed.lookup_post "P3" (Feed.posts st') = Some Sample.P3
  /\ Feed.lookup_post "P2" (Feed.posts st')
     = Some (Feed.toggle_result Sample.P2 (Fulfilled success)).
Proof.
  cbv zeta.
  assert (Hne : "P3" <> "P2") by discriminate.
  split; [repeat split; exact Hne |].
  exact (overlapping_likes_last_writer_wins Sample.alice "P3" "P2"
           (Feed.mounted [Sample.P3; Sample.P2]) Sample.P3 Sample.P2
           {| data := Some tt; error := None |} {| data := Some tt; error := None |}
           eq_refl eq_refl Hne (or_introl eq_refl) (or_intror eq_refl)
           eq_refl eq_refl).
Defined.

(** ** The post form *)

(** X11: the post form never holds a file that is larger than 5 MB
    or whose type does not start with [image/]: whatever is typed,
    picked, previewed or removed, in any order, the chosen image is
    none or an acceptable one if it was so at the start. *)
Theorem post_form_image_stays_acceptable (es : list CreatePost.Edit)
    (st : CreatePost.State) :
  CreatePost.image_ok st -> CreatePost.image_ok (CreatePost.edits es st).
Proof.
  revert st. induction es as [|e es IH]; intros st Hok; [exact Hok |].
  unfold CreatePost.edits. simpl fold_left. apply IH.
  destruct e as [s|[f|]|result|]; simpl; try exact Hok; try exact I.
  unfold CreatePost.handleImageChange.
  destruct (Nat.ltb_spec CreatePost.max_image_size (CreatePost.size f)) as [Hbig|Hfit];
    [exact Hok |].
  destruct (String.prefix "image/" (CreatePost.type f)) eqn:Hty; simpl;
    [| exact Hok].
  unfold CreatePost.image_ok. simpl. split; assumption.
Qed.

Lemma post_form_image_stays_acceptable_witness :
  let big := {| CreatePost.name := "film.png";
                CreatePost.size := CreatePost.max_image_size + 1;
                CreatePost.type := "image/png" |} in
  let doc := {| CreatePost.name := "cv.pdf"; CreatePost.size := 1000;
                CreatePost.type := "application/pdf" |} in
  let pic := {| CreatePost.name := "cat.jpg"; CreatePost.size := 1000;
                CreatePost.type := "image/jpeg" |} in
  CreatePost.image_ok CreatePost.blank
  /\ CreatePost.image_ok
       (CreatePost.edits
          [CreatePost.Pick (Some big); CreatePost.Pick (Some pic);
           CreatePost.Pick (Some doc); CreatePost.Type_ "look"]
          CreatePost.blank).
Proof.
  cbv zeta. split; [exact I |].
  exact (post_form_image_stays_acceptable _ CreatePost.blank I).
Defined.

(** X12: a post with an image.  The file goes to the bucket under
    [<user id>/<uuid>.<extension>], and the post row is sent only after
    the upload has come back without error, with the public URL of
    that same path as its [image_url]; when the upload fails no post
    is sent. *)
Theorem post_row_follows_upload (url : string) (u : Supabase.User)
    (uuid : string) (upload insert : Settled unit) (f : CreatePost.File)
    (st : CreatePost.State) :
  CreatePost.image st = Some f ->
  let path := Supabase.id u ++ "/" ++ uuid ++ "." ++ CreatePost.fileExt f in
  let st' := CreatePost.handleSubmit url (Some u) uuid upload insert st in
  CreatePost.trace st'
  = (CreatePost.trace st
     ++ StorageUpload "post-images" path
        :: (if succeeded upload
            then PostsInsert (Supabase.id u) (Js.trim (CreatePost.content st))
                   (Some (CreatePost.getPublicUrl url "post-images" path))
                 :: (if succeeded insert then []
                     else [ConsoleError "Error creating post:"])
            else [ConsoleError "Error creating post:"]))%list.
Proof.
  intros Himg path st'. subst path st'.
  unfold CreatePost.handleSubmit. rewrite Himg. cbv zeta.
  unfold CreatePost.handleSubmit_call.
  rewrite Himg. simpl Js.is_Some_b. rewrite andb_false_r. simpl. rewrite Himg.
  simpl. rewrite lookup_last. unfold CreatePost.resume. simpl.
  rewrite delete_last.
  destruct upload as [[du [eu|]]|ru]; simpl;
    rewrite ?lookup_length_None; simpl; rewrite <- ?app_assoc; try reflexivity.
  rewrite lookup_last, delete_last.
  destruct insert as [[di [ei|]]|ri]; simpl; rewrite <- ?app_assoc; reflexivity.
Qed.

Lemma post_row_follows_upload_witness :
  let pic := {| CreatePost.name := "cat.jpg"; CreatePost.size := 1000;
                CreatePost.type := "image/jpeg" |} in
  let st := CreatePost.setImage (Some pic) CreatePost.blank in
  CreatePost.image st = Some pic
  /\ CreatePost.trace
       (CreatePost.handleSubmit Sample.supabaseUrl (Some Sample.alice) "u1"
          (ok tt) (ok tt) st)
     = [ StorageUpload "post-images" "alice-id/u1.jpg";
         PostsInsert "alice-id" ""
           (Some "https://project.supabase.co/storage/v1/object/public/post-images/alice-id/u1.jpg") ].
Proof.
  cbv zeta. split; [reflexivity |].
  exact (post_row_follows_upload Sample.supabaseUrl Sample.alice "u1"
           (ok tt) (ok tt)
           {| CreatePost.name := "cat.jpg"; CreatePost.size := 1000;
              CreatePost.type := "image/jpeg" |}
           (CreatePost.setImage
              (Some {| CreatePost.name := "cat.jpg"; CreatePost.size := 1000;
                       CreatePost.type := "image/jpeg" |})
              CreatePost.blank)
           eq_refl).
Defined.

(** X13: what a submission does to the form.  With blank text and no
    image nothing is sent and a hint is shown.  Otherwise the
    submission ends with [isSubmitting] off and nothing left
    suspended; when every call came back without error the form is
    emptied and no error is shown, and when one failed the text and
    the image are kept and an error is shown. *)
Theorem post_form_after_submit (url : string) (u : Supabase.User)
    (uuid : string) (upload insert : Settled unit) (st : CreatePost.State) :
  let st' := CreatePost.handleSubmit url (Some u) uuid upload insert st in
  let all_ok :=
    succeeded insert
    && (if Js.is_Some_b (CreatePost.image st) then succeeded upload else true) in
  CreatePost.inflight st' = CreatePost.inflight st
  /\ (CreatePost.has_draft st = false ->
      CreatePost.trace st' = CreatePost.trace st
      /\ CreatePost.error st' = Some "Please add some content or an image"
      /\ CreatePost.content st' = CreatePost.content st)
  /\ (CreatePost.has_draft st = true ->
      CreatePost.isSubmitting st' = false
      /\ (all_ok = true ->
          CreatePost.content st' = "" /\ CreatePost.image st' = None
          /\ CreatePost.error st' = None)
      /\ (all_ok = false ->
          CreatePost.content st' = CreatePost.content st
          /\ CreatePost.image st' = CreatePost.image st
          /\ is_Some (CreatePost.error st'))).
Proof.
  cbv zeta. unfold CreatePost.handleSubmit, CreatePost.has_draft. cbv zeta.
  unfold CreatePost.handleSubmit_call.
  destruct (CreatePost.image st) as [f|] eqn:Himg; simpl Js.is_Some_b.
  - rewrite orb_true_r, andb_false_r. simpl. rewrite Himg. simpl.
    rewrite lookup_last. unfold CreatePost.resume. simpl. rewrite delete_last.
    destruct upload as [[du [eu|]]|ru]; simpl;
      rewrite ?lookup_length_None; simpl; rewrite ?andb_false_r;
      try (repeat split; intros; try discriminate; eauto; fail).
    rewrite lookup_last, delete_last.
    destruct insert as [[di [ei|]]|ri]; simpl;
      repeat split; intros; try discriminate; eauto.
  - rewrite orb_false_r. simpl.
    destruct (Js.truthy (Js.trim (CreatePost.content st))) eqn:Hdraft; simpl.
    + rewrite Himg. simpl. rewrite lookup_last. unfold CreatePost.resume. simpl.
      rewrite delete_last.
      destruct insert as [[di [ei|]]|ri]; simpl;
        repeat split; intros; try discriminate; eauto.
    + rewrite lookup_length_None.
      repeat split; intros; try discriminate; eauto.
Qed.

(** ** Submitting a comment or a message *)

(** X14: submitting a comment never touches the comments array (a
    new comment shows up only through the subscription) and never
    throws.  Without a user or with a blank draft nothing happens at
    all.  Otherwise [submitting] is off at the end, and the draft is
    emptied exactly when the comment insert came back without error
    and the notification insert, if one was due, did not reject; in
    every other case the draft is kept. *)
Theorem comment_submit_outcome (user : option Supabase.User)
    (postId postUserId : string) (r rn : Settled unit)
    (st : CommentSection.State) :
  let m := CommentSection.handleSubmit user postId postUserId r rn in
  let st' := Eff.exec m st in
  Eff.completion m st = Eff.Returned tt
  /\ CommentSection.comments st' = CommentSection.comments st
  /\ match user with
     | None => st' = st
     | Some u =>
         if Js.truthy (Js.trim (CommentSection.newComment st)) then
           CommentSection.submitting st' = false
           /\ CommentSection.newComment st'
              = (if succeeded r
                    && (String.eqb (Supabase.id u) postUserId || fulfilled rn)
                 then "" else CommentSection.newComment st)
         else st' = st
     end.
Proof.
  cbv zeta. unfold CommentSection.handleSubmit. run_all.
  destruct user as [u|]; [| auto].
  destruct (Js.truthy (Js.trim (CommentSection.newComment st))); simpl; [| auto].
  destruct r as [[d [e|]]|reason]; simpl; auto.
  destruct (String.eqb (Supabase.id u) postUserId); simpl; auto.
  destruct rn as [respn|reason]; simpl; auto.
Qed.

(** X15: sending a chat message.  Without a user, a chat or a
    non-blank draft nothing is sent.  Otherwise exactly one message
    row is sent, with the trimmed draft as its content, and nothing
    else is written: no notification is created for the recipients.
    The draft is emptied exactly when the insert came back without
    error, the messages array is left alone, and the handler never
    throws. *)
Theorem message_submit_outcome (user : option Supabase.User)
    (chatId : option string) (r : Settled unit) (st : ChatWindow.State) :
  let m := ChatWindow.handleSubmit user chatId r in
  let st' := Eff.exec m st in
  let sends :=
    match user, chatId with
    | Some u, Some chat =>
        if Js.truthy chat && Js.truthy (Js.trim (ChatWindow.newMessage st))
        then Some (Ui.MessagesInsert chat (Supabase.id u)
                     (Js.trim (ChatWindow.newMessage st)))
        else None
    | _, _ => None
    end in
  Eff.completion m st = Eff.Returned tt
  /\ ChatWindow.messages st' = ChatWindow.messages st
  /\ Ui.writes (ChatWindow.trace st')
     = (Ui.writes (ChatWindow.trace st)
        ++ match sends with Some a => [a] | None => [] end)%list
  /\ ChatWindow.newMessage st'
     = (if Js.is_Some_b sends && succeeded r then ""
        else ChatWindow.newMessage st).
Proof.
  cbv zeta. unfold ChatWindow.handleSubmit. run_all.
  assert (Hsnoc : forall t a, Ui.writes (t ++ [a])
                  = (Ui.writes t ++ if Ui.is_write a then [a] else [])%list).
  { intros t a. unfold Ui.writes. rewrite List.filter_app. simpl.
    now destruct (Ui.is_write a). }
  destruct user as [u|], chatId as [chat|]; simpl;
    rewrite ?app_nil_r; auto.
  destruct (Js.truthy chat); simpl; rewrite ?app_nil_r; auto.
  destruct (Js.truthy (Js.trim (ChatWindow.newMessage st))); simpl;
    rewrite ?app_nil_r; auto.
  destruct r as [[d [e|]]|reason]; simpl;
    rewrite ?Hsnoc; simpl; rewrite ?app_nil_r; auto.
Qed.

(** ** The navigation bar's counters *)

(** Subscription events alone: each message event with a row of
    another user adds one to the unread messages, each notification
    event adds one to the unread notifications, and the suspended
    [fetchUnreadCounts] is left where it is. *)
Lemma pushes_add (user : Supabase.User) (ps : list Navigation.Push)
    (m : Navigation.Mounted) :
  let m' := Navigation.run user (map Navigation.Pushed ps) m in
  Navigation.unreadMessages (Navigation.cells m')
  = (Navigation.unreadMessages (Navigation.cells m)
     + Z.of_nat (length (List.filter (Navigation.by_others user) ps)))%Z
  /\ Navigation.unreadNotifications (Navigation.cells m')
     = (Navigation.unreadNotifications (Navigation.cells m)
        + Z.of_nat (length (List.filter Navigation.is_notification ps)))%Z
  /\ Navigation.fetch m' = Navigation.fetch m.
Proof.
  cbv zeta. revert m. induction ps as [|p ps IH]; intros m.
  - simpl. repeat split; lia.
  - change (Navigation.run user (map Navigation.Pushed (p :: ps)) m)
      with (Navigation.run user (map Navigation.Pushed ps)
              (Navigation.step user (Navigation.Pushed p) m)).
    destruct (IH (Navigation.step user (Navigation.Pushed p) m))
      as (Hm & Hn & Hf).
    rewrite Hm, Hn, Hf. clear IH Hm Hn Hf.
    destruct p as [[row|]|]; simpl;
      unfold Navigation.onMessageInsert;
      try destruct (String.eqb (Navigation.user_id row) (Supabase.id user));
      simpl; repeat split; lia.
Qed.

(** X16: the unread-messages count of the mounted navigation bar.
    Subscription events only add to it, one for each message event
    that carries a row of another user.  The last count of
    [fetchUnreadCounts] replaces it: when that await settles, the
    count becomes the total that was fetched, whatever events have
    arrived since the bar was mounted, so their increments are lost;
    from then on the count is that total plus one for each later
    event with a row of another user. *)
Theorem unread_messages_after_fetch (user : Supabase.User)
    (early late : list Navigation.Push) (resp : Response Z)
    (m : Navigation.Mounted) :
  let finish := Navigation.Counted (Fulfilled resp) in
  is_Some (Navigation.fetch m) ->
  Navigation.fetch (Navigation.step user finish m) = None ->
  let unread x := Navigation.unreadMessages (Navigation.cells x) in
  let others ps :=
    Z.of_nat (length (List.filter (Navigation.by_others user) ps)) in
  let m1 := Navigation.run user (map Navigation.Pushed early) m in
  let m2 := Navigation.step user finish m1 in
  let m3 := Navigation.run user (map Navigation.Pushed late) m2 in
  (unread m1 = unread m + others early
   /\ (exists total,
         Navigation.fetch m = Some (Navigation.AwaitCount [] total)
         /\ unread m2 = total + Navigation.counted resp)
   /\ unread m2 = unread (Navigation.step user finish m)
   /\ unread m3 = unread m2 + others late
   /\ Navigation.fetch m3 = None)%Z.
Proof.
  intros finish Hsome Hdone unread others m1 m2 m3.
  destruct (pushes_add user early m) as (Hm1 & _ & Hf1).
  fold m1 in Hm1, Hf1.
  destruct (pushes_add user late m2) as (Hm3 & _ & Hf3).
  fold m3 in Hm3, Hf3.
  assert (Hstage : exists total,
             Navigation.fetch m = Some (Navigation.AwaitCount [] total)).
  { destruct m as [c [[| |rest total]|]]; simpl in *;
      try discriminate; [| destruct Hsome; discriminate].
    destruct rest as [|r rest]; [now exists total |].
    exfalso. subst finish. simpl in Hdone.
    destruct (Gateway.error resp), (Gateway.data resp); discriminate. }
  destruct Hstage as [total Hstage].
  assert (E2 : m2 = {| Navigation.cells :=
                         Navigation.setUnreadMessages
                           (total + Navigation.counted resp)
                           (Navigation.cells m1);
                       Navigation.fetch := None |}).
  { subst m2 finish. unfold Navigation.step. rewrite Hf1, Hstage.
    unfold Navigation.counted.
    destruct (Gateway.error resp), (Gateway.data resp); simpl;
      rewrite ?Z.add_0_r; reflexivity. }
  assert (E0 : Navigation.step user finish m
               = {| Navigation.cells :=
                      Navigation.setUnreadMessages
                        (total + Navigation.counted resp)
                        (Navigation.cells m);
                    Navigation.fetch := None |}).
  { subst finish. unfold Navigation.step. rewrite Hstage.
    unfold Navigation.counted.
    destruct (Gateway.error resp), (Gateway.data resp); simpl;
      rewrite ?Z.add_0_r; reflexivity. }
  split; [exact Hm1 |].
  split; [exists total; split; [exact Hstage | now rewrite E2] |].
  split; [unfold unread; now rewrite E2, E0 |].
  split; [exact Hm3 |].
  rewrite Hf3, E2. reflexivity.
Qed.

(** X16 at alice's bar with one chat still being counted: a message
    of bob arrives and the count shows 1; then the count of the chat
    comes back as 0 and the count shows 0. *)
Lemma unread_messages_after_fetch_witness :
  let m :=
    Navigation.run Sample.alice
      [Navigation.NotificationsCounted (ok 3%Z);
       Navigation.ChatsSelected (ok ["c1"])] Navigation.mounted in
  let early := [Navigation.MessagePush (Some Sample.foreign_message)] in
  let finish :=
    Navigation.Counted (Fulfilled {| data := Some 0%Z; error := None |}) in
  (is_Some (Navigation.fetch m)
   /\ Navigation.fetch (Navigation.step Sample.alice finish m) = None)
  /\ Navigation.unreadMessages
       (Navigation.cells
          (Navigation.run Sample.alice (map Navigation.Pushed early) m)) = 1%Z
  /\ Navigation.unreadMessages
       (Navigation.cells
          (Navigation.run Sample.alice
             (map Navigation.Pushed early ++ [finish]) m)) = 0%Z.
Proof.
  cbv zeta.
  assert (Hsome : is_Some
                    (Navigation.fetch
                       (Navigation.run Sample.alice
                          [Navigation.NotificationsCounted (ok 3%Z);
                           Navigation.ChatsSelected (ok ["c1"])]
                          Navigation.mounted)))
    by (eexists; reflexivity).
  split; [split; [exact Hsome | reflexivity] |].
  pose proof (unread_messages_after_fetch Sample.alice
                [Navigation.MessagePush (Some Sample.foreign_message)] []
                {| data := Some 0%Z; error := None |} _ Hsome eq_refl) as H.
  cbv zeta in H. destruct H as (H1 & _ & H2 & _).
  split; [exact H1 | exact H2].
Defined.

Lemma one_digit (n : Z) :
  (1 <= n <= 9)%Z -> String.length (Js.of_nat (Z.to_nat n)) = 1.
Proof.
  intros Hn.
  assert (Hc : (n = 1 \/ n = 2 \/ n = 3 \/ n = 4 \/ n = 5 \/ n = 6
                \/ n = 7 \/ n = 8 \/ n = 9)%Z) by lia.
  repeat destruct Hc as [->|Hc]; try subst n; reflexivity.
Qed.

(** X17: what the Messages and Notifications items of the navigation
    bar show for a count [n >= 0].  For [n = 0] the page shows a bare
    "0" next to the icon, not nothing: the guard [item.badge && ...]
    evaluates to the number.  For [1 <= n <= 9] the badge shows the
    number, one character, and above 9 it shows "9+". *)
Theorem nav_badge_for_count (n : Z) :
  (0 <= n)%Z ->
  (n = 0%Z -> Navigation.render_badge (Some n) = Navigation.Text "0")
  /\ ((1 <= n <= 9)%Z ->
      Navigation.render_badge (Some n)
        = Navigation.Badge (Js.of_nat (Z.to_nat n))
      /\ String.length (Js.of_nat (Z.to_nat n)) = 1)
  /\ ((9 < n)%Z -> Navigation.render_badge (Some n) = Navigation.Badge "9+")
  /\ Navigation.render_badge (Some n) <> Navigation.Nothing.
Proof.
  intros Hn. unfold Navigation.render_badge.
  destruct (Z.eqb_spec n 0) as [->|Hne].
  - repeat split; try reflexivity; try lia; discriminate.
  - destruct (Z.ltb_spec 0 n) as [Hpos|Hneg]; [| lia].
    destruct (Z.ltb_spec 9 n) as [Hbig|Hsmall].
    + repeat split; try reflexivity; try lia; discriminate.
    + repeat split; try reflexivity; try lia; try discriminate.
      now apply one_digit.
Qed.

Lemma nav_badge_for_count_witness :
  (0 <= 0)%Z
  /\ Navigation.render_badge (Some 0%Z) = Navigation.Text "0"
  /\ Navigation.render_badge (Some 0%Z) <> Navigation.Nothing.
Proof.
  assert (H : (0 <= 0)%Z) by lia.
  split; [exact H |].
  destruct (nav_badge_for_count 0 H) as (H0 & _ & _ & Hsome).
  exact (conj (H0 eq_refl) Hsome).
Defined.

(** ** The add-members dialog and the chat information panel *)

Lemma flip_flip (userId : string) (u : AddChatMembers.User) :
  AddChatMembers.flip userId (AddChatMembers.flip userId u) = u.
Proof.
  unfold AddChatMembers.flip.
  destruct (String.eqb (AddChatMembers.id u) userId) eqn:Hid; simpl;
    rewrite Hid; [| reflexivity].
  destruct u as [i n a s]; simpl. now rewrite negb_involutive.
Qed.

Lemma flip_keeps (userId : string) (u : AddChatMembers.User) :
  AddChatMembers.id (AddChatMembers.flip userId u) = AddChatMembers.id u
  /\ AddChatMembers.username (AddChatMembers.flip userId u)
     = AddChatMembers.username u.
Proof.
  unfold AddChatMembers.flip.
  destruct (String.eqb (AddChatMembers.id u) userId); auto.
Qed.

Lemma filter_map_flip (userId : string) (f : AddChatMembers.User -> bool)
    (us : list AddChatMembers.User) :
  (forall u, f (AddChatMembers.flip userId u) = f u) ->
  List.filter f (map (AddChatMembers.flip userId) us)
  = map (AddChatMembers.flip userId) (List.filter f us).
Proof.
  intros Hf. induction us as [|u us IH]; simpl; [reflexivity |].
  rewrite Hf. destruct (f u); simpl; now rewrite IH.
Qed.

(** X18: ticking a user in the add-members dialog.  Ticking the same
    user twice gives the dialog back as it was; a tick changes nobody's
    id or position; and it keeps the shown list in step with the full
    list: if [filteredUsers] was what the search effect computes from
    [users], it still is after the tick, so the effect that runs next
    changes nothing. *)
Theorem member_tick_keeps_lists_in_step (userId : string)
    (st : AddChatMembers.State) :
  AddChatMembers.filteredUsers st
    = AddChatMembers.visible (AddChatMembers.searchQuery st)
        (AddChatMembers.users st) ->
  let st' := AddChatMembers.toggleUserSelection userId st in
  AddChatMembers.toggleUserSelection userId st' = st
  /\ map AddChatMembers.id (AddChatMembers.users st')
     = map AddChatMembers.id (AddChatMembers.users st)
  /\ AddChatMembers.refilter st' = st'.
Proof.
  intros Hstep st'. subst st'.
  unfold AddChatMembers.toggleUserSelection, AddChatMembers.refilter. simpl.
  repeat split.
  - assert (Hm : forall l, map (AddChatMembers.flip userId)
                             (map (AddChatMembers.flip userId) l) = l).
    { induction l as [|u l IH]; simpl; [reflexivity |].
      now rewrite flip_flip, IH. }
    unfold AddChatMembers.setFilteredUsers, AddChatMembers.setUsers. simpl.
    rewrite !Hm. now destruct st.
  - rewrite map_map. apply map_ext. intros u. apply flip_keeps.
  - unfold AddChatMembers.setFilteredUsers. simpl. f_equal.
    rewrite Hstep. unfold AddChatMembers.visible.
    destruct (String.eqb (Js.trim (AddChatMembers.searchQuery st)) "");
      [reflexivity |].
    apply filter_map_flip. intros u.
    now rewrite (proj2 (flip_keeps userId u)).
Qed.

Lemma member_tick_keeps_lists_in_step_witness :
  AddChatMembers.filteredUsers Sample.dialog
    = AddChatMembers.visible (AddChatMembers.searchQuery Sample.dialog)
        (AddChatMembers.users Sample.dialog)
  /\ AddChatMembers.toggleUserSelection "erin-id"
       (AddChatMembers.toggleUserSelection "erin-id" Sample.dialog)
     = Sample.dialog
  /\ AddChatMembers.refilter
       (AddChatMembers.toggleUserSelection "erin-id" Sample.dialog)
     = AddChatMembers.toggleUserSelection "erin-id" Sample.dialog.
Proof.
  assert (H : AddChatMembers.filteredUsers Sample.dialog
              = AddChatMembers.visible (AddChatMembers.searchQuery Sample.dialog)
                  (AddChatMembers.users Sample.dialog)) by reflexivity.
  split; [exact H |].
  destruct (member_tick_keeps_lists_in_step "erin-id" Sample.dialog H)
    as (Hinv & _ & Hstep).
  exact (conj Hinv Hstep).
Defined.

Lemma writes_snoc (t : list Ui.Action) (a : Ui.Action) :
  Ui.writes (t ++ [a])
  = (Ui.writes t ++ if Ui.is_write a then [a] else [])%list.
Proof.
  unfold Ui.writes. rewrite List.filter_app. simpl.
  now destruct (Ui.is_write a).
Qed.

(** X19: the Add Members button.  With nobody ticked nothing is sent
    and the dialog is unchanged.  Otherwise one insert is sent with
    one row per ticked user, each for this chat, in list order; the
    parent is told about exactly those users, and only when the insert
    came back without error, while a failure is logged and answered
    with an alert.  [adding] is off at the end and the lists are
    untouched. *)
Theorem add_members_outcome (u : Supabase.User) (chatId : string)
    (r : Settled unit) (st : AddChatMembers.State) :
  let m := AddChatMembers.handleAddMembers (Some u) chatId r in
  let st' := Eff.exec m st in
  let ticked := AddChatMembers.getSelectedUsers st in
  Eff.completion m st = Eff.Returned tt
  /\ AddChatMembers.users st' = AddChatMembers.users st
  /\ AddChatMembers.filteredUsers st' = AddChatMembers.filteredUsers st
  /\ (ticked = [] -> st' = st)
  /\ (ticked <> [] ->
      AddChatMembers.adding st' = false
      /\ AddChatMembers.trace st'
         = (AddChatMembers.trace st
            ++ Ui.Base
                 (ChatMembersInsert
                    (map (fun x => (chatId, AddChatMembers.id x)) ticked))
               :: (if succeeded r
                   then [Ui.OnMembersAdded (map AddChatMembers.id ticked)]
                   else [Ui.Base (ConsoleError "Error adding members:");
                         Ui.Alert "Failed to add members"]))%list).
Proof.
  cbv zeta. unfold AddChatMembers.handleAddMembers. run_all.
  destruct (AddChatMembers.getSelectedUsers st) as [|x xs] eqn:Hsel; simpl.
  - repeat split; auto; contradiction.
  - destruct r as [[d [e|]]|reason]; simpl;
      repeat split; auto; try discriminate;
      rewrite <- ?app_assoc; reflexivity.
Qed.

(** X20: removing a member in the chat information panel.  Nobody
    but the chat's creator gets a delete sent, and the creator cannot
    be removed.  The members list only ever loses the member that was
    asked for, and only when the delete came back without error:
    everybody else stays, in order, and on a failure the list is
    unchanged. *)
Theorem remove_member_outcome (user : option Supabase.User)
    (chatId memberId : string) (r : Settled unit) (st : ChatInfo.State) :
  let m := ChatInfo.handleRemoveMember user chatId memberId r in
  let st' := Eff.exec m st in
  let allowed :=
    match user with
    | Some u =>
        Js.truthy chatId
        && ChatInfo.is_creator_id (Supabase.id u) (ChatInfo.creatorId st)
        && negb (ChatInfo.is_creator_id memberId (ChatInfo.creatorId st))
    | None => false
    end in
  Eff.completion m st = Eff.Returned tt
  /\ Ui.writes (ChatInfo.trace st')
     = (Ui.writes (ChatInfo.trace st)
        ++ if allowed then [Ui.ChatMembersDelete chatId (Some memberId)]
           else [])%list
  /\ ChatInfo.members st'
     = (if allowed && succeeded r
        then List.filter (fun x => negb (String.eqb (ChatInfo.id x) memberId))
               (ChatInfo.members st)
        else ChatInfo.members st)
  /\ (forall x, In x (ChatInfo.members st) ->
      ChatInfo.is_creator_id (ChatInfo.id x) (ChatInfo.creatorId st) = true ->
      In x (ChatInfo.members st')).
Proof.
  cbv zeta. unfold ChatInfo.handleRemoveMember. run_all.
  destruct user as [u|]; simpl; [| rewrite app_nil_r; auto].
  destruct (Js.truthy chatId); simpl; [| rewrite app_nil_r; auto].
  destruct (ChatInfo.is_creator_id (Supabase.id u) (ChatInfo.creatorId st));
    simpl; [| rewrite app_nil_r; auto].
  destruct (ChatInfo.is_creator_id memberId (ChatInfo.creatorId st)) eqn:Hm;
    simpl; [rewrite app_nil_r; auto |].
  destruct r as [[d [e|]]|reason]; simpl;
    rewrite ?writes_snoc; simpl; rewrite ?app_nil_r; repeat split; auto.
  intros x Hx Hcreator. apply List.filter_In. split; [exact Hx |].
  destruct (String.eqb_spec (ChatInfo.id x) memberId) as [Heq|Hne];
    [| reflexivity].
  rewrite Heq in Hcreator. congruence.
Qed.

(** X21: deleting a chat.  Only the creator gets anything sent.  The
    deletes go out in the order messages, members, chat, each one only
    after the one before has come back without error, so the chat row
    is deleted only when its messages and members are gone; a delete
    that fails stops the rest, and what was deleted before it stays
    deleted.  The browser leaves the chat only when all three
    succeeded. *)
Theorem delete_chat_outcome (u : Supabase.User) (chatId : string)
    (r1 r2 r3 : Settled unit) (st : ChatInfo.State) :
  let m := ChatInfo.handleDeleteChat (Some u) chatId r1 r2 r3 in
  let st' := Eff.exec m st in
  let failed := [Ui.Base (ConsoleError "Error deleting chat:")] in
  Eff.completion m st = Eff.Returned tt
  /\ ChatInfo.members st' = ChatInfo.members st
  /\ ChatInfo.trace st'
     = (ChatInfo.trace st
        ++ if Js.truthy chatId
              && ChatInfo.is_creator_id (Supabase.id u) (ChatInfo.creatorId st)
           then
             Ui.MessagesDelete chatId
             :: (if succeeded r1 then
                   Ui.ChatMembersDelete chatId None
                   :: (if succeeded r2 then
                         Ui.ChatsDelete chatId
                         :: (if succeeded r3
                             then [Ui.Base (Navigate "/messages"); Ui.OnClose]
                             else failed)
                       else failed)
                 else failed)
           else [])%list.
Proof.
  cbv zeta. unfold ChatInfo.handleDeleteChat. run_all.
  destruct (Js.truthy chatId); simpl; [| rewrite app_nil_r; auto].
  destruct (ChatInfo.is_creator_id (Supabase.id u) (ChatInfo.creatorId st));
    simpl; [| rewrite app_nil_r; auto].
  destruct r1 as [[d1 [e1|]]|x1]; simpl;
    try (repeat split; auto; rewrite <- ?app_assoc; reflexivity).
  destruct r2 as [[d2 [e2|]]|x2]; simpl;
    try (repeat split; auto; rewrite <- ?app_assoc; reflexivity).
  destruct r3 as [[d3 [e3|]]|x3]; simpl;
    repeat split; auto; rewrite <- ?app_assoc; reflexivity.
Qed.

(** X22: opening the dialog again after members were added.  When
    the candidates of the dialog are distinct accounts none of which
    is a member yet (its select asks for exactly the profiles whose id
    is not among [existingMembers]), handing the ticked users to the
    panel leaves the members list without duplicate ids: the old
    members stay in front, in order, the ticked users follow, and the
    dialog is closed. *)
Theorem added_members_are_new (cst : ChatInfo.State)
    (dst : AddChatMembers.State) :
  NoDup (ChatInfo.existingMembers cst) ->
  NoDup (map AddChatMembers.id (AddChatMembers.users dst)) ->
  Forall (fun x => ~ In (AddChatMembers.id x) (ChatInfo.existingMembers cst))
    (AddChatMembers.users dst) ->
  let ticked := AddChatMembers.getSelectedUsers dst in
  let cst' := ChatInfo.onMembersAdded ticked cst in
  NoDup (ChatInfo.existingMembers cst')
  /\ ChatInfo.existingMembers cst'
     = (ChatInfo.existingMembers cst ++ map AddChatMembers.id ticked)%list
  /\ ChatInfo.showAddMembers cst' = false.
Proof.
  intros Hold Hcand Hnew ticked cst'. subst ticked cst'.
  unfold ChatInfo.onMembersAdded, ChatInfo.existingMembers in *. simpl.
  rewrite map_app, map_map. simpl.
  change (map (fun x => AddChatMembers.id x)) with (map AddChatMembers.id).
  split; [| split; reflexivity].
  unfold AddChatMembers.getSelectedUsers.
  induction (AddChatMembers.users dst) as [|x xs IH]; simpl.
  - now rewrite app_nil_r.
  - inversion Hcand as [|? ? Hx Hxs]. inversion Hnew as [|? ? Hnx Hnxs]. subst.
    specialize (IH Hxs Hnxs).
    destruct (AddChatMembers.selected x); simpl; [| exact IH].
    apply NoDup_app in IH as (H1 & H2 & H3).
    apply NoDup_app. split; [exact H1 | split].
    + intros y Hy Hin. apply list_elem_of_In in Hin. simpl in Hin.
      destruct Hin as [<-|Hin].
      * apply Hnx. now apply list_elem_of_In.
      * apply (H2 y Hy). now apply list_elem_of_In.
    + constructor; [| exact H3].
      intros Hin. apply Hx. apply list_elem_of_In in Hin.
      apply list_elem_of_In.
      apply in_map_iff in Hin as (z & Hz & Hzin).
      apply List.filter_In in Hzin as [Hzin _].
      apply in_map_iff. eauto.
Qed.

Lemma added_members_are_new_witness :
  (NoDup (ChatInfo.existingMembers Sample.panel)
   /\ NoDup (map AddChatMembers.id (AddChatMembers.users Sample.dialog)))
  /\ ChatInfo.existingMembers
       (ChatInfo.onMembersAdded (AddChatMembers.getSelectedUsers Sample.dialog)
          Sample.panel)
     = ["carol-id"; "alice-id"; "bob-id"; "erin-id"].
Proof.
  assert (H1 : NoDup (ChatInfo.existingMembers Sample.panel)).
  { repeat constructor; rewrite ?list_elem_of_In; simpl; intuition discriminate. }
  assert (H2 : NoDup (map AddChatMembers.id (AddChatMembers.users Sample.dialog))).
  { repeat constructor; rewrite ?list_elem_of_In; simpl; intuition discriminate. }
  assert (H3 : Forall (fun x => ~ In (AddChatMembers.id x)
                                  (ChatInfo.existingMembers Sample.panel))
                 (AddChatMembers.users Sample.dialog)).
  { repeat constructor; simpl; intuition discriminate. }
  split; [exact (conj H1 H2) |].
  exact (proj1 (proj2 (added_members_are_new Sample.panel Sample.dialog H1 H2 H3))).
Defined.

(** X23: leaving and renaming a chat.  Leaving sends the delete of
    the viewer's own membership and moves on to the chat list only
    when it came back without error.  Renaming is sent only for a
    group chat and a non-blank name, with the name trimmed, and
    refreshes the page only on success; a failure of either is only
    logged. *)
Theorem leave_and_rename_outcome (u : Supabase.User) (chatId : string)
    (isGroup : bool) (r : Settled unit) (st : ChatInfo.State) :
  let failed msg := [Ui.Base (ConsoleError msg)] in
  ChatInfo.trace (Eff.exec (ChatInfo.handleLeaveChat (Some u) chatId r) st)
  = (ChatInfo.trace st
     ++ if Js.truthy chatId then
          Ui.ChatMembersDelete chatId (Some (Supabase.id u))
          :: (if succeeded r
              then [Ui.Base (Navigate "/messages"); Ui.OnClose]
              else failed "Error leaving chat:")
        else [])%list
  /\ ChatInfo.trace
       (Eff.exec (ChatInfo.handleUpdateChatName (Some u) chatId isGroup r) st)
     = (ChatInfo.trace st
        ++ if Js.truthy chatId && isGroup
              && Js.truthy (Js.trim (ChatInfo.chatName st))
           then
             Ui.ChatsUpdate chatId (Js.trim (ChatInfo.chatName st))
             :: (if succeeded r then [Ui.RouterRefresh]
                 else failed "Error updating chat name:")
           else [])%list.
Proof.
  cbv zeta. unfold ChatInfo.handleLeaveChat, ChatInfo.handleUpdateChatName.
  run_all. split.
  - destruct (Js.truthy chatId); simpl; [| now rewrite app_nil_r].
    destruct r as [[d [e|]]|x]; simpl; rewrite <- ?app_assoc; reflexivity.
  - destruct (Js.truthy chatId); simpl; [| now rewrite app_nil_r].
    destruct isGroup; simpl; [| now rewrite app_nil_r].
    destruct (Js.truthy (Js.trim (ChatInfo.chatName st))); simpl;
      [| now rewrite app_nil_r].
    destruct r as [[d [e|]]|x]; simpl; rewrite <- ?app_assoc; reflexivity.
Qed.

(** ** The profile header *)

(** X24: the Follow button is local.  Any number of clicks leaves
    the effect trace as it was (nothing is ever sent to the backend),
    leaves the state untouched on one's own profile or when signed
    out, and otherwise flips [isFollowing] once per click while the
    followers count moves with it, by one up on a follow and one down
    on an unfollow. *)
Theorem follow_is_local (user : option Supabase.User) (isCurrentUser : bool)
    (n : nat) (st : ProfileHeader.State) :
  let st' := ProfileHeader.clicks user isCurrentUser n st in
  ProfileHeader.trace st' = ProfileHeader.trace st
  /\ (ProfileHeader.followersCount st' - Z.b2z (ProfileHeader.isFollowing st')
      = ProfileHeader.followersCount st - Z.b2z (ProfileHeader.isFollowing st))%Z
  /\ ProfileHeader.isFollowing st'
     = xorb (ProfileHeader.isFollowing st)
         (Js.is_Some_b user && negb isCurrentUser && Nat.odd n).
Proof.
  cbv zeta. unfold ProfileHeader.clicks. induction n as [|n (Ht & Hc & Hf)].
  - simpl. rewrite !andb_false_r, xorb_false_r. auto.
  - rewrite Nat.iter_succ.
    set (mid := Nat.iter n (ProfileHeader.handleFollowToggle user isCurrentUser) st) in *.
    rewrite Nat.odd_succ, <- Nat.negb_odd.
    unfold ProfileHeader.handleFollowToggle.
    destruct user as [u|]; simpl in *.
    + destruct isCurrentUser; simpl in *.
      * rewrite Hf, Ht. rewrite Hf in Hc. auto.
      * rewrite Ht. rewrite Hf in *.
        destruct (ProfileHeader.isFollowing st), (Nat.odd n); simpl in *;
          repeat split; auto; lia.
    + rewrite Hf, Ht. rewrite Hf in Hc. auto.
Qed.

(** X25: changing the avatar.  A file over 2 MB or of a type that
    does not start with [image/] is answered with an alert and nothing
    is uploaded.  Otherwise the file is uploaded under
    [<user id>/<uuid>.<extension>]; the profile is updated only after
    the upload came back without error, with the public URL of that
    same path, and the page is refreshed only after the update came
    back without error.  [isUploading] is off afterwards. *)
Theorem avatar_change_outcome (url : string) (u : Supabase.User)
    (f : CreatePost.File) (uuid : string) (upload update : Settled unit)
    (st : ProfileHeader.State) :
  let m := ProfileHeader.handleAvatarChange url (Some u) (Some f) uuid
             upload update in
  let st' := Eff.exec m st in
  let path := Supabase.id u ++ "/" ++ uuid ++ "." ++ CreatePost.fileExt f in
  let failed := [Ui.Base (ConsoleError "Error uploading avatar:");
                 Ui.Alert "Failed to upload avatar"] in
  let accepted :=
    (CreatePost.size f <=? ProfileHeader.max_avatar_size)%nat
    && String.prefix "image/" (CreatePost.type f) in
  Eff.completion m st = Eff.Returned tt
  /\ ProfileHeader.isUploading st'
     = (if accepted then false else ProfileHeader.isUploading st)
  /\ (accepted = false ->
      exists msg, ProfileHeader.trace st'
                  = (ProfileHeader.trace st ++ [Ui.Alert msg])%list)
  /\ (accepted = true ->
      ProfileHeader.trace st'
      = (ProfileHeader.trace st
         ++ Ui.Base (StorageUpload "avatars" path)
            :: (if succeeded upload then
                  Ui.ProfilesUpdate (Supabase.id u)
                    (CreatePost.getPublicUrl url "avatars" path)
                  :: (if succeeded update then [Ui.RouterRefresh] else failed)
                else failed))%list).
Proof.
  cbv zeta. unfold ProfileHeader.handleAvatarChange. run_all.
  rewrite Nat.leb_antisym.
  destruct (ProfileHeader.max_avatar_size <? CreatePost.size f)%nat; simpl.
  { repeat split; auto; [eauto | discriminate]. }
  destruct (String.prefix "image/" (CreatePost.type f)); simpl.
  2:{ repeat split; auto; [eauto | discriminate]. }
  destruct upload as [[du [eu|]]|xu]; simpl;
    try (repeat split; auto; try discriminate; intros _;
         rewrite <- ?app_assoc; reflexivity).
  destruct update as [[dp [ep|]]|xp]; simpl;
    repeat split; auto; try discriminate; intros _;
    rewrite <- ?app_assoc; reflexivity.
Qed.

(** ** Sharing a post *)

Lemma substring_short (m : nat) (s : string) :
  (String.length s <= m)%nat -> String.substring 0 m s = s.
Proof.
  revert m. induction s as [|c s IH]; intros m Hm; simpl in *.
  - now destruct m.
  - destruct m as [|m]; [lia |]. f_equal. apply IH. lia.
Qed.

Lemma substring_length (m : nat) (s : string) :
  String.length (String.substring 0 m s) = Nat.min m (String.length s).
Proof.
  revert m. induction s as [|c s IH]; intros m; simpl.
  - now destruct m.
  - destruct m as [|m]; simpl; [reflexivity |]. now rewrite IH.
Qed.

Lemma append_length (a b : string) :
  String.length (a ++ b) = String.length a + String.length b.
Proof. induction a as [|c a IH]; simpl; [reflexivity | now rewrite IH]. Qed.

Lemma append_empty (a : string) : a ++ "" = a.
Proof.
  induction a as [|c a IH]; [reflexivity |].
  change (String c (a ++ "") = String c a). now rewrite IH.
Qed.

Lemma substring_is_prefix (m : nat) (s : string) :
  String.prefix (String.substring 0 m s) s = true.
Proof.
  revert m. induction s as [|c s IH]; intros m; simpl.
  - now destruct m.
  - destruct m as [|m]; simpl; [reflexivity |].
    destruct (Ascii.ascii_dec c c) as [_|Hne]; [apply IH | contradiction].
Qed.

(** X26: the text handed to the share sheet is never longer than 53
    characters.  A post of at most 50 characters is shared as it is;
    a longer one is cut to its first 50 characters followed by
    "...". *)
Theorem share_text_is_bounded (content : string) :
  (String.length (PostCard.share_text content) <= 53)%nat
  /\ ((String.length content <= 50)%nat -> PostCard.share_text content = content)
  /\ ((50 < String.length content)%nat ->
      String.length (PostCard.share_text content) = 53
      /\ exists head,
           PostCard.share_text content = head ++ "..."
           /\ String.length head = 50
           /\ String.prefix head content = true).
Proof.
  unfold PostCard.share_text.
  destruct (Nat.ltb_spec 50 (String.length content)) as [Hlong|Hshort].
  - cbv iota.
    assert (Hlen : String.length (String.substring 0 50 content) = 50)
      by (rewrite substring_length; lia).
    assert (Htot : String.length (String.substring 0 50 content ++ "...") = 53)
      by (rewrite append_length, Hlen; reflexivity).
    split; [lia | split; [intros H; lia |]].
    intros _. split; [exact Htot |].
    exists (String.substring 0 50 content).
    split; [reflexivity | split; [exact Hlen | apply substring_is_prefix]].
  - cbv iota. rewrite append_empty, substring_short by exact Hshort.
    split; [lia | split; [reflexivity | intros H; lia]].
Qed.

(** ** Where a notification leads *)

(** X27: every notification that liking a post or commenting on it
    creates leads to that post: whatever id, time and sender the
    stored row comes back with, the notifications list links it to
    [/post/<post id>]. *)
Theorem created_notifications_link_to_post (u : Supabase.User)
    (postId : string) (st : Feed.State) (p : Feed.Post)
    (resp : Response unit) (rn : Settled unit)
    (postUserId : string) (cst : CommentSection.State)
    (cresp : Response unit) (crn : Settled unit) :
  Feed.lookup_post postId (Feed.posts st) = Some p ->
  Feed.user_has_liked p = false ->
  Gateway.error resp = None ->
  Js.truthy (Js.trim (CommentSection.newComment cst)) = true ->
  Gateway.error cresp = None ->
  let created :=
    (skipn (length (notification_inserts (Feed.trace st)))
       (notification_inserts
          (Feed.trace
             (Feed.handlePostLike (Some u) postId (Fulfilled resp) rn st)))
     ++ skipn (length (notification_inserts (CommentSection.trace cst)))
          (notification_inserts
             (CommentSection.trace
                (Eff.exec
                   (CommentSection.handleSubmit (Some u) postId postUserId
                      (Fulfilled cresp) crn) cst))))%list in
  Forall
    (fun e =>
       match e with
       | NotificationsInsert row =>
           forall rowId createdAt sender,
             NotificationsList.getNotificationLink
               (NotificationsList.of_row rowId createdAt sender row)
             = "/post/" ++ postId
       | _ => False
       end) created.
Proof.
  intros Hp Hliked Hresp Hdraft Hcresp created. subst created.
  rewrite (like_notification u postId resp rn st p Hp Hliked Hresp).
  rewrite (comment_notification u postId postUserId cresp crn cst Hdraft Hcresp).
  rewrite !skipn_app, !skipn_all, !Nat.sub_diag. simpl.
  destruct (decide (Feed.user_id p = Supabase.id u)),
    (decide (postUserId = Supabase.id u)); simpl;
    repeat constructor.
Qed.

Lemma created_notifications_link_to_post_witness :
  let st := Feed.mounted [Sample.P1] in
  let cst := CommentSection.mounted [] " nice " in
  let success := {| data := Some tt; error := None |} in
  (Feed.lookup_post "P1" (Feed.posts st) = Some Sample.P1
   /\ Js.truthy (Js.trim (CommentSection.newComment cst)) = true)
  /\ Forall
       (fun e =>
          match e with
          | NotificationsInsert row =>
              forall rowId createdAt sender,
                NotificationsList.getNotificationLink
                  (NotificationsList.of_row rowId createdAt sender row)
                = "/post/P1"
          | _ => False
          end)
       (skipn 0
          (notification_inserts
             (Feed.trace
                (Feed.handlePostLike (Some Sample.alice) "P1"
                   (Fulfilled success) (ok tt) st)))
        ++ skipn 0
             (notification_inserts
                (CommentSection.trace
                   (Eff.exec
                      (CommentSection.handleSubmit (Some Sample.alice) "P1"
                         "bob-id" (Fulfilled success) (ok tt)) cst))))%list.
Proof.
  cbv zeta. split; [split; reflexivity |].
  exact (created_notifications_link_to_post Sample.alice "P1"
           (Feed.mounted [Sample.P1]) Sample.P1
           {| data := Some tt; error := None |} (ok tt)
           "bob-id" (CommentSection.mounted [] " nice ")
           {| data := Some tt; error := None |} (ok tt)
           eq_refl eq_refl eq_refl eq_refl eq_refl).
Defined.

(** ** Where starting a chat ends *)

Lemma is_member_intro (uid cid : string) (d : ChatList.Db) (m : ChatList.MemberRow) :
  In m (ChatList.chat_members d) ->
  ChatList.chat_id m = cid -> ChatList.user_id m = uid ->
  ChatList.is_member uid cid d = true.
Proof.
  intros Hin Hc Hu. unfold ChatList.is_member. apply existsb_exists.
  exists m. split; [exact Hin |].
  apply andb_true_iff. split; now apply String.eqb_eq.
Qed.

Lemma direct_chat_intro (a b : string) (d : ChatList.Db) (c : ChatList.ChatRow) :
  In c (ChatList.chats d) -> ChatList.is_group c = false ->
  ChatList.is_member a (ChatList.id c) d = true ->
  ChatList.is_member b (ChatList.id c) d = true ->
  In (ChatList.id c) (ChatList.direct_chats_between a b d).
Proof.
  intros Hin Hg Ha Hb. unfold ChatList.direct_chats_between.
  apply in_map. apply List.filter_In. split; [exact Hin |].
  now rewrite Hg, Ha, Hb.
Qed.

(** What the creating branch of [createOrGetChat] leaves behind. *)
Lemma create_direct_chat_lands (a b newId : string) (w : ChatList.World) :
  exists w',
    ChatList.create_direct_chat a b newId w = (Eff.Returned tt, w')
    /\ ChatList.trace w'
       = (ChatList.trace w
          ++ [ChatsInsert None false a;
              ChatMembersInsert [(newId, a); (newId, b)];
              Navigate (ChatList.messages_href newId)])%list
    /\ In newId (ChatList.direct_chats_between a b (ChatList.db w'))
    /\ length (ChatList.chats (ChatList.db w'))
       = S (length (ChatList.chats (ChatList.db w))).
Proof.
  unfold ChatList.create_direct_chat, ChatList.insert_chat,
    ChatList.insert_members. run_all.
  eexists. split; [reflexivity |]. simpl.
  split; [now rewrite <- !app_assoc | split].
  - apply (direct_chat_intro a b _
             {| ChatList.id := newId; ChatList.name := None;
                ChatList.is_group := false; ChatList.created_by := a |});
      simpl; try reflexivity.
    + apply in_or_app. right. now left.
    + apply (is_member_intro a newId _
               {| ChatList.chat_id := newId; ChatList.user_id := a |});
        simpl; try reflexivity.
      apply in_or_app. right. now left.
    + apply (is_member_intro b newId _
               {| ChatList.chat_id := newId; ChatList.user_id := b |});
        simpl; try reflexivity.
      apply in_or_app. right. right. now left.
  - rewrite length_app. simpl. lia.
Qed.

#[local] Arguments ChatList.create_direct_chat : simpl never.

(** The two ways through [createOrGetChat]: it creates, or the first
    chat the two share is found to be a direct one. *)
Lemma createOrGetChat_cases (a b newId : string) (w : ChatList.World) :
  ChatList.createOrGetChat a b newId w = ChatList.create_direct_chat a b newId w
  \/ exists c ma m0,
       In c (ChatList.chats (ChatList.db w))
       /\ ChatList.is_group c = false
       /\ ChatList.id c = ChatList.chat_id m0
       /\ In m0 (ChatList.chat_members (ChatList.db w))
       /\ ChatList.user_id m0 = b
       /\ In ma (ChatList.chat_members (ChatList.db w))
       /\ ChatList.user_id ma = a
       /\ ChatList.chat_id ma = ChatList.chat_id m0
       /\ ChatList.createOrGetChat a b newId w
          = (Eff.Returned tt,
             ChatList.emit (Navigate (ChatList.messages_href (ChatList.id c))) w).
Proof.
  destruct (create_direct_chat_lands a b newId w) as (wc & Hrun & _).
  unfold ChatList.createOrGetChat, ChatList.createOrGetChat_try,
    ChatList.select_chat_ids_of, ChatList.select_chat_ids_in,
    ChatList.select_direct_chat, ChatList.single.
  unfold Eff.try_catch, Eff.bind, Eff.get, Eff.await, Eff.throw_if, Eff.ret,
    Eff.modify, ok, failed. simpl.
  destruct (List.filter (fun m => String.eqb (ChatList.user_id m) a)
              (ChatList.chat_members (ChatList.db w))) as [|e es] eqn:Hmine;
    simpl; [rewrite Hrun; now left |].
  match goal with
  | |- context [List.filter ?f (ChatList.chat_members (ChatList.db w))] =>
      destruct (List.filter f (ChatList.chat_members (ChatList.db w)))
        as [|m0 ms] eqn:Hboth
  end; simpl; [rewrite Hrun; now left |].
  destruct (List.filter
              (fun c => String.eqb (ChatList.id c) (ChatList.chat_id m0)
                        && negb (ChatList.is_group c))
              (ChatList.chats (ChatList.db w))) as [|c [|c' cs]] eqn:Hchat;
    simpl; [rewrite Hrun; now left | | rewrite Hrun; now left].
  right.
  assert (Hc : In c (List.filter
                       (fun c => String.eqb (ChatList.id c) (ChatList.chat_id m0)
                                 && negb (ChatList.is_group c))
                       (ChatList.chats (ChatList.db w)))) by (rewrite Hchat; now left).
  apply List.filter_In in Hc as [Hcin Hc].
  apply andb_true_iff in Hc as [Hcid Hcg].
  apply String.eqb_eq in Hcid. apply negb_true_iff in Hcg.
  assert (Hm0 : In m0 (m0 :: ms)) by now left.
  rewrite <- Hboth in Hm0.
  apply List.filter_In in Hm0 as [Hm0in Hm0].
  apply andb_true_iff in Hm0 as [Hm0b Hm0a].
  apply String.eqb_eq in Hm0b.
  change ((ChatList.chat_id m0 =? ChatList.chat_id e)
          || existsb (String.eqb (ChatList.chat_id m0)) (map ChatList.chat_id es))
    with (existsb (String.eqb (ChatList.chat_id m0))
            (map ChatList.chat_id (e :: es))) in Hm0a.
  apply existsb_exists in Hm0a as (cid & Hcidin & Hcideq).
  apply String.eqb_eq in Hcideq.
  apply in_map_iff in Hcidin as (ma & Hma & Hmain).
  rewrite <- Hmine in Hmain. apply List.filter_In in Hmain as [Hmain Hmaa].
  apply String.eqb_eq in Hmaa.
  exists c, ma, m0. repeat split; auto; congruence.
Qed.

(** X28: wherever [createOrGetChat] takes the user, it is a direct
    chat of the two: the handler always ends with one navigation, to a
    chat that is not a group and has both users as members.  Either
    that chat existed and nothing was written, or it is the chat the
    handler has just inserted together with its two membership
    rows. *)
Theorem createOrGetChat_lands_in_direct_chat (a b newId : string)
    (d : ChatList.Db) :
  let w := {| ChatList.db := d; ChatList.trace := [] |} in
  let w' := Eff.exec (ChatList.createOrGetChat a b newId) w in
  exists c,
    In c (ChatList.direct_chats_between a b (ChatList.db w'))
    /\ ((ChatList.db w' = d
         /\ ChatList.trace w' = [Navigate (ChatList.messages_href c)])
        \/ (c = newId
            /\ length (ChatList.chats (ChatList.db w'))
               = S (length (ChatList.chats d))
            /\ ChatList.trace w'
               = [ChatsInsert None false a;
                  ChatMembersInsert [(newId, a); (newId, b)];
                  Navigate (ChatList.messages_href newId)])).
Proof.
  cbv zeta. unfold Eff.exec.
  destruct (createOrGetChat_cases a b newId
              {| ChatList.db := d; ChatList.trace := [] |})
    as [Hnew|(c & ma & m0 & Hcin & Hcg & Hcid & Hm0 & Hb & Hma & Ha & Hsame & Hold)].
  - rewrite Hnew.
    destruct (create_direct_chat_lands a b newId
                {| ChatList.db := d; ChatList.trace := [] |})
      as (w' & -> & Ht & Hin & Hlen).
    exists newId. simpl. split; [exact Hin |]. right. auto.
  - rewrite Hold. simpl. exists (ChatList.id c). split; [| left; auto].
    simpl in *. apply direct_chat_intro; [exact Hcin | exact Hcg | |].
    + apply (is_member_intro a _ d ma); congruence.
    + apply (is_member_intro b _ d m0); congruence.
Qed.

(** ** The initial session load *)

(** X29: [setData] never throws.  When [getSession] answers without
    error, [user] and [session] are what it answered, whatever the
    profile provisioning that follows does; when it answers with an
    error, with no data, or rejects, [user] and [session] stay as they
    were.  In no case does the initial load send the browser
    anywhere. *)
Theorem setData_outcome (got : Settled (option Supabase.Session))
    (p : AuthProvider.Provisioning) (st : AuthProvider.State) :
  let st' := Eff.exec (AuthProvider.setData got p) st in
  Eff.completion (AuthProvider.setData got p) st = Eff.Returned tt
  /\ match got with
     | Fulfilled {| data := Some sess; error := None |} =>
         AuthProvider.session st' = sess
         /\ AuthProvider.user st' = Supabase.user <$> sess
     | _ =>
         AuthProvider.session st' = AuthProvider.session st
         /\ AuthProvider.user st' = AuthProvider.user st
     end
  /\ AuthProvider.navigations (AuthProvider.trace st')
     = AuthProvider.navigations (AuthProvider.trace st).
Proof.
  cbv zeta. unfold AuthProvider.setData. run_all.
  destruct got as [[[[s|]|] [e|]]|reason]; simpl;
    try provision_step;
    rewrite ?navigations_snoc; simpl; rewrite ?app_nil_r;
    repeat split; congruence.
Qed.
